(** * ITAssetManager: authentication, tenant handlers and expiry logic

    A shallow embedding of the parts of the application that the
    specification talks about:

    - [server/auth.ts]      password hashing, JWT issue / verify, the
                            [isAuthenticated] guard;
    - [server/routes.ts]    the register, login, asset and support-mode
                            handlers;
    - [shared/schema.ts]    the Zod schemas used by those handlers;
    - [client/.../register.tsx]     the registration form's submit path;
    - [client/.../applications.tsx] [getExpiryWarning].

    JavaScript values that travel as [any] (request bodies, token
    payloads, rows returned by the storage layer) are JSON values; an
    object is a finite map from property names to values and [undefined]
    is the absence of a value ([None]).  Numbers are integers, as the
    timestamps, durations and counters the modelled code computes with
    are; arithmetic on fractional amounts is not modelled.
    A string is a sequence of code units, one [ascii] each. *)

From stdpp Require Import gmap strings list fin_maps.
From Stdlib Require Import ZArith Ascii String Lia.

#[local] Set Warnings "-register-all".
#[local] Open Scope Z_scope.

(** ** JavaScript values *)

Inductive jsval : Type :=
| JNull
| JBool (b : bool)
| JNum (n : Z)
| JStr (s : string)
| JArr (l : list jsval)
| JObj (m : gmap string jsval).

Abbreviation obj := (gmap string jsval).

(** Truthiness of a possibly [undefined] value, as used by [!x], [x || y]
    and [x && y]. *)
Definition truthy (v : option jsval) : bool :=
  match v with
  | None => false
  | Some JNull => false
  | Some (JBool b) => b
  | Some (JNum n) => negb (n =? 0)
  | Some (JStr s) => negb (String.eqb s "")
  | Some (JArr _) => true
  | Some (JObj _) => true
  end.

(** [a || b] *)
Definition js_or (a b : option jsval) : option jsval :=
  if truthy a then a else b.

(** Property read [v.k]; reading from a primitive gives [undefined]. *)
Definition prop (v : option jsval) (k : string) : option jsval :=
  match v with
  | Some (JObj m) => m !! k
  | _ => None
  end.

(** [{ ...o, k: v }] and [o.k = v]: a property set to [undefined] reads
    back as [undefined]. *)
Definition js_set (k : string) (v : option jsval) (o : obj) : obj :=
  match v with
  | Some x => <[k := x]> o
  | None => delete k o
  end.

(** An object literal [{ k1: v1, ..., kn: vn }], built left to right so
    that a later key overrides an earlier one. *)
Fixpoint mkobj_from (acc : obj) (fields : list (string * option jsval)) : obj :=
  match fields with
  | [] => acc
  | (k, v) :: rest => mkobj_from (js_set k v acc) rest
  end.

Definition mkobj (fields : list (string * option jsval)) : obj :=
  mkobj_from ∅ fields.

(** What a literal yields at key [k']: the last field named [k']. *)
Fixpoint lit_lookup (k' : string) (fields : list (string * option jsval))
    (dflt : option jsval) : option jsval :=
  match fields with
  | [] => dflt
  | (k, v) :: rest => lit_lookup k' rest (if String.eqb k k' then v else dflt)
  end.

(** Spread of an arbitrary value into an object literal, [{ ...v }].  Only
    objects contribute named properties; a string or an array would
    contribute index keys (["0"], ["1"], ...), which no schema below reads
    and which Zod's default object mode strips. *)
Definition spread (v : option jsval) : obj :=
  match v with
  | Some (JObj m) => m
  | _ => ∅
  end.

(** ** Strings *)

Definition is_digit (a : ascii) : bool :=
  let n := nat_of_ascii a in (48 <=? n)%nat && (n <=? 57)%nat.

Fixpoint all_digits (s : string) : bool :=
  match s with
  | EmptyString => true
  | String a r => is_digit a && all_digits r
  end.

(** [/^\d{n}$/.test(s)] *)
Definition digits_exact (n : nat) (s : string) : bool :=
  (String.length s =? n)%nat && all_digits s.

(** ** Exceptions and results *)

Inductive exn : Type :=
| ZodError
| JsError (message : string) (code : option string).

Inductive Res (A : Type) : Type :=
| Ok (a : A)
| Throw (e : exn).
Arguments Ok {A} a.
Arguments Throw {A} e.

(** ** Zod

    A schema maps an input (possibly [undefined]) to its parsed output or
    reports an issue ([None]).  Only acceptance and the output value are
    modelled, not the issue list. *)

Definition validator := option jsval -> option (option jsval).

Definition z_string : validator := fun i =>
  match i with
  | Some (JStr s) => Some (Some (JStr s))
  | _ => None
  end.

Definition z_string_min (n : nat) : validator := fun i =>
  match i with
  | Some (JStr s) => if (n <=? String.length s)%nat then Some (Some (JStr s)) else None
  | _ => None
  end.

(** [z.string().email(..)]; the e-mail pattern is Zod's and is a parameter. *)
Definition z_string_email (is_email : string -> bool) : validator := fun i =>
  match i with
  | Some (JStr s) => if is_email s then Some (Some (JStr s)) else None
  | _ => None
  end.

Definition z_enum (options : list string) : validator := fun i =>
  match i with
  | Some (JStr s) => if existsb (String.eqb s) options then Some (Some (JStr s)) else None
  | _ => None
  end.

Definition z_number : validator := fun i =>
  match i with
  | Some (JNum n) => Some (Some (JNum n))
  | _ => None
  end.

(** [z.date()] accepts [Date] instances only; a JSON value is never one. *)
Definition z_date : validator := fun _ => None.

Definition z_optional (v : validator) : validator := fun i =>
  match i with
  | None => Some None
  | Some _ => v i
  end.

Definition z_nullable (v : validator) : validator := fun i =>
  match i with
  | Some JNull => Some (Some JNull)
  | _ => v i
  end.

(** [schema.refine(check)]: the check runs on the parsed output. *)
Definition z_refine (v : validator) (check : option jsval -> bool) : validator := fun i =>
  match v i with
  | Some out => if check out then Some out else None
  | None => None
  end.

(** [z.object({...})] in its default mode: every listed key is validated,
    unknown keys are stripped from the output. *)
Fixpoint parse_fields (fields : list (string * validator)) (m : obj) : option obj :=
  match fields with
  | [] => Some ∅
  | (k, v) :: rest =>
      match v (m !! k), parse_fields rest m with
      | Some out, Some acc => Some (js_set k out acc)
      | _, _ => None
      end
  end.

Definition z_object (fields : list (string * validator)) (input : option jsval) : option obj :=
  match input with
  | Some (JObj m) => parse_fields fields m
  | _ => None
  end.

(** [schema.parse(input)]: returns the output or throws a [ZodError]. *)
Definition zparse (schema : option jsval -> option obj) (input : option jsval) : Res obj :=
  match schema input with
  | Some out => Ok out
  | None => Throw ZodError
  end.

(** [a === b] on possibly [undefined] primitives.  Objects and arrays
    compare by reference in JavaScript; the handlers below only compare
    strings, so two structured values are reported as different. *)
Definition js_strict_eq (a b : option jsval) : bool :=
  match a, b with
  | None, None => true
  | Some JNull, Some JNull => true
  | Some (JBool x), Some (JBool y) => Bool.eqb x y
  | Some (JNum x), Some (JNum y) => (x =? y)
  | Some (JStr x), Some (JStr y) => String.eqb x y
  | _, _ => false
  end.

(** ** shared/schema.ts *)

Definition opt_nullable (v : validator) : validator := z_nullable (z_optional v).

Definition insertAssetSchema : option jsval -> option obj :=
  z_object
    [ ("companyId", z_string);
      ("name", z_string_min 1);
      ("type", z_enum ["physical"; "application"; "license"; "contract"]);
      ("description", opt_nullable z_string);
      ("serialNumber", opt_nullable z_string);
      ("model", opt_nullable z_string);
      ("manufacturer", opt_nullable z_string);
      ("purchaseDate", opt_nullable z_date);
      ("warrantyExpiry", opt_nullable z_date);
      ("monthlyCost", z_optional z_number);
      ("annualCost", z_optional z_number);
      ("status", z_optional (z_enum ["active"; "inactive"; "maintenance"; "deprecated"; "disposed"]));
      ("location", opt_nullable z_string);
      ("assignedTo", opt_nullable z_string);
      ("notes", opt_nullable z_string);
      ("applicationType", opt_nullable (z_enum ["saas"; "custom_development"]));
      ("url", opt_nullable z_string);
      ("version", opt_nullable z_string);
      ("domainCost", z_optional z_number);
      ("sslCost", z_optional z_number);
      ("hostingCost", z_optional z_number);
      ("serverCost", z_optional z_number);
      ("domainExpiry", opt_nullable z_date);
      ("sslExpiry", opt_nullable z_date);
      ("hostingExpiry", opt_nullable z_date);
      ("serverExpiry", opt_nullable z_date) ].

(** [(val) => !val || /^\d{n}$/.test(val)] on the output of
    [z.string().optional()]. *)
Definition id_refinement (n : nat) (val : option jsval) : bool :=
  negb (truthy val) ||
  match val with
  | Some (JStr s) => digits_exact n s
  | _ => false
  end.

Definition registration_fields (is_email : string -> bool) : list (string * validator) :=
  [ ("name", z_string_min 1);
    ("plan", z_enum ["pyme"; "professional"]);
    ("ruc", z_refine (z_optional z_string) (id_refinement 13));
    ("cedula", z_refine (z_optional z_string) (id_refinement 10));
    ("address", z_string_min 1);
    ("phone", z_string_min 1);
    ("email", z_string_email is_email);
    ("firstName", z_string_min 1);
    ("lastName", z_string_min 1);
    ("password", z_string_min 6);
    ("confirmPassword", z_string) ].

Definition companyRegistrationSchema (is_email : string -> bool)
    (input : option jsval) : option obj :=
  match z_object (registration_fields is_email) input with
  | Some data =>
      if js_strict_eq (data !! "password") (data !! "confirmPassword")
      then Some data else None
  | None => None
  end.

Definition loginSchema (is_email : string -> bool) : option jsval -> option obj :=
  z_object [ ("email", z_string_email is_email); ("password", z_string_min 1) ].

(** The e-mail and password a login body yields when it passes
    [loginSchema]. *)
Definition credentials (is_email : string -> bool) (body : option jsval)
    : option (string * string) :=
  match loginSchema is_email body with
  | Some c =>
      match c !! "email", c !! "password" with
      | Some (JStr e), Some (JStr p) => Some (e, p)
      | _, _ => None
      end
  | None => None
  end.

(** ** Platform libraries

    Functions of Node's [crypto], of [jsonwebtoken], of Zod and of the
    JavaScript engine that the application calls but does not define. *)

Record Lib : Type := {
  (** [crypto.createHash("sha256").update(s).digest("hex")] *)
  sha256_hex : string -> string;
  (** HMAC-SHA256 of a message under a key, base64url *)
  hmac_sha256 : string -> string -> string;
  (** base64url(header) . base64url(JSON(payload)) for the HS256 header *)
  jwt_signing_input : obj -> string;
  (** split and decode a compact token into its signing input, payload and
      signature; [None] when the token is malformed *)
  jwt_decode : string -> option (string * jsval * string);
  (** Zod's e-mail pattern *)
  zod_email : string -> bool;
  (** [new Date(v).getTime()]; [None] is an invalid date (NaN) *)
  date_time : jsval -> option Z;
  (** [Number(v)] on strings, arrays and objects; [None] is NaN *)
  to_number : jsval -> option Z;
  (** [new Date(ms).toISOString()] *)
  to_iso_string : Z -> string;
  (** the string a value turns into inside a template literal *)
  to_display : option jsval -> string
}.

(** ** server/auth.ts *)

Module Auth.

Definition DEV_SECRET : string := "dev-secret-change-in-production".

(** [process.env.JWT_SECRET || "dev-secret-change-in-production"] *)
Definition jwtSecret (env_JWT_SECRET : option string) : string :=
  match env_JWT_SECRET with
  | Some s => if String.eqb s "" then DEV_SECRET else s
  | None => DEV_SECRET
  end.

Definition SEVEN_DAYS : Z := 7 * 24 * 60 * 60.

(** [Math.floor(Date.now() / 1000)] *)
Definition seconds (now_ms : Z) : Z := now_ms / 1000.

(** The compact serialisation of a signed set of claims. *)
Definition compact (L : Lib) (secret : string) (claims : obj) : string :=
  let input := jwt_signing_input L claims in
  input +:+ "." +:+ hmac_sha256 L secret input.

(** [jwt.sign(payload, secret, { expiresIn: "7d" })] of jsonwebtoken for
    an object payload: registered claims already in the payload must be
    numbers, a payload that already has [exp] is refused, [iat] is kept
    when the payload has one and is otherwise the current second, and
    [exp] is [iat] plus the time span. *)
Definition jwt_sign (L : Lib) (payload : obj) (secret : string) (now_ms : Z) : Res string :=
  let is_number (v : option jsval) :=
    match v with None | Some (JNum _) => true | _ => false end in
  if negb (is_number (payload !! "iat") && is_number (payload !! "exp")
           && is_number (payload !! "nbf"))
  then Throw (JsError "invalid registered claim" None)
  else match payload !! "exp" with
  | Some _ =>
      Throw (JsError "Bad options.expiresIn option the payload already has an exp property." None)
  | None =>
      let timestamp :=
        match payload !! "iat" with
        | Some (JNum n) => if n =? 0 then seconds now_ms else n
        | _ => seconds now_ms
        end in
      let claims :=
        <["exp" := JNum (timestamp + SEVEN_DAYS)]> (<["iat" := JNum timestamp]> payload) in
      Ok (compact L secret claims)
  end.

(** The expiry check of [jwt.verify]. *)
Definition check_exp (payload : jsval) (now_ms : Z) : Res jsval :=
  match prop (Some payload) "exp" with
  | None => Ok payload
  | Some (JNum e) =>
      if e <=? seconds now_ms then Throw (JsError "jwt expired" None)
      else Ok payload
  | Some _ => Throw (JsError "invalid exp value" None)
  end.

(** The not-before check of [jwt.verify]. *)
Definition check_nbf (payload : jsval) (now_ms : Z) : Res jsval :=
  match prop (Some payload) "nbf" with
  | None => Ok payload
  | Some (JNum n) =>
      if seconds now_ms <? n then Throw (JsError "jwt not active" None)
      else Ok payload
  | Some _ => Throw (JsError "invalid nbf value" None)
  end.

(** [jwt.verify(token, secret)] of jsonwebtoken: the signature is
    recomputed over the signing input, then [nbf] and [exp] are checked
    against the current second.  (A token without signature is refused
    with a message of its own; an HMAC is never empty, so that case is
    part of the mismatch below.) *)
Definition jwt_verify (L : Lib) (token : string) (secret : string) (now_ms : Z) : Res jsval :=
  match jwt_decode L token with
  | None => Throw (JsError "jwt malformed" None)
  | Some (input, payload, signature) =>
      if negb (String.eqb signature (hmac_sha256 L secret input))
      then Throw (JsError "invalid signature" None)
      else match check_nbf payload now_ms with
           | Throw e => Throw e
           | Ok _ => check_exp payload now_ms
           end
  end.

(** [passwordUtils] *)
Definition hash (L : Lib) (password : string) : string := sha256_hex L password.

Definition verify (L : Lib) (password : string) (stored : option jsval) : bool :=
  let passwordHash := sha256_hex L password in
  js_strict_eq (Some (JStr passwordHash)) stored.

(** The object signed by [jwtUtils.generateToken]. *)
Definition finalPayload (payload : obj) : obj :=
  let base :=
    mkobj [ ("userId", js_or (payload !! "userId") (payload !! "id"));
            ("email", payload !! "email");
            ("firstName", payload !! "firstName");
            ("lastName", payload !! "lastName");
            ("role", payload !! "role") ] in
  if truthy (payload !! "supportMode")
  then js_set "supportMode" (payload !! "supportMode") base
  else base.

(** The names [finalPayload] can carry. *)
Definition token_fields : list string :=
  [ "userId"; "email"; "firstName"; "lastName"; "role"; "supportMode" ].

(** [jwtUtils.generateToken(payload)] *)
Definition generateToken (L : Lib) (env : option string) (payload : obj) (now_ms : Z)
    : Res string :=
  jwt_sign L (finalPayload payload) (jwtSecret env) now_ms.

(** The claims of the token issued for [payload] at [now_ms]. *)
Definition issued_claims (payload : obj) (now_ms : Z) : obj :=
  <["exp" := JNum (seconds now_ms + SEVEN_DAYS)]>
    (<["iat" := JNum (seconds now_ms)]> (finalPayload payload)).

(** A token is accepted with [claims] when it decodes to them, carries
    the HMAC of its signing input, and passes the two time checks. *)
Definition accepts (L : Lib) (secret token : string) (now_ms : Z) (claims : jsval) : Prop :=
  ∃ input signature,
    jwt_decode L token = Some (input, claims, signature)
    ∧ signature = hmac_sha256 L secret input
    ∧ check_nbf claims now_ms = Ok claims
    ∧ check_exp claims now_ms = Ok claims.

(** [jwtUtils.verifyToken(token)]: the [try]/[catch] turns every
    exception of [jwt.verify] into [null]. *)
Definition verifyToken (L : Lib) (env : option string) (token : string) (now_ms : Z)
    : option jsval :=
  match jwt_verify L token (jwtSecret env) now_ms with
  | Ok decoded => Some decoded
  | Throw _ => None
  end.

(** The middleware installed by [setupAuth]: [req.user] is the decoded
    token when the [jwt] cookie verifies and stays unset otherwise. *)
Definition attachUser (L : Lib) (env : option string) (cookie_jwt : option string)
    (now_ms : Z) : option jsval :=
  match cookie_jwt with
  | Some token =>
      if String.eqb token "" then None
      else match jwt_verify L token (jwtSecret env) now_ms with
           | Ok decoded => Some decoded
           | Throw _ => None
           end
  | None => None
  end.

(** [isAuthenticated]: [req.user && req.user.userId] *)
Definition isAuthenticated (user : option jsval) : bool :=
  truthy user && truthy (prop user "userId").

End Auth.

(** ** The storage layer and the handler monad

    [server/storage.ts] is used through its interface only.  Queries
    return a result or throw; commands also change the database.  A
    handler runs in a state-and-exception monad whose state is the
    database, the cookie set on the response so far, and the list of
    storage calls made, oldest first. *)

Record Storage (DB : Type) : Type := {
  getUserByEmail : string -> DB -> Res (option obj);
  getUser : option jsval -> DB -> Res (option obj);
  getUserCompanies : option jsval -> DB -> Res (option (list obj));
  getAssetsByCompany : string -> DB -> Res (list obj);
  getCompanyById : string -> DB -> Res (option obj);
  createAsset : obj -> DB -> Res obj * DB;
  logActivity : obj -> DB -> Res unit * DB;
  registerCompany : obj -> DB -> Res obj * DB
}.
Arguments getUserByEmail {DB} _ _ _.
Arguments getUser {DB} _ _ _.
Arguments getUserCompanies {DB} _ _ _.
Arguments getAssetsByCompany {DB} _ _ _.
Arguments getCompanyById {DB} _ _ _.
Arguments createAsset {DB} _ _ _.
Arguments logActivity {DB} _ _ _.
Arguments registerCompany {DB} _ _ _.

Inductive Call : Type :=
| CGetUserByEmail (email : string)
| CGetUser (id : option jsval)
| CGetUserCompanies (userId : option jsval)
| CGetAssetsByCompany (companyId : string)
| CGetCompanyById (companyId : string)
| CCreateAsset (data : obj) (result : Res obj)
| CLogActivity (entry : obj) (result : Res unit)
| CRegisterCompany (data : obj) (result : Res obj).

Record World (DB : Type) : Type := mkWorld {
  w_db : DB;
  w_cookie : option string;
  w_calls : list Call
}.
Arguments mkWorld {DB} _ _ _.
Arguments w_db {DB} _.
Arguments w_cookie {DB} _.
Arguments w_calls {DB} _.

Definition M (DB A : Type) : Type := World DB -> Res A * World DB.

Definition ret {DB A} (a : A) : M DB A := fun w => (Ok a, w).

Definition throw {DB A} (e : exn) : M DB A := fun w => (Throw e, w).

Definition bind {DB A B} (m : M DB A) (k : A -> M DB B) : M DB B := fun w =>
  match m w with
  | (Ok a, w') => k a w'
  | (Throw e, w') => (Throw e, w')
  end.

(** [try { m } catch (error) { handler(error) }] *)
Definition try_catch {DB A} (m : M DB A) (handler : exn -> M DB A) : M DB A := fun w =>
  match m w with
  | (Ok a, w') => (Ok a, w')
  | (Throw e, w') => handler e w'
  end.

Definition lift {DB A} (r : Res A) : M DB A := fun w => (r, w).

Definition record {DB} (c : Call) (w : World DB) : World DB :=
  mkWorld (w_db w) (w_cookie w) (w_calls w ++ [c]).

(** A query: the database is read, not changed. *)
Definition query {DB A} (c : Call) (q : DB -> Res A) : M DB A := fun w =>
  (q (w_db w), record c w).

(** A command: the database is replaced by the one the storage returns. *)
Definition command {DB A} (c : Res A -> Call) (f : DB -> Res A * DB) : M DB A := fun w =>
  let '(r, db') := f (w_db w) in
  (r, mkWorld db' (w_cookie w) (w_calls w ++ [c r])).

(** [setJwtCookie(res, token)] *)
Definition setJwtCookie {DB} (token : string) : M DB unit := fun w =>
  (Ok tt, mkWorld (w_db w) (Some token) (w_calls w)).

Declare Scope handler_scope.
Delimit Scope handler_scope with handler.
Notation "x <- m ;; k" := (bind m (fun x => k))
  (at level 100, m at next level, right associativity) : handler_scope.
Notation "m ;;; k" := (bind m (fun _ => k))
  (at level 100, right associativity) : handler_scope.

(** ** HTTP *)

Record request : Type := mkRequest {
  req_user : option jsval;   (* set by the JWT middleware *)
  req_body : option jsval
}.

Record response : Type := mkResponse {
  status : Z;
  body : jsval;
  cookie : option string     (* the [jwt] cookie sent with the response *)
}.

(** What a handler produces with [res.status(s).json(b)]. *)
Definition reply : Type := (Z * jsval)%type.

Definition message (text : string) : jsval := JObj (mkobj [("message", Some (JStr text))]).

(** Run a handler on a database; an exception that escapes every [catch]
    is answered by the framework with a 500. *)
Definition run {DB} (h : M DB reply) (db : DB) : response * World DB :=
  match h (mkWorld db None []) with
  | (Ok (s, b), w) => (mkResponse s b (w_cookie w), w)
  | (Throw _, w) => (mkResponse 500 (message "Internal Server Error") (w_cookie w), w)
  end.

(** The audit writes a handler made, and the assets its inserts returned. *)
Definition log_calls (calls : list Call) : list (obj * Res unit) :=
  omap (fun c => match c with CLogActivity entry r => Some (entry, r) | _ => None end) calls.

Definition created (calls : list Call) : list obj :=
  omap (fun c => match c with CCreateAsset _ (Ok asset) => Some asset | _ => None end) calls.

(** Property read [v.k] where [v] may be [null] or [undefined]: that
    read throws a [TypeError]. *)
Definition member (v : option jsval) (k : string) : Res (option jsval) :=
  match v with
  | None | Some JNull => Throw (JsError "TypeError" None)
  | Some _ => Ok (prop v k)
  end.

(** A value handed to a library function that insists on a string. *)
Definition as_string (v : option jsval) : Res string :=
  match v with
  | Some (JStr s) => Ok s
  | _ => Throw (JsError "TypeError" None)
  end.

(** ** server/routes.ts *)

Module Routes.
Section Handlers.

Context (L : Lib) (env : option string) {DB : Type} (st : Storage DB).

#[local] Open Scope handler_scope.

Definition unauthorized : reply :=
  (401, JObj (mkobj [ ("message", Some (JStr "Unauthorized"));
                      ("error", Some (JStr "Debe iniciar sesión para acceder a este recurso")) ])).

(** A route guarded by the [isAuthenticated] middleware. *)
Definition authenticated (req : request) (next : M DB reply) : M DB reply :=
  if Auth.isAuthenticated (req_user req) then next else ret unauthorized.

(** The five identity fields copied from a user row. *)
Definition identity_of (idKey : string) (user : option jsval) : obj :=
  mkobj [ (idKey, prop user "id");
          ("email", prop user "email");
          ("firstName", prop user "firstName");
          ("lastName", prop user "lastName");
          ("role", prop user "role") ].

(** [POST /api/register] *)
Definition register (req : request) (now_ms : Z) : M DB reply :=
  try_catch
    (registrationData <-
       lift (zparse (companyRegistrationSchema (zod_email L)) (req_body req)) ;;
     password <- lift (as_string (registrationData !! "password")) ;;
     let passwordHash := Auth.hash L password in
     let data := js_set "passwordHash" (Some (JStr passwordHash)) registrationData in
     result <- command (CRegisterCompany data) (registerCompany st data) ;;
     lift (member (result !! "user") "id") ;;;
     token <- lift (Auth.generateToken L env (identity_of "id" (result !! "user")) now_ms) ;;
     setJwtCookie token ;;;
     ret (200, JObj (mkobj [ ("message", Some (JStr "Empresa registrada exitosamente"));
                             ("company", result !! "company");
                             ("user", Some (JObj (identity_of "id" (result !! "user")))) ])))
    (fun error =>
       match error with
       | JsError msg code =>
           if String.eqb msg "El email ya está registrado" then ret (400, message msg)
           else match code with
                | Some c =>
                    if String.eqb c "23505"
                    then ret (400, message "Ya existe una empresa con este RUC/Cédula o email")
                    else ret (500, message "Error al registrar empresa")
                | None => ret (500, message "Error al registrar empresa")
                end
       | ZodError => ret (500, message "Error al registrar empresa")
       end).

(** [POST /api/login] *)
Definition login (req : request) (now_ms : Z) : M DB reply :=
  try_catch
    (credentials <- lift (zparse (loginSchema (zod_email L)) (req_body req)) ;;
     email <- lift (as_string (credentials !! "email")) ;;
     password <- lift (as_string (credentials !! "password")) ;;
     user <- query (CGetUserByEmail email) (getUserByEmail st email) ;;
     match user with
     | None => ret (401, message "Email o contraseña incorrectos")
     | Some u =>
         let isValidPassword := Auth.verify L password (u !! "passwordHash") in
         if negb isValidPassword
         then ret (401, message "Email o contraseña incorrectos")
         else
           token <- lift (Auth.generateToken L env (identity_of "id" (Some (JObj u))) now_ms) ;;
           setJwtCookie token ;;;
           ret (200, JObj (mkobj [ ("message", Some (JStr "Login exitoso"));
                                   ("user", Some (JObj (identity_of "id" (Some (JObj u))))) ]))
     end)
    (fun _ => ret (500, message "Error al iniciar sesión")).

(** [GET /api/assets/:companyId] *)
Definition get_assets (companyId : string) (req : request) : M DB reply :=
  authenticated req
    (try_catch
       (assets <- query (CGetAssetsByCompany companyId) (getAssetsByCompany st companyId) ;;
        ret (200, JArr (JObj <$> assets)))
       (fun _ => ret (500, message "Failed to fetch assets"))).

(** The audit entry written after an asset has been created. *)
Definition created_entry (companyId userId : option jsval) (asset : obj) : obj :=
  mkobj [ ("companyId", companyId);
          ("userId", userId);
          ("action", Some (JStr "created"));
          ("entityType", Some (JStr "asset"));
          ("entityId", asset !! "id");
          ("entityName", asset !! "name") ].

(** [POST /api/assets].  The 400 answer also carries Zod's issue list,
    which is not modelled. *)
Definition post_assets (req : request) : M DB reply :=
  authenticated req
    (try_catch
       (let userId := prop (req_user req) "userId" in
        userCompanies <- query (CGetUserCompanies userId) (getUserCompanies st userId) ;;
        match userCompanies with
        | None | Some [] =>
            ret (403, message "Usuario no asociado a ninguna empresa activa.")
        | Some (first :: _) =>
            let companyIdFromDB := first !! "companyId" in
            let dataToValidate := js_set "companyId" companyIdFromDB (spread (req_body req)) in
            validatedData <- lift (zparse insertAssetSchema (Some (JObj dataToValidate))) ;;
            let dataToInsert := js_set "assignedTo" userId validatedData in
            asset <- command (CCreateAsset dataToInsert) (createAsset st dataToInsert) ;;
            let entry := created_entry companyIdFromDB userId asset in
            command (CLogActivity entry) (logActivity st entry) ;;;
            ret (200, JObj asset)
        end)
       (fun error =>
          match error with
          | ZodError => ret (400, message "Error de validación en los datos del activo")
          | JsError _ _ => ret (500, message "Error al crear el activo")
          end)).

(** [user?.role !== 'super_admin'] *)
Definition not_super_admin (user : option obj) : bool :=
  negb (js_strict_eq (match user with Some u => u !! "role" | None => None end)
                     (Some (JStr "super_admin"))).

Definition access_denied : reply :=
  (403, message "Access denied. Super admin required.").

(** The payload from which the support-mode token is issued:
    [{ ...req.user, supportMode: supportModeData }]. *)
Definition support_payload (req : request) (companyId : string) (user : obj) (now_ms : Z)
    : obj :=
  let supportModeData :=
    mkobj [ ("companyId", Some (JStr companyId));
            ("adminId", user !! "id");
            ("startTime", Some (JStr (to_iso_string L now_ms))) ] in
  js_set "supportMode" (Some (JObj supportModeData)) (spread (req_user req)).

(** [POST /api/admin/support-access/:companyId] *)
Definition support_access (companyId : string) (req : request) (now_ms : Z) : M DB reply :=
  authenticated req
    (try_catch
       (let userId := prop (req_user req) "userId" in
        user <- query (CGetUser userId) (getUser st userId) ;;
        match user with
        | None => ret access_denied
        | Some u =>
            if not_super_admin user then ret access_denied
            else
              company <- query (CGetCompanyById companyId) (getCompanyById st companyId) ;;
              match company with
              | None => ret (404, message "Company not found")
              | Some c =>
                  let newPayload := support_payload req companyId u now_ms in
                  newToken <- lift (Auth.generateToken L env newPayload now_ms) ;;
                  setJwtCookie newToken ;;;
                  let entry :=
                    mkobj [ ("companyId", Some (JStr companyId));
                            ("userId", u !! "id");
                            ("action", Some (JStr "accessed"));
                            ("entityType", Some (JStr "company"));
                            ("entityId", Some (JStr companyId));
                            ("entityName",
                             Some (JStr ("Support access to "
                                         +:+ to_display L (c !! "name")))) ] in
                  command (CLogActivity entry) (logActivity st entry) ;;;
                  ret (200, JObj (mkobj [ ("message", Some (JStr "Support access granted"));
                                          ("company", Some (JObj c));
                                          ("supportMode", Some (JBool true));
                                          ("user", Some (JObj newPayload)) ]))
              end
        end)
       (fun _ => ret (500, message "Failed to grant support access"))).

(** The payload from which the token is reissued on leaving support
    mode: [{ ...req.user }] with [supportMode] deleted. *)
Definition exit_payload (req : request) : obj :=
  delete "supportMode" (spread (req_user req)).

(** [POST /api/admin/exit-support] *)
Definition exit_support (req : request) (now_ms : Z) : M DB reply :=
  authenticated req
    (try_catch
       (let userId := prop (req_user req) "userId" in
        user <- query (CGetUser userId) (getUser st userId) ;;
        match user with
        | None => ret access_denied
        | Some u =>
            if not_super_admin user then ret access_denied
            else if truthy (prop (req_user req) "supportMode") then
              let supportInfo := prop (req_user req) "supportMode" in
              let entry :=
                mkobj [ ("companyId", prop supportInfo "companyId");
                        ("userId", u !! "id");
                        ("action", Some (JStr "exited"));
                        ("entityType", Some (JStr "company"));
                        ("entityId", prop supportInfo "companyId");
                        ("entityName", Some (JStr "Exited support mode")) ] in
              command (CLogActivity entry) (logActivity st entry) ;;;
              let newPayload := exit_payload req in
              newToken <- lift (Auth.generateToken L env newPayload now_ms) ;;
              setJwtCookie newToken ;;;
              ret (200, JObj (mkobj [ ("message", Some (JStr "Exited support mode"));
                                      ("supportMode", Some (JBool false));
                                      ("user", Some (JObj newPayload)) ]))
            else
              ret (200, JObj (mkobj [ ("message", Some (JStr "Exited support mode"));
                                      ("supportMode", Some (JBool false));
                                      ("user", req_user req) ]))
        end)
       (fun _ => ret (500, message "Failed to exit support mode"))).

End Handlers.
End Routes.

(** ** Client pages *)

Module Client.

(** *** client/src/pages/register.tsx *)

Inductive FormResult : Type :=
| Toast (title description : string)   (* a notice is shown, nothing is sent *)
| Mutate (data : obj).                 (* [POST /api/register] with [data] *)

Definition onSubmit (data : obj) : FormResult :=
  if js_strict_eq (data !! "plan") (Some (JStr "pyme")) && negb (truthy (data !! "ruc"))
  then Toast "Error" "El RUC es obligatorio para empresas PyME."
  else if js_strict_eq (data !! "plan") (Some (JStr "professional"))
          && negb (truthy (data !! "cedula"))
  then Toast "Error" "La Cédula es obligatoria para profesionales."
  else Mutate data.

Definition onValidationFailure : FormResult :=
  Toast "Formulario inválido"
        "Por favor revisa los campos marcados en rojo antes de continuar.".

(** [form.handleSubmit(onSubmit, onValidationFailure)] with the
    [zodResolver(companyRegistrationSchema)] resolver. *)
Definition handleSubmit (L : Lib) (values : obj) : FormResult :=
  match companyRegistrationSchema (zod_email L) (Some (JObj values)) with
  | Some data => onSubmit data
  | None => onValidationFailure
  end.

(** *** client/src/pages/applications.tsx *)

Definition THIRTY_DAYS_MS : Z := 30 * 24 * 60 * 60 * 1000.

(** The time value of [new Date(v)]; [None] is NaN. *)
Definition time_of (L : Lib) (v : option jsval) : option Z :=
  match v with
  | Some x => date_time L x
  | None => None
  end.

(** Relational operators on time values: false as soon as one side is NaN. *)
Definition t_lt (a : option Z) (b : Z) : bool :=
  match a with Some x => x <? b | None => false end.
Definition t_le (a : option Z) (b : Z) : bool :=
  match a with Some x => x <=? b | None => false end.
Definition t_ge (a : option Z) (b : Z) : bool :=
  match a with Some x => b <=? x | None => false end.

Record expiry_item : Type := mkItem {
  item_name : string;
  item_date : option jsval
}.

Inductive warning_type : Type := expired | expiring.

Record warning : Type := mkWarning {
  type : warning_type;
  count : nat;
  items : list expiry_item
}.

(** [getExpiryWarning(app)].  [now_ms] is the value of [new Date()] and
    [clock_ms] the value of the later [Date.now()]. *)
Definition getExpiryWarning (L : Lib) (now_ms clock_ms : Z) (app : obj) : option warning :=
  let now := now_ms in
  let thirtyDaysFromNow := clock_ms + THIRTY_DAYS_MS in
  let expiries :=
    List.filter (fun item => truthy (item_date item))
      [ mkItem "Dominio" (app !! "domainExpiry");
        mkItem "SSL" (app !! "sslExpiry");
        mkItem "Hosting" (app !! "hostingExpiry");
        mkItem "Servidor" (app !! "serverExpiry") ] in
  let expired_items :=
    List.filter (fun item => t_lt (time_of L (item_date item)) now) expiries in
  let expiringSoon :=
    List.filter (fun item =>
                   let date := time_of L (item_date item) in
                   t_ge date now && t_le date thirtyDaysFromNow) expiries in
  if (0 <? List.length expired_items)%nat
  then Some (mkWarning expired (List.length expired_items) expired_items)
  else if (0 <? List.length expiringSoon)%nat
  then Some (mkWarning expiring (List.length expiringSoon) expiringSoon)
  else None.

(** [Number(v)]; [None] is NaN. *)
Definition js_Number (L : Lib) (v : option jsval) : option Z :=
  match v with
  | None => None
  | Some JNull => Some 0
  | Some (JBool b) => Some (if b then 1 else 0)
  | Some (JNum n) => Some n
  | Some x => to_number L x
  end.

(** *** client/src/pages/physical-assets.tsx *)

Inductive text_class : Type := text_destructive | text_chart_4 | text_foreground.

(** The colour of the warranty date of a physical asset; nothing is
    rendered when the asset has no warranty date. *)
Definition warrantyClass (L : Lib) (now_ms clock_ms : Z) (asset : obj) : option text_class :=
  if truthy (asset !! "warrantyExpiry") then
    let date := time_of L (asset !! "warrantyExpiry") in
    Some (if t_lt date now_ms then text_destructive
          else if t_lt date (clock_ms + THIRTY_DAYS_MS) then text_chart_4
          else text_foreground)
  else None.

End Client.

(** ** The specification's aggregator, as worded *)

Module Spec.

Inductive ExpirationStatus : Type := StatusNone | ExpiringSoon | Expired.

Definition THIRTY_DAYS : Z := 30 * 24 * 60 * 60 * 1000.

(** Status of one tracked date: expired when the date is before the
    reference time, expiring soon when it lies within the next 30 days. *)
Definition fieldStatus (referenceTime : Z) (date : option Z) : ExpirationStatus :=
  match date with
  | None => StatusNone
  | Some d =>
      if d <? referenceTime then Expired
      else if d <=? referenceTime + THIRTY_DAYS then ExpiringSoon
      else StatusNone
  end.

Definition is_expired (s : ExpirationStatus) : bool :=
  match s with Expired => true | _ => false end.
Definition is_expiring (s : ExpirationStatus) : bool :=
  match s with ExpiringSoon => true | _ => false end.

(** Expired wins over expiring soon, which wins over none. *)
Definition aggregate (statuses : list ExpirationStatus) : ExpirationStatus :=
  if existsb is_expired statuses then Expired
  else if existsb is_expiring statuses then ExpiringSoon
  else StatusNone.

(** The date carried by a field of an asset: none when the field is
    unset, otherwise its time value when it denotes a date. *)
Definition field_date (L : Lib) (asset : obj) (field : string) : option Z :=
  if truthy (asset !! field) then Client.time_of L (asset !! field) else None.

Definition expirationStatus (L : Lib) (fields : list string) (asset : obj)
    (referenceTime : Z) : ExpirationStatus :=
  aggregate (map (fun f => fieldStatus referenceTime (field_date L asset f)) fields).

Definition status_eqb (a b : ExpirationStatus) : bool :=
  match a, b with
  | StatusNone, StatusNone | ExpiringSoon, ExpiringSoon | Expired, Expired => true
  | _, _ => false
  end.

(** The status a result of [getExpiryWarning] stands for. *)
Definition status_of (w : option Client.warning) : ExpirationStatus :=
  match w with
  | None => StatusNone
  | Some w =>
      match Client.type w with
      | Client.expired => Expired
      | Client.expiring => ExpiringSoon
      end
  end.

(** The status of one entry of the list [getExpiryWarning] builds. *)
Definition item_status (L : Lib) (referenceTime : Z) (item : Client.expiry_item)
    : ExpirationStatus :=
  fieldStatus referenceTime
    (if truthy (Client.item_date item) then Client.time_of L (Client.item_date item)
     else None).

(** The tracked fields as the specification lists them. *)
Definition tracked_fields : list string :=
  [ "warrantyExpiry"; "domainExpiry"; "sslExpiry"; "hostingExpiry"; "serverExpiry" ].

(** The fields [getExpiryWarning] reads. *)
Definition service_fields : list string :=
  [ "domainExpiry"; "sslExpiry"; "hostingExpiry"; "serverExpiry" ].

End Spec.

(** ** An in-memory storage

    Modelled from the spec: [server/storage.ts] is not part of the sources
    at hand.  The tables are lists of rows; [registerCompany] creates the
    company, its first user (role [manager_owner]) and the membership
    together, or nothing when the e-mail is taken; [logActivity] appends
    one entry.  It serves to run the handlers on concrete data. *)

Module MemStore.

Record DB : Type := mkDB {
  users : list obj;
  companies : list obj;
  userCompanies : list obj;
  assets : list obj;
  activityLog : list obj
}.

Definition has (k : string) (v : option jsval) (row : obj) : bool :=
  js_strict_eq (row !! k) v.

Definition fresh_id (prefix : string) (n : nat) : string :=
  prefix +:+ String.string_of_list_ascii (repeat "i"%char (S n)).

Definition mem_registerCompany (data : obj) (db : DB) : Res obj * DB :=
  if existsb (has "email" (data !! "email")) (users db)
  then (Throw (JsError "El email ya está registrado" None), db)
  else
    let cid := fresh_id "c" (List.length (companies db)) in
    let uid := fresh_id "u" (List.length (users db)) in
    let company :=
      mkobj [ ("id", Some (JStr cid)); ("name", data !! "name"); ("plan", data !! "plan");
              ("ruc", data !! "ruc"); ("cedula", data !! "cedula");
              ("address", data !! "address"); ("phone", data !! "phone");
              ("email", data !! "email"); ("isActive", Some (JBool true)) ] in
    let user :=
      mkobj [ ("id", Some (JStr uid)); ("email", data !! "email");
              ("passwordHash", data !! "passwordHash");
              ("firstName", data !! "firstName"); ("lastName", data !! "lastName");
              ("role", Some (JStr "manager_owner")) ] in
    let link :=
      mkobj [ ("userId", Some (JStr uid)); ("companyId", Some (JStr cid));
              ("role", Some (JStr "manager_owner")) ] in
    (Ok (mkobj [ ("company", Some (JObj company)); ("user", Some (JObj user)) ]),
     mkDB (users db ++ [user]) (companies db ++ [company]) (userCompanies db ++ [link])
          (assets db) (activityLog db)).

Definition mem_createAsset (data : obj) (db : DB) : Res obj * DB :=
  let asset := <["id" := JStr (fresh_id "a" (List.length (assets db)))]> data in
  (Ok asset,
   mkDB (users db) (companies db) (userCompanies db) (assets db ++ [asset]) (activityLog db)).

Definition mem_logActivity (entry : obj) (db : DB) : Res unit * DB :=
  (Ok tt,
   mkDB (users db) (companies db) (userCompanies db) (assets db) (activityLog db ++ [entry])).

Definition storage : Storage DB := {|
  getUserByEmail := fun email db =>
    Ok (List.find (has "email" (Some (JStr email))) (users db));
  getUser := fun id db => Ok (List.find (has "id" id) (users db));
  getUserCompanies := fun userId db =>
    Ok (Some (List.filter (has "userId" userId) (userCompanies db)));
  getAssetsByCompany := fun companyId db =>
    Ok (List.filter (has "companyId" (Some (JStr companyId))) (assets db));
  getCompanyById := fun companyId db =>
    Ok (List.find (has "id" (Some (JStr companyId))) (companies db));
  createAsset := mem_createAsset;
  logActivity := mem_logActivity;
  registerCompany := mem_registerCompany
|}.

(** A storage whose asset insert is refused by the database. *)
Definition rejecting : Storage DB := {|
  getUserByEmail := getUserByEmail storage;
  getUser := getUser storage;
  getUserCompanies := getUserCompanies storage;
  getAssetsByCompany := getAssetsByCompany storage;
  getCompanyById := getCompanyById storage;
  createAsset := fun _ db => (Throw (JsError "insert failed" (Some "23502")), db);
  logActivity := mem_logActivity;
  registerCompany := mem_registerCompany
|}.

End MemStore.

(** ** A small instance of the platform libraries

    Enough to run the definitions above on concrete data.  Dates are
    given as millisecond numbers ([new Date(n)] has time value [n]); the
    token codec recognises the one token it is built around. *)

Module Demo.

Definition sha (s : string) : string := "sha256:" +:+ s.
Definition mac (key msg : string) : string := "mac(" +:+ key +:+ "," +:+ msg +:+ ")".
Definition signing_input (_ : obj) : string := "eyJhbGciOiJIUzI1NiJ9.e30".

Definition has_at (s : string) : bool :=
  existsb (Ascii.eqb "@"%char) (String.list_ascii_of_string s).

Definition date_of (v : jsval) : option Z :=
  match v with
  | JNum n => Some n
  | _ => None
  end.

(** The claims of the token issued at time 0 to an administrator. *)
Definition admin_payload : obj :=
  mkobj [ ("id", Some (JStr "u1")); ("email", Some (JStr "ana@example.com"));
          ("firstName", Some (JStr "Ana")); ("lastName", Some (JStr "Paz"));
          ("role", Some (JStr "manager_owner")) ].

Definition admin_claims : obj :=
  <["exp" := JNum Auth.SEVEN_DAYS]> (<["iat" := JNum 0]> (Auth.finalPayload admin_payload)).

Definition admin_token : string :=
  signing_input admin_claims +:+ "." +:+ mac Auth.DEV_SECRET (signing_input admin_claims).

Definition forged_token : string := signing_input admin_claims +:+ ".forged".

Definition decode (token : string) : option (string * jsval * string) :=
  if String.eqb token admin_token
  then Some (signing_input admin_claims, JObj admin_claims,
             mac Auth.DEV_SECRET (signing_input admin_claims))
  else if String.eqb token forged_token
  then Some (signing_input admin_claims, JObj admin_claims, "forged")
  else None.

Definition lib : Lib := {|
  sha256_hex := sha;
  hmac_sha256 := mac;
  jwt_signing_input := signing_input;
  jwt_decode := decode;
  zod_email := has_at;
  date_time := date_of;
  to_number := fun _ => None;
  to_iso_string := fun _ => "1970-01-01T00:00:00.000Z";
  to_display := fun v => match v with Some (JStr s) => s | _ => "undefined" end
|}.

(** Two tenants: Ana owns company [cA], Bob owns company [cB]; Eva has
    an account but no membership. *)
Definition user_row (id email first last : string) (password : string) : obj :=
  mkobj [ ("id", Some (JStr id)); ("email", Some (JStr email));
          ("passwordHash", Some (JStr (sha password)));
          ("firstName", Some (JStr first)); ("lastName", Some (JStr last));
          ("role", Some (JStr "manager_owner")) ].

Definition ana : obj := user_row "u1" "ana@example.com" "Ana" "Paz" "secret-ana".
Definition bob : obj := user_row "u2" "bob@example.com" "Bob" "Ruiz" "secret-bob".
Definition eva : obj := user_row "u3" "eva@example.com" "Eva" "Luna" "secret-eva".

Definition company_row (id name : string) : obj :=
  mkobj [ ("id", Some (JStr id)); ("name", Some (JStr name)); ("plan", Some (JStr "pyme")) ].

Definition membership (userId companyId : string) : obj :=
  mkobj [ ("userId", Some (JStr userId)); ("companyId", Some (JStr companyId));
          ("role", Some (JStr "manager_owner")) ].

Definition asset_b : obj :=
  mkobj [ ("id", Some (JStr "a0")); ("companyId", Some (JStr "cB"));
          ("name", Some (JStr "Servidor B")); ("type", Some (JStr "physical"));
          ("monthlyCost", Some (JNum 20)) ].

Definition db0 : MemStore.DB :=
  MemStore.mkDB [ana; bob; eva]
                [company_row "cA" "Empresa A"; company_row "cB" "Empresa B"]
                [membership "u1" "cA"; membership "u2" "cB"]
                [asset_b]
                [].

(** The identity the JWT middleware attaches for a user. *)
Definition identity (id email first last : string) : option jsval :=
  Some (JObj (mkobj [ ("userId", Some (JStr id)); ("email", Some (JStr email));
                      ("firstName", Some (JStr first)); ("lastName", Some (JStr last));
                      ("role", Some (JStr "manager_owner"));
                      ("iat", Some (JNum 0)); ("exp", Some (JNum Auth.SEVEN_DAYS)) ])).

Definition as_ana (body : option jsval) : request :=
  mkRequest (identity "u1" "ana@example.com" "Ana" "Paz") body.


(** A new laptop, with the other tenant's company id in the body. *)
Definition laptop_body : option jsval :=
  Some (JObj (mkobj [ ("name", Some (JStr "Laptop")); ("type", Some (JStr "physical"));
                      ("companyId", Some (JStr "cB")); ("assignedTo", Some (JStr "u2")) ])).

Definition login_body (email password : string) : option jsval :=
  Some (JObj (mkobj [ ("email", Some (JStr email)); ("password", Some (JStr password)) ])).

(** A registration on the pyme plan without RUC. *)
Definition pyme_without_ruc : obj :=
  mkobj [ ("name", Some (JStr "Nueva SA")); ("plan", Some (JStr "pyme"));
          ("address", Some (JStr "Quito")); ("phone", Some (JStr "0999999999"));
          ("email", Some (JStr "new@example.com"));
          ("firstName", Some (JStr "Noa")); ("lastName", Some (JStr "Vega"));
          ("password", Some (JStr "secret1")); ("confirmPassword", Some (JStr "secret1")) ].

(** A registration whose RUC has three digits. *)
Definition short_ruc : obj := <["ruc" := JStr "123"]> pyme_without_ruc.

End Demo.

(** * Further code of the same files *)

(** ** shared/schema.ts: the remaining schemas *)

Definition z_boolean : validator := fun i =>
  match i with
  | Some (JBool b) => Some (Some (JBool b))
  | _ => None
  end.

(** [z.array(z.string())] *)
Definition z_array_of_strings : validator := fun i =>
  match i with
  | Some (JArr l) =>
      if forallb (fun x => match x with JStr _ => true | _ => false end) l
      then Some (Some (JArr l)) else None
  | _ => None
  end.

(** The shape of [insertAssetSchema], key by key. *)
Definition asset_fields : list (string * validator) :=
  [ ("companyId", z_string);
    ("name", z_string_min 1);
    ("type", z_enum ["physical"; "application"; "license"; "contract"]);
    ("description", opt_nullable z_string);
    ("serialNumber", opt_nullable z_string);
    ("model", opt_nullable z_string);
    ("manufacturer", opt_nullable z_string);
    ("purchaseDate", opt_nullable z_date);
    ("warrantyExpiry", opt_nullable z_date);
    ("monthlyCost", z_optional z_number);
    ("annualCost", z_optional z_number);
    ("status", z_optional (z_enum ["active"; "inactive"; "maintenance"; "deprecated"; "disposed"]));
    ("location", opt_nullable z_string);
    ("assignedTo", opt_nullable z_string);
    ("notes", opt_nullable z_string);
    ("applicationType", opt_nullable (z_enum ["saas"; "custom_development"]));
    ("url", opt_nullable z_string);
    ("version", opt_nullable z_string);
    ("domainCost", z_optional z_number);
    ("sslCost", z_optional z_number);
    ("hostingCost", z_optional z_number);
    ("serverCost", z_optional z_number);
    ("domainExpiry", opt_nullable z_date);
    ("sslExpiry", opt_nullable z_date);
    ("hostingExpiry", opt_nullable z_date);
    ("serverExpiry", opt_nullable z_date) ].

(** The keys of [insertAssetSchema] that hold dates. *)
Definition asset_date_keys : list string :=
  [ "purchaseDate"; "warrantyExpiry"; "domainExpiry"; "sslExpiry";
    "hostingExpiry"; "serverExpiry" ].

(** [schema.partial()]: every key becomes optional. *)
Definition z_partial (fields : list (string * validator)) : list (string * validator) :=
  map (fun kv => (fst kv, z_optional (snd kv))) fields.

Definition contract_fields : list (string * validator) :=
  [ ("companyId", z_string);
    ("name", z_string_min 1);
    ("vendor", z_string_min 1);
    ("description", opt_nullable z_string);
    ("contractType", z_string_min 1);
    ("startDate", z_date);
    ("endDate", z_date);
    ("renewalDate", opt_nullable z_date);
    ("monthlyCost", z_optional z_number);
    ("annualCost", z_optional z_number);
    ("status", z_optional (z_enum ["active"; "expired"; "pending_renewal"; "cancelled"]));
    ("autoRenewal", z_optional z_boolean);
    ("notes", opt_nullable z_string) ].

Definition insertContractSchema : option jsval -> option obj := z_object contract_fields.

Definition maintenance_fields : list (string * validator) :=
  [ ("assetId", z_string);
    ("companyId", z_string);
    ("maintenanceType", z_enum ["preventive"; "corrective"; "emergency"; "upgrade"]);
    ("title", z_string_min 1);
    ("description", z_string_min 1);
    ("vendor", opt_nullable z_string);
    ("cost", z_optional z_number);
    ("scheduledDate", opt_nullable z_date);
    ("completedDate", opt_nullable z_date);
    ("nextMaintenanceDate", opt_nullable z_date);
    ("status", z_optional (z_enum ["scheduled"; "in_progress"; "completed"; "cancelled"]));
    ("priority", z_optional z_string);
    ("technician", opt_nullable z_string);
    ("partsReplaced", opt_nullable z_string);
    ("timeSpent", opt_nullable z_number);
    ("notes", opt_nullable z_string);
    ("attachments", opt_nullable z_array_of_strings) ].

Definition insertMaintenanceRecordSchema : option jsval -> option obj :=
  z_object maintenance_fields.

Definition company_fields (is_email : string -> bool) : list (string * validator) :=
  [ ("name", z_string_min 1);
    ("description", opt_nullable z_string);
    ("plan", z_enum ["pyme"; "professional"]);
    ("maxUsers", z_optional z_number);
    ("maxAssets", z_optional z_number);
    ("isActive", z_optional z_boolean);
    ("ruc", opt_nullable z_string);
    ("cedula", opt_nullable z_string);
    ("address", opt_nullable z_string);
    ("phone", opt_nullable z_string);
    ("email", opt_nullable (z_string_email is_email)) ].

Definition insertCompanySchema (is_email : string -> bool) : option jsval -> option obj :=
  z_object (company_fields is_email).

(** A validator that hands its input through unchanged when it accepts. *)
Definition passthrough (v : validator) : Prop :=
  ∀ i o, v i = Some o → o = i.

Definition keys_of (fields : list (string * validator)) : list string := map fst fields.

(** ** server/routes.ts: the remaining handlers

    The storage operations these handlers use beyond the ones above. *)

Record StorageMore (DB : Type) : Type := {
  getAssetById : string -> string -> DB -> Res (option obj);
  updateAsset : string -> obj -> DB -> Res obj * DB;
  deleteAsset : string -> string -> DB -> Res unit * DB;
  createContract : obj -> DB -> Res obj * DB;
  createMaintenanceRecord : obj -> DB -> Res obj * DB;
  createCompany : obj -> DB -> Res obj * DB;
  addUserToCompany : option jsval -> option jsval -> string -> DB -> Res unit * DB;
  getAllCompanies : DB -> Res (list obj);
  updateCompanyPlan :
    string -> option jsval -> option jsval -> option jsval -> DB -> Res obj * DB
}.
Arguments getAssetById {DB} _ _ _ _.
Arguments updateAsset {DB} _ _ _ _.
Arguments deleteAsset {DB} _ _ _ _.
Arguments createContract {DB} _ _ _.
Arguments createMaintenanceRecord {DB} _ _ _.
Arguments createCompany {DB} _ _ _.
Arguments addUserToCompany {DB} _ _ _ _ _.
Arguments getAllCompanies {DB} _ _.
Arguments updateCompanyPlan {DB} _ _ _ _ _ _.

(** A query and a command of that interface: they read, respectively
    replace, the database; the list of calls keeps to the operations of
    [Call]. *)
Definition ask {DB A} (q : DB -> Res A) : M DB A := fun w => (q (w_db w), w).

Definition perform {DB A} (f : DB -> Res A * DB) : M DB A := fun w =>
  let '(r, db') := f (w_db w) in
  (r, mkWorld db' (w_cookie w) (w_calls w)).

Module Api.
Section Handlers.

Context (L : Lib) (env : option string) {DB : Type} (st : Storage DB) (sx : StorageMore DB).

#[local] Open Scope handler_scope.

(** [const { passwordHash, ...userWithoutPassword } = user] *)
Definition userWithoutPassword (user : obj) : obj := delete "passwordHash" user.

(** [GET /api/auth/user] *)
Definition auth_user (req : request) : M DB reply :=
  Routes.authenticated req
    (try_catch
       (let userId := prop (req_user req) "userId" in
        user <- query (CGetUser userId) (getUser st userId) ;;
        match user with
        | None => ret (404, message "Usuario no encontrado")
        | Some u => ret (200, JObj (userWithoutPassword u))
        end)
       (fun _ => ret (500, message "Failed to fetch user"))).

(** [GET /api/me] *)
Definition me (req : request) : M DB reply :=
  Routes.authenticated req
    (ret (200, JObj (mkobj [("userId", prop (req_user req) "userId")]))).

(** The audit entry of a mutation. *)
Definition activity (companyId userId : option jsval) (action entityType : string)
    (entityId entityName : option jsval) : obj :=
  mkobj [ ("companyId", companyId);
          ("userId", userId);
          ("action", Some (JStr action));
          ("entityType", Some (JStr entityType));
          ("entityId", entityId);
          ("entityName", entityName) ].

(** [POST /api/companies] *)
Definition post_companies (req : request) : M DB reply :=
  Routes.authenticated req
    (try_catch
       (let userId := prop (req_user req) "userId" in
        validatedData <- lift (zparse (insertCompanySchema (zod_email L)) (req_body req)) ;;
        company <- perform (createCompany sx validatedData) ;;
        perform (addUserToCompany sx userId (company !! "id") "manager_owner") ;;;
        let entry := activity (company !! "id") userId "created" "company"
                              (company !! "id") (company !! "name") in
        command (CLogActivity entry) (logActivity st entry) ;;;
        ret (200, JObj company))
       (fun _ => ret (400, message "Failed to create company"))).

(** [PUT /api/assets/:id] *)
Definition put_asset (id : string) (req : request) : M DB reply :=
  Routes.authenticated req
    (try_catch
       (let userId := prop (req_user req) "userId" in
        validatedData <- lift (zparse (z_object (z_partial asset_fields)) (req_body req)) ;;
        asset <- perform (updateAsset sx id validatedData) ;;
        let entry := activity (asset !! "companyId") userId "updated" "asset"
                              (asset !! "id") (asset !! "name") in
        command (CLogActivity entry) (logActivity st entry) ;;;
        ret (200, JObj asset))
       (fun _ => ret (400, message "Failed to update asset"))).

(** [DELETE /api/assets/:id/:companyId] *)
Definition delete_asset (id companyId : string) (req : request) : M DB reply :=
  Routes.authenticated req
    (try_catch
       (let userId := prop (req_user req) "userId" in
        asset <- ask (getAssetById sx id companyId) ;;
        match asset with
        | None => ret (404, message "Asset not found")
        | Some a =>
            perform (deleteAsset sx id companyId) ;;;
            let entry := activity (Some (JStr companyId)) userId "deleted" "asset"
                                  (Some (JStr id)) (a !! "name") in
            command (CLogActivity entry) (logActivity st entry) ;;;
            ret (200, message "Asset deleted successfully")
        end)
       (fun _ => ret (500, message "Failed to delete asset"))).

(** [POST /api/contracts] *)
Definition post_contracts (req : request) : M DB reply :=
  Routes.authenticated req
    (try_catch
       (let userId := prop (req_user req) "userId" in
        validatedData <- lift (zparse insertContractSchema (req_body req)) ;;
        contract <- perform (createContract sx validatedData) ;;
        let entry := activity (validatedData !! "companyId") userId "created" "contract"
                              (contract !! "id") (contract !! "name") in
        command (CLogActivity entry) (logActivity st entry) ;;;
        ret (200, JObj contract))
       (fun _ => ret (400, message "Failed to create contract"))).

(** [POST /api/maintenance] *)
Definition post_maintenance (req : request) : M DB reply :=
  Routes.authenticated req
    (try_catch
       (let userId := prop (req_user req) "userId" in
        validatedData <- lift (zparse insertMaintenanceRecordSchema (req_body req)) ;;
        record <- perform (createMaintenanceRecord sx validatedData) ;;
        let entry :=
          activity (validatedData !! "companyId") userId "created" "maintenance_record"
                   (record !! "id")
                   (Some (JStr ("Maintenance for "
                                +:+ to_display L (record !! "description")))) in
        command (CLogActivity entry) (logActivity st entry) ;;;
        ret (200, JObj record))
       (fun _ => ret (400, message "Failed to create maintenance record"))).

(** [GET /api/admin/companies] *)
Definition admin_companies (req : request) : M DB reply :=
  Routes.authenticated req
    (try_catch
       (let userId := prop (req_user req) "userId" in
        user <- query (CGetUser userId) (getUser st userId) ;;
        if Routes.not_super_admin user then ret Routes.access_denied
        else
          companies <- ask (getAllCompanies sx) ;;
          ret (200, JArr (JObj <$> companies)))
       (fun _ => ret (500, message "Failed to fetch companies"))).

(** [PUT /api/admin/companies/:companyId/plan] *)
Definition admin_plan (companyId : string) (req : request) : M DB reply :=
  Routes.authenticated req
    (try_catch
       (let userId := prop (req_user req) "userId" in
        user <- query (CGetUser userId) (getUser st userId) ;;
        if Routes.not_super_admin user then ret Routes.access_denied
        else
          plan <- lift (member (req_body req) "plan") ;;
          let maxUsers := prop (req_body req) "maxUsers" in
          let maxAssets := prop (req_body req) "maxAssets" in
          if negb (js_strict_eq plan (Some (JStr "pyme"))
                   || js_strict_eq plan (Some (JStr "professional")))
          then ret (400, message "Invalid plan type")
          else
            updatedCompany <-
              perform (updateCompanyPlan sx companyId plan maxUsers maxAssets) ;;
            ret (200, JObj updatedCompany))
       (fun _ => ret (500, message "Failed to update company plan"))).

End Handlers.
End Api.

(** The answer of the [isAuthenticated] middleware to a request without
    identity. *)
Definition unauthorized_response : response :=
  mkResponse 401
    (JObj (mkobj [ ("message", Some (JStr "Unauthorized"));
                   ("error", Some (JStr "Debe iniciar sesión para acceder a este recurso")) ]))
    None.

(** ** More of the in-memory storage

    Modelled from the spec: [server/storage.ts] is not part of the sources
    at hand.  Assets are looked up, replaced and removed by id within a
    company; companies and memberships are appended; contracts and
    maintenance records get an id but no table is kept for them. *)

Module MemMore.

Definition same_asset (id companyId : string) (row : obj) : bool :=
  MemStore.has "id" (Some (JStr id)) row
  && MemStore.has "companyId" (Some (JStr companyId)) row.

Definition with_assets (db : MemStore.DB) (assets : list obj) : MemStore.DB :=
  MemStore.mkDB (MemStore.users db) (MemStore.companies db) (MemStore.userCompanies db)
                assets (MemStore.activityLog db).

Definition mem_updateAsset (id : string) (data : obj) (db : MemStore.DB)
    : Res obj * MemStore.DB :=
  match List.find (MemStore.has "id" (Some (JStr id))) (MemStore.assets db) with
  | Some row =>
      let updated := data ∪ row in
      (Ok updated,
       with_assets db
         (map (fun r => if MemStore.has "id" (Some (JStr id)) r then updated else r)
              (MemStore.assets db)))
  | None => (Throw (JsError "Asset not found" None), db)
  end.

Definition mem_deleteAsset (id companyId : string) (db : MemStore.DB)
    : Res unit * MemStore.DB :=
  (Ok tt,
   with_assets db (List.filter (fun r => negb (same_asset id companyId r)) (MemStore.assets db))).

Definition mem_createCompany (data : obj) (db : MemStore.DB) : Res obj * MemStore.DB :=
  let company :=
    <["id" := JStr (MemStore.fresh_id "c" (List.length (MemStore.companies db)))]> data in
  (Ok company,
   MemStore.mkDB (MemStore.users db) (MemStore.companies db ++ [company])
                 (MemStore.userCompanies db) (MemStore.assets db) (MemStore.activityLog db)).

Definition mem_addUserToCompany (userId companyId : option jsval) (role : string)
    (db : MemStore.DB) : Res unit * MemStore.DB :=
  (Ok tt,
   MemStore.mkDB (MemStore.users db) (MemStore.companies db)
                 (MemStore.userCompanies db
                  ++ [mkobj [("userId", userId); ("companyId", companyId);
                             ("role", Some (JStr role))]])
                 (MemStore.assets db) (MemStore.activityLog db)).

Definition mem_updateCompanyPlan (companyId : string) (plan maxUsers maxAssets : option jsval)
    (db : MemStore.DB) : Res obj * MemStore.DB :=
  match List.find (MemStore.has "id" (Some (JStr companyId))) (MemStore.companies db) with
  | Some row =>
      let updated :=
        js_set "maxAssets" maxAssets (js_set "maxUsers" maxUsers (js_set "plan" plan row)) in
      (Ok updated,
       MemStore.mkDB (MemStore.users db)
         (map (fun r => if MemStore.has "id" (Some (JStr companyId)) r then updated else r)
              (MemStore.companies db))
         (MemStore.userCompanies db) (MemStore.assets db) (MemStore.activityLog db))
  | None => (Throw (JsError "Company not found" None), db)
  end.

Definition storage : StorageMore MemStore.DB := {|
  getAssetById := fun id companyId db =>
    Ok (List.find (same_asset id companyId) (MemStore.assets db));
  updateAsset := mem_updateAsset;
  deleteAsset := mem_deleteAsset;
  createContract := fun data db => (Ok (<["id" := JStr "k0"]> data), db);
  createMaintenanceRecord := fun data db => (Ok (<["id" := JStr "m0"]> data), db);
  createCompany := mem_createCompany;
  addUserToCompany := mem_addUserToCompany;
  getAllCompanies := fun db => Ok (MemStore.companies db);
  updateCompanyPlan := mem_updateCompanyPlan
|}.

(** A storage in which linking a user to a company fails. *)
Definition unlinkable : StorageMore MemStore.DB := {|
  getAssetById := getAssetById storage;
  updateAsset := mem_updateAsset;
  deleteAsset := mem_deleteAsset;
  createContract := createContract storage;
  createMaintenanceRecord := createMaintenanceRecord storage;
  createCompany := mem_createCompany;
  addUserToCompany := fun _ _ _ db => (Throw (JsError "insert failed" (Some "23503")), db);
  getAllCompanies := getAllCompanies storage;
  updateCompanyPlan := mem_updateCompanyPlan
|}.

End MemMore.

(** The audit entry [POST /api/admin/support-access/:companyId] writes. *)
Definition access_entry (L : Lib) (companyId : string) (admin company : obj) : obj :=
  mkobj [ ("companyId", Some (JStr companyId));
          ("userId", admin !! "id");
          ("action", Some (JStr "accessed"));
          ("entityType", Some (JStr "company"));
          ("entityId", Some (JStr companyId));
          ("entityName",
           Some (JStr ("Support access to " +:+ to_display L (company !! "name")))) ].

(** The audit entry [POST /api/admin/exit-support] writes. *)
Definition exit_entry (req : request) (admin : obj) : obj :=
  mkobj [ ("companyId", prop (prop (req_user req) "supportMode") "companyId");
          ("userId", admin !! "id");
          ("action", Some (JStr "exited"));
          ("entityType", Some (JStr "company"));
          ("entityId", prop (prop (req_user req) "supportMode") "companyId");
          ("entityName", Some (JStr "Exited support mode")) ].

(** ** More sample data *)

Module Sample.

(** A storage whose audit write fails. *)
Definition unlogged : Storage MemStore.DB := {|
  getUserByEmail := getUserByEmail MemStore.storage;
  getUser := getUser MemStore.storage;
  getUserCompanies := getUserCompanies MemStore.storage;
  getAssetsByCompany := getAssetsByCompany MemStore.storage;
  getCompanyById := getCompanyById MemStore.storage;
  createAsset := MemStore.mem_createAsset;
  logActivity := fun _ db => (Throw (JsError "insert failed" None), db);
  registerCompany := MemStore.mem_registerCompany
|}.

(** Root is a super admin; Ana's token below claims that role, her
    stored role is [manager_owner]. *)
Definition root : obj :=
  <["role" := JStr "super_admin"]>
    (Demo.user_row "u0" "root@example.com" "Root" "Admin" "secret-root").

Definition db1 : MemStore.DB :=
  MemStore.mkDB (root :: MemStore.users Demo.db0) (MemStore.companies Demo.db0)
                (MemStore.userCompanies Demo.db0) (MemStore.assets Demo.db0) [].

Definition claims_of (id role : string) : obj :=
  mkobj [ ("userId", Some (JStr id)); ("role", Some (JStr role));
          ("iat", Some (JNum 0)); ("exp", Some (JNum Auth.SEVEN_DAYS)) ].

Definition as_root (body : option jsval) : request :=
  mkRequest (Some (JObj (claims_of "u0" "super_admin"))) body.

Definition as_root_in_support (body : option jsval) : request :=
  mkRequest
    (Some (JObj (<["supportMode" := JObj {[ "companyId" := JStr "cB" ]}]>
                   (claims_of "u0" "super_admin")))) body.

Definition ana_claiming_admin (body : option jsval) : request :=
  mkRequest (Some (JObj (claims_of "u1" "super_admin"))) body.

(** A laptop with an [id] of the sender's choosing. *)
Definition laptop_with_id : option jsval :=
  Some (JObj (mkobj [ ("name", Some (JStr "Laptop")); ("type", Some (JStr "physical"));
                      ("id", Some (JStr "a0")); ("createdAt", Some (JStr "2020-01-01")) ])).

(** An application whose domain expiry is the ISO string a browser sends. *)
Definition app_with_expiry : obj :=
  mkobj [ ("name", Some (JStr "Portal")); ("type", Some (JStr "application"));
          ("domainExpiry", Some (JStr "2030-01-01T00:00:00.000Z")) ].

Definition rename_body : option jsval :=
  Some (JObj (mkobj [ ("name", Some (JStr "Servidor A")); ("companyId", Some (JStr "cA")) ])).

Definition contract_body : option jsval :=
  Some (JObj (mkobj [ ("companyId", Some (JStr "cA")); ("name", Some (JStr "Soporte"));
                      ("vendor", Some (JStr "Proveedor")); ("contractType", Some (JStr "anual"));
                      ("startDate", Some (JStr "2026-01-01T00:00:00.000Z"));
                      ("endDate", Some (JStr "2027-01-01T00:00:00.000Z")) ])).

Definition maintenance_body : option jsval :=
  Some (JObj (mkobj [ ("assetId", Some (JStr "a0")); ("companyId", Some (JStr "cB"));
                      ("maintenanceType", Some (JStr "preventive"));
                      ("title", Some (JStr "Limpieza"));
                      ("description", Some (JStr "Limpieza anual")) ])).

Definition company_body : option jsval :=
  Some (JObj (mkobj [ ("name", Some (JStr "Tercera SA")); ("plan", Some (JStr "pyme")) ])).

Definition plan_body (plan : string) : option jsval :=
  Some (JObj (mkobj [ ("plan", Some (JStr plan)); ("maxUsers", Some (JStr "many")) ])).

End Sample.

(** ** client/src/pages/register.tsx: the input handlers *)

Module Forms.

(** [value.replace(/\D/g, "")] *)
Fixpoint strip_non_digits (s : string) : string :=
  match s with
  | EmptyString => EmptyString
  | String a r => if is_digit a then String a (strip_non_digits r) else strip_non_digits r
  end.

(** [s.slice(0, n)] *)
Fixpoint slice0 (n : nat) (s : string) : string :=
  match n, s with
  | S n', String a r => String a (slice0 n' r)
  | _, _ => EmptyString
  end.

Definition sanitize (n : nat) (value : string) : string :=
  slice0 n (strip_non_digits value).

(** [form.setValue(name, value)] *)
Definition setValue (name : string) (value : option jsval) (form : obj) : obj :=
  js_set name value form.

Definition handleRucChange (typed : string) (form : obj) : obj :=
  setValue "ruc" (Some (JStr (sanitize 13 typed))) form.

Definition handleCedulaChange (typed : string) (form : obj) : obj :=
  setValue "cedula" (Some (JStr (sanitize 10 typed))) form.

Definition handlePlanChange (plan : string) (form : obj) : obj :=
  setValue "cedula" (Some (JStr ""))
    (setValue "ruc" (Some (JStr "")) (setValue "plan" (Some (JStr plan)) form)).

End Forms.

(** ** client/src/pages: what the cards show *)

Module Pages.

Inductive service_class : Type := cls_destructive | cls_chart_4 | cls_muted.

(** [Number(v) > 0] *)
Definition positive (L : Lib) (v : option jsval) : bool :=
  match Client.js_Number L v with
  | Some n => 0 <? n
  | None => false
  end.

(** The colour of the expiry date of one service line of an application
    card (applications.tsx); the line is rendered when the service has a
    positive cost, the date when it is set. *)
Definition serviceDateClass (L : Lib) (now_ms clock_ms : Z) (cost date : option jsval)
    : option service_class :=
  if positive L cost then
    if truthy date then
      Some (if Client.t_lt (Client.time_of L date) now_ms then cls_destructive
            else if Client.t_lt (Client.time_of L date) (clock_ms + Client.THIRTY_DAYS_MS)
                 then cls_chart_4
                 else cls_muted)
    else None
  else None.

(** The hours and minutes shown for the duration of a maintenance record
    (physical-assets.tsx): [Math.floor(Number(t) / 60)] and
    [Number(t) % 60], for a duration in whole minutes. *)
Definition timeSpentHours (t : Z) : Z := t / 60.
Definition timeSpentMinutes (t : Z) : Z := Z.rem t 60.

(** [hay.includes(needle)] *)
Fixpoint includes (hay needle : string) : bool :=
  String.prefix needle hay
  || match hay with
     | EmptyString => false
     | String _ rest => includes rest needle
     end.

(** [a || b] on two tests, the second evaluated only when needed. *)
Definition or_else (a : Res bool) (b : Res bool) : Res bool :=
  match a with
  | Ok true => Ok true
  | Ok false => b
  | Throw e => Throw e
  end.

(** [list.filter(test)] for a test that may throw. *)
Fixpoint filter_res (test : obj -> Res bool) (l : list obj) : Res (list obj) :=
  match l with
  | [] => Ok []
  | x :: rest =>
      match test x with
      | Throw e => Throw e
      | Ok keep =>
          match filter_res test rest with
          | Throw e => Throw e
          | Ok kept => Ok (if keep then x :: kept else kept)
          end
      end
  end.

Definition of_type (type : string) (asset : obj) : bool :=
  js_strict_eq (asset !! "type") (Some (JStr type)).

(** Shapes of a field, for the statements about the search boxes. *)
Definition is_string (v : option jsval) : Prop := ∃ s, v = Some (JStr s).

Definition string_or_nullish (v : option jsval) : Prop :=
  v = None ∨ v = Some JNull ∨ is_string v.

Section Search.

(** [String.prototype.toLowerCase], a function of the platform. *)
Context (toLowerCase : string -> string).

(** [v.toLowerCase().includes(term)]: a [TypeError] unless [v] is a
    string. *)
Definition matches (v : option jsval) (term : string) : Res bool :=
  match v with
  | Some (JStr s) => Ok (includes (toLowerCase s) term)
  | _ => Throw (JsError "TypeError" None)
  end.

(** [v?.toLowerCase().includes(term)]: [undefined] for a null or missing
    value, which counts as false in [||]. *)
Definition matches_opt (v : option jsval) (term : string) : Res bool :=
  match v with
  | None | Some JNull => Ok false
  | _ => matches v term
  end.

(** [filteredAssets] of physical-assets.tsx *)
Definition filteredAssets (assets : list obj) (searchTerm : string) : Res (list obj) :=
  let physicalAssets := List.filter (of_type "physical") assets in
  filter_res
    (fun asset =>
       or_else (matches (asset !! "name") (toLowerCase searchTerm))
         (or_else (matches_opt (asset !! "manufacturer") (toLowerCase searchTerm))
                  (matches_opt (asset !! "model") (toLowerCase searchTerm))))
    physicalAssets.

(** [filteredApplications] of applications.tsx *)
Definition filteredApplications (assets : list obj) (searchTerm : string) : Res (list obj) :=
  let applications := List.filter (of_type "application") assets in
  filter_res
    (fun app =>
       or_else (matches (app !! "name") (toLowerCase searchTerm))
               (matches_opt (app !! "description") (toLowerCase searchTerm)))
    applications.

(** The text of field [k] contains the search term, case apart. *)
Definition field_has (asset : obj) (k term : string) : Prop :=
  ∃ s, asset !! k = Some (JStr s)
       ∧ includes (toLowerCase s) (toLowerCase term) = true.

End Search.

(** The lowering of the letters A to Z, for the samples. *)
Definition lower_unit (a : ascii) : ascii :=
  let n := nat_of_ascii a in
  if ((65 <=? n) && (n <=? 90))%nat then ascii_of_nat (n + 32) else a.

Fixpoint lower_ascii (s : string) : string :=
  match s with
  | EmptyString => EmptyString
  | String a r => String (lower_unit a) (lower_ascii r)
  end.

End Pages.

(** * Properties *)

(** ** Objects *)

Lemma lookup_js_set (k : string) (v : option jsval) (o : obj) (k' : string) :
  js_set k v o !! k' = if String.eqb k k' then v else o !! k'.
Proof.
  unfold js_set.
  destruct (String.eqb_spec k k') as [->|Hne]; destruct v.
  - apply lookup_insert_eq.
  - apply lookup_delete_eq.
  - by apply lookup_insert_ne.
  - by apply lookup_delete_ne.
Qed.

Lemma lookup_mkobj_from (fields : list (string * option jsval)) (acc : obj) (k' : string) :
  mkobj_from acc fields !! k' = lit_lookup k' fields (acc !! k').
Proof.
  revert acc. induction fields as [|[k v] rest IH]; intros acc; simpl.
  - reflexivity.
  - rewrite IH, lookup_js_set. reflexivity.
Qed.

Lemma lookup_mkobj (fields : list (string * option jsval)) (k' : string) :
  mkobj fields !! k' = lit_lookup k' fields None.
Proof. unfold mkobj. rewrite lookup_mkobj_from, lookup_empty. reflexivity. Qed.

Lemma eqb_ne (a b : string) : b ≠ a → String.eqb a b = false.
Proof. intros H. apply String.eqb_neq. congruence. Qed.

(** Comparisons of two string literals are evaluated; comparisons with a
    variable are settled from the hypotheses. *)
Ltac eval_eqb :=
  repeat match goal with
  | |- context [String.eqb ?a ?b] =>
      let r := eval vm_compute in (String.eqb a b) in
      lazymatch r with
      | true => change (String.eqb a b) with true
      | false => change (String.eqb a b) with false
      end
  end;
  rewrite ?eqb_ne by assumption.

(** Reads of a literal at a key. *)
Ltac lit :=
  repeat first
    [ rewrite lookup_mkobj
    | rewrite lookup_js_set
    | rewrite lookup_mkobj_from ];
  cbn [lit_lookup]; eval_eqb; cbn [lit_lookup].

(** ** Tokens *)

Section TokenFacts.

Context (L : Lib) (env : option string).

Lemma finalPayload_userId (payload : obj) :
  Auth.finalPayload payload !! "userId" = js_or (payload !! "userId") (payload !! "id").
Proof. unfold Auth.finalPayload. destruct (truthy _); lit; reflexivity. Qed.

Lemma finalPayload_copied (payload : obj) (k : string) :
  k ∈ ["email"; "firstName"; "lastName"; "role"] →
  Auth.finalPayload payload !! k = payload !! k.
Proof.
  intros Hk. unfold Auth.finalPayload.
  repeat (apply elem_of_cons in Hk as [->|Hk]; [destruct (truthy _); lit; reflexivity|]).
  by apply elem_of_nil in Hk.
Qed.

Lemma finalPayload_supportMode (payload : obj) :
  Auth.finalPayload payload !! "supportMode" =
  if truthy (payload !! "supportMode") then payload !! "supportMode" else None.
Proof. unfold Auth.finalPayload. destruct (truthy _); lit; reflexivity. Qed.

Lemma finalPayload_other (payload : obj) (k : string) :
  k ∉ Auth.token_fields → Auth.finalPayload payload !! k = None.
Proof.
  intros Hk. unfold Auth.token_fields in Hk.
  repeat (apply not_elem_of_cons in Hk as [? Hk]).
  unfold Auth.finalPayload.
  destruct (truthy _); lit; reflexivity.
Qed.

Lemma generateToken_ok (payload : obj) (now_ms : Z) :
  Auth.generateToken L env payload now_ms =
  Ok (Auth.compact L (Auth.jwtSecret env) (Auth.issued_claims payload now_ms)).
Proof.
  unfold Auth.generateToken, Auth.jwt_sign, Auth.issued_claims.
  rewrite !finalPayload_other
    by (unfold Auth.token_fields; rewrite !not_elem_of_cons;
        repeat split; try discriminate; apply not_elem_of_nil).
  reflexivity.
Qed.



Lemma issued_claims_lookup (payload : obj) (now_ms : Z) (k : string) :
  Auth.issued_claims payload now_ms !! k =
  if String.eqb "exp" k then Some (JNum (Auth.seconds now_ms + Auth.SEVEN_DAYS))
  else if String.eqb "iat" k then Some (JNum (Auth.seconds now_ms))
  else Auth.finalPayload payload !! k.
Proof.
  unfold Auth.issued_claims.
  destruct (String.eqb_spec "exp" k) as [<-|Hexp].
  { apply lookup_insert_eq. }
  rewrite lookup_insert_ne by done.
  destruct (String.eqb_spec "iat" k) as [<-|Hiat].
  { apply lookup_insert_eq. }
  by rewrite lookup_insert_ne.
Qed.

Lemma check_ok (payload : jsval) (now_ms : Z) (r : jsval) :
  (Auth.check_nbf payload now_ms = Ok r → r = payload)
  ∧ (Auth.check_exp payload now_ms = Ok r → r = payload).
Proof.
  unfold Auth.check_nbf, Auth.check_exp. split; intros H;
    repeat (match type of H with
            | context [match ?x with _ => _ end] => destruct x
            | context [if ?b then _ else _] => destruct b
            end; try discriminate);
    congruence.
Qed.

Lemma verifyToken_accepts (token : string) (now_ms : Z) (claims : jsval) :
  Auth.verifyToken L env token now_ms = Some claims
  ↔ Auth.accepts L (Auth.jwtSecret env) token now_ms claims.
Proof.
  unfold Auth.verifyToken, Auth.jwt_verify, Auth.accepts. split.
  - destruct (jwt_decode L token) as [[[input p] sg]|] eqn:Hd; [|discriminate].
    destruct (String.eqb_spec sg (hmac_sha256 L (Auth.jwtSecret env) input)) as [->|Hne];
      cbn [negb]; [|discriminate].
    destruct (Auth.check_nbf p now_ms) as [r|e] eqn:Hn; [|discriminate].
    destruct (Auth.check_exp p now_ms) as [r'|e] eqn:He; [|discriminate].
    intros [= <-].
    pose proof (proj1 (check_ok p now_ms r) Hn) as ->.
    pose proof (proj2 (check_ok p now_ms r') He) as ->.
    exists input, (hmac_sha256 L (Auth.jwtSecret env) input). done.
  - intros (input & sg & Hd & -> & Hn & He).
    rewrite Hd, String.eqb_refl. cbn [negb]. rewrite Hn, He. reflexivity.
Qed.

Lemma verifyToken_malformed (token : string) (now_ms : Z) :
  jwt_decode L token = None → Auth.verifyToken L env token now_ms = None.
Proof. intros H. unfold Auth.verifyToken, Auth.jwt_verify. by rewrite H. Qed.

Lemma verifyToken_bad_signature (token input sg : string) (claims : jsval) (now_ms : Z) :
  jwt_decode L token = Some (input, claims, sg) →
  sg ≠ hmac_sha256 L (Auth.jwtSecret env) input →
  Auth.verifyToken L env token now_ms = None.
Proof.
  intros Hd Hne. unfold Auth.verifyToken, Auth.jwt_verify. rewrite Hd.
  by destruct (String.eqb_spec sg (hmac_sha256 L (Auth.jwtSecret env) input)).
Qed.

Lemma verifyToken_expired (token input sg : string) (claims : jsval) (e now_ms : Z) :
  jwt_decode L token = Some (input, claims, sg) →
  prop (Some claims) "exp" = Some (JNum e) →
  e ≤ Auth.seconds now_ms →
  Auth.verifyToken L env token now_ms = None.
Proof.
  intros Hd Hexp Hle. unfold Auth.verifyToken, Auth.jwt_verify. rewrite Hd.
  destruct (negb _); [done|].
  destruct (Auth.check_nbf claims now_ms); [|done].
  unfold Auth.check_exp. rewrite Hexp.
  destruct (Z.leb_spec e (Auth.seconds now_ms)); [done|lia].
Qed.

End TokenFacts.

(** C8.  [verifyToken] is a total function from strings to "claims or
    null": it yields claims exactly when the token decodes, is signed
    with the server's secret and is inside its validity window, and it
    yields null -- never an exception -- for a malformed token, for a
    signature that does not match, and for an expired token. *)
Theorem verifyToken_total (L : Lib) (env : option string) (token : string) (now_ms : Z) :
  (∀ claims, Auth.verifyToken L env token now_ms = Some claims
             ↔ Auth.accepts L (Auth.jwtSecret env) token now_ms claims)
  ∧ (Auth.verifyToken L env token now_ms = None
     ↔ ¬ ∃ claims, Auth.accepts L (Auth.jwtSecret env) token now_ms claims)
  ∧ (jwt_decode L token = None → Auth.verifyToken L env token now_ms = None)
  ∧ (∀ input claims sg,
       jwt_decode L token = Some (input, claims, sg) →
       sg ≠ hmac_sha256 L (Auth.jwtSecret env) input →
       Auth.verifyToken L env token now_ms = None)
  ∧ (∀ input claims sg e,
       jwt_decode L token = Some (input, claims, sg) →
       prop (Some claims) "exp" = Some (JNum e) →
       e ≤ Auth.seconds now_ms →
       Auth.verifyToken L env token now_ms = None).
Proof.
  split; [|split; [|split; [|split]]].
  - intros claims. apply verifyToken_accepts.
  - split.
    + intros Hnone [claims Hacc]. apply verifyToken_accepts in Hacc. congruence.
    + intros Hno. destruct (Auth.verifyToken L env token now_ms) as [claims|] eqn:Hv; [|done].
      exfalso. apply Hno. exists claims. by apply verifyToken_accepts.
  - apply verifyToken_malformed.
  - intros input claims sg. apply verifyToken_bad_signature.
  - intros input claims sg e. apply verifyToken_expired.
Qed.

(** On the demo library: the issued token verifies, the forged one, a
    string that is no token, and the issued token after its expiry all
    yield null. *)
Lemma verifyToken_total_witness :
  Auth.verifyToken Demo.lib None Demo.admin_token 0 = Some (JObj Demo.admin_claims)
  ∧ Auth.verifyToken Demo.lib None Demo.forged_token 0 = None
  ∧ Auth.verifyToken Demo.lib None "garbage" 0 = None
  ∧ Auth.verifyToken Demo.lib None Demo.admin_token (Auth.SEVEN_DAYS * 1000) = None.
Proof.
  split; [|split; [|split]].
  - apply (proj1 (verifyToken_total Demo.lib None Demo.admin_token 0)).
    exists (Demo.signing_input Demo.admin_claims),
           (Demo.mac Auth.DEV_SECRET (Demo.signing_input Demo.admin_claims)).
    repeat split; vm_compute; reflexivity.
  - apply (proj1 (proj2 (proj2 (proj2 (verifyToken_total Demo.lib None Demo.forged_token 0))))
             (Demo.signing_input Demo.admin_claims) (JObj Demo.admin_claims) "forged").
    + vm_compute; reflexivity.
    + vm_compute; discriminate.
  - apply (proj1 (proj2 (proj2 (verifyToken_total Demo.lib None "garbage" 0)))).
    vm_compute; reflexivity.
  - apply (proj2 (proj2 (proj2 (proj2
             (verifyToken_total Demo.lib None Demo.admin_token (Auth.SEVEN_DAYS * 1000)))))
             (Demo.signing_input Demo.admin_claims) (JObj Demo.admin_claims)
             (Demo.mac Auth.DEV_SECRET (Demo.signing_input Demo.admin_claims))
             Auth.SEVEN_DAYS).
    + vm_compute; reflexivity.
    + vm_compute; reflexivity.
    + vm_compute; discriminate.
Defined.

(** C7.  A token issued for a payload and verified while it is still
    inside its seven days is accepted, and the decoded claims carry the
    role of the payload; a token whose signature is not the HMAC of its
    signing input is answered with null. *)
Theorem token_roundtrip (L : Lib) (env : option string) (payload : obj) (now_ms later_ms : Z) :
  jwt_decode L (Auth.compact L (Auth.jwtSecret env) (Auth.issued_claims payload now_ms))
  = Some (jwt_signing_input L (Auth.issued_claims payload now_ms),
          JObj (Auth.issued_claims payload now_ms),
          hmac_sha256 L (Auth.jwtSecret env)
            (jwt_signing_input L (Auth.issued_claims payload now_ms))) →
  Auth.seconds later_ms < Auth.seconds now_ms + Auth.SEVEN_DAYS →
  (∃ token decoded,
      Auth.generateToken L env payload now_ms = Ok token
      ∧ Auth.verifyToken L env token later_ms = Some decoded
      ∧ prop (Some decoded) "role" = payload !! "role")
  ∧ (∀ tampered input claims sg,
        jwt_decode L tampered = Some (input, claims, sg) →
        sg ≠ hmac_sha256 L (Auth.jwtSecret env) input →
        Auth.verifyToken L env tampered later_ms = None).
Proof.
  intros Hcodec Hfresh. split.
  - exists (Auth.compact L (Auth.jwtSecret env) (Auth.issued_claims payload now_ms)),
           (JObj (Auth.issued_claims payload now_ms)).
    split; [apply generateToken_ok|]. split.
    + apply verifyToken_accepts. eexists _, _. split; [exact Hcodec|].
      split; [reflexivity|].
      unfold Auth.check_nbf, Auth.check_exp. cbn [prop].
      rewrite !issued_claims_lookup. eval_eqb.
      rewrite finalPayload_other
        by (unfold Auth.token_fields; rewrite !not_elem_of_cons;
            repeat split; try discriminate; apply not_elem_of_nil).
      split; [reflexivity|].
      destruct (Z.leb_spec (Auth.seconds now_ms + Auth.SEVEN_DAYS) (Auth.seconds later_ms));
        [lia|reflexivity].
    + cbn [prop]. rewrite issued_claims_lookup. eval_eqb.
      apply finalPayload_copied. rewrite !elem_of_cons. auto 10.
  - intros tampered input claims sg. apply verifyToken_bad_signature.
Qed.

Lemma token_roundtrip_witness :
  (∃ token decoded,
      Auth.generateToken Demo.lib None Demo.admin_payload 0 = Ok token
      ∧ Auth.verifyToken Demo.lib None token 1000 = Some decoded
      ∧ prop (Some decoded) "role" = Some (JStr "manager_owner"))
  ∧ Auth.verifyToken Demo.lib None Demo.forged_token 1000 = None.
Proof.
  destruct (token_roundtrip Demo.lib None Demo.admin_payload 0 1000) as [Hrt Htamper].
  - vm_compute; reflexivity.
  - vm_compute; reflexivity.
  - split.
    + exact Hrt.
    + apply (Htamper Demo.forged_token (Demo.signing_input Demo.admin_claims)
               (JObj Demo.admin_claims) "forged").
      * vm_compute; reflexivity.
      * vm_compute; discriminate.
Defined.

(** ** Handlers *)

(** Unfold the monad down to the storage calls. *)
Ltac exec :=
  unfold run, Routes.authenticated, try_catch, bind, query, command, lift, ret, record,
         setJwtCookie, zparse;
  cbn [w_db w_calls w_cookie fst snd].

Ltac smp := cbn beta iota zeta delta [w_db w_calls w_cookie fst snd app status body cookie].

Ltac case_call :=
  match goal with
  | |- context [getUserCompanies ?st ?u ?db] =>
      destruct (getUserCompanies st u db) as [[[|? ?]|]|?] eqn:?
  | |- context [insertAssetSchema ?i] =>
      destruct (insertAssetSchema i) as [?|] eqn:?
  | |- context [createAsset ?st ?d ?db] =>
      destruct (createAsset st d db) as [[?|?] ?] eqn:?
  | |- context [logActivity ?st ?d ?db] =>
      destruct (logActivity st d db) as [[[]|[|]] ?] eqn:?
  | |- context [match ?e with ZodError => _ | JsError _ _ => _ end] =>
      is_var e; destruct e
  end; smp.


Ltac in_calls H :=
  repeat (apply elem_of_cons in H as [H|H]; [try discriminate H; try (injection H as ? ?; subst)|]);
  try (by apply elem_of_nil in H).




Section AssetCreation.

Context {DB : Type} (st : Storage DB) (req : request) (db : DB).




End AssetCreation.

Section TenantReads.

Context {DB : Type} (st : Storage DB).

(** C1 (as the code has it).  An authenticated [GET /api/assets/:companyId]
    makes one storage call, the asset query for the company named in the
    path, and no membership lookup; it answers 200 with the rows that
    query returned (500 when the query throws), whoever the caller is,
    and never 403. *)
Theorem get_assets_unscoped (companyId : string) (req : request) (db : DB) :
  Auth.isAuthenticated (req_user req) = true →
  w_calls (snd (run (Routes.get_assets st companyId req) db))
  = [CGetAssetsByCompany companyId]
  ∧ w_db (snd (run (Routes.get_assets st companyId req) db)) = db
  ∧ status (fst (run (Routes.get_assets st companyId req) db)) ≠ 403
  ∧ match getAssetsByCompany st companyId db with
    | Ok rows =>
        fst (run (Routes.get_assets st companyId req) db)
        = mkResponse 200 (JArr (JObj <$> rows)) None
    | Throw _ =>
        fst (run (Routes.get_assets st companyId req) db)
        = mkResponse 500 (message "Failed to fetch assets") None
    end.
Proof.
  intros Hauth. unfold Routes.get_assets. exec. rewrite Hauth. smp.
  destruct (getAssetsByCompany st companyId db); smp; repeat split; discriminate.
Qed.

End TenantReads.

(** Ana, who belongs to company [cA] only, reads the assets of [cB]. *)
Lemma get_assets_unscoped_witness :
  fst (run (Routes.get_assets MemStore.storage "cB" (Demo.as_ana None)) Demo.db0)
  = mkResponse 200 (JArr [JObj Demo.asset_b]) None.
Proof.
  exact (proj2 (proj2 (proj2
    (get_assets_unscoped MemStore.storage "cB" (Demo.as_ana None) Demo.db0 eq_refl)))).
Defined.

(** C1 fails as stated: the caller is authenticated and has a single
    membership, in company [cA]; the request for company [cB] is answered
    200, not 403, with the asset row of [cB]. *)
Lemma get_assets_cross_tenant :
  Auth.isAuthenticated (req_user (Demo.as_ana None)) = true
  ∧ getUserCompanies MemStore.storage (prop (req_user (Demo.as_ana None)) "userId") Demo.db0
    = Ok (Some [Demo.membership "u1" "cA"])
  ∧ status (fst (run (Routes.get_assets MemStore.storage "cB" (Demo.as_ana None)) Demo.db0))
    = 200
  ∧ body (fst (run (Routes.get_assets MemStore.storage "cB" (Demo.as_ana None)) Demo.db0))
    = JArr [JObj Demo.asset_b]
  ∧ Demo.asset_b !! "companyId" = Some (JStr "cB").
Proof. repeat split; vm_compute; reflexivity. Qed.

Section Login.

Context (L : Lib) (env : option string) {DB : Type} (st : Storage DB).

Lemma credentials_parse (body : option jsval) (e p : string) :
  credentials (zod_email L) body = Some (e, p) →
  ∃ c, loginSchema (zod_email L) body = Some c
       ∧ c !! "email" = Some (JStr e) ∧ c !! "password" = Some (JStr p).
Proof.
  unfold credentials. destruct (loginSchema (zod_email L) body) as [c|]; [|discriminate].
  destruct (c !! "email") as [[]|] eqn:He; try discriminate.
  destruct (c !! "password") as [[]|] eqn:Hp; try discriminate.
  intros [= <- <-]. exists c. done.
Qed.

(** [loginSchema] asks for a password of at least one code unit. *)
Lemma login_schema_empty_password (m : obj) :
  m !! "password" = Some (JStr "") → loginSchema (zod_email L) (Some (JObj m)) = None.
Proof.
  intros Hp. unfold loginSchema, z_object. cbn [parse_fields].
  destruct (z_string_email (zod_email L) (m !! "email")); [|reflexivity].
  rewrite Hp. reflexivity.
Qed.

(** The response of a login that is not let in, when the lookup returns:
    it depends on the request alone. *)
Lemma login_rejected (db : DB) (req : request) (t : Z) :
  status (fst (run (Routes.login L env st req t) db)) ≠ 200 →
  (∀ e p, credentials (zod_email L) (req_body req) = Some (e, p) →
          ∃ u, getUserByEmail st e db = Ok u) →
  fst (run (Routes.login L env st req t) db)
  = match credentials (zod_email L) (req_body req) with
    | Some _ => mkResponse 401 (message "Email o contraseña incorrectos") None
    | None => mkResponse 500 (message "Error al iniciar sesión") None
    end.
Proof.
  unfold Routes.login, credentials. exec.
  destruct (loginSchema (zod_email L) (req_body req)) as [c|]; [|reflexivity].
  unfold as_string.
  destruct (c !! "email") as [[| | |e| |]|]; try reflexivity.
  destruct (c !! "password") as [[| | |p| |]|]; try reflexivity.
  smp. intros Hst Hok. destruct (Hok e p eq_refl) as [u Hu]. revert Hst. rewrite Hu. smp.
  destruct u as [u|]; [|reflexivity].
  destruct (Auth.verify L p (u !! "passwordHash")); cbn [negb]; [|reflexivity].
  rewrite generateToken_ok. smp. intros H. by destruct H.
Qed.

(** C3 (as the code has it).  Two login attempts whose bodies pass the
    login schema and are rejected -- one because the storage knows no
    user with the e-mail, the other because the password does not hash to
    the stored digest -- receive the same response: status 401, the same
    message, no cookie.  A body that does not yield credentials -- an
    empty password, for one -- is answered 500 with another message before
    the storage is read, whatever the database holds.  So for one and the
    same request the response of a rejected attempt is the same on any two
    databases the storage can read: it does not tell whether the e-mail is
    known. *)
Theorem login_failures_indistinguishable :
  (∀ (db : DB) (unknown known : request) (t1 t2 : Z) (e1 p1 e2 p2 : string) (u : obj),
     credentials (zod_email L) (req_body unknown) = Some (e1, p1) →
     getUserByEmail st e1 db = Ok None →
     credentials (zod_email L) (req_body known) = Some (e2, p2) →
     getUserByEmail st e2 db = Ok (Some u) →
     Auth.verify L p2 (u !! "passwordHash") = false →
     fst (run (Routes.login L env st unknown t1) db)
     = fst (run (Routes.login L env st known t2) db)
     ∧ status (fst (run (Routes.login L env st unknown t1) db)) = 401
     ∧ body (fst (run (Routes.login L env st unknown t1) db))
       = message "Email o contraseña incorrectos"
     ∧ body (fst (run (Routes.login L env st known t2) db))
       = message "Email o contraseña incorrectos"
     ∧ cookie (fst (run (Routes.login L env st known t2) db)) = None)
  ∧ (∀ (db : DB) (req : request) (t : Z),
       credentials (zod_email L) (req_body req) = None →
       run (Routes.login L env st req t) db
       = (mkResponse 500 (message "Error al iniciar sesión") None, mkWorld db None []))
  ∧ (∀ fields : obj,
       fields !! "password" = Some (JStr "") →
       credentials (zod_email L) (Some (JObj fields)) = None)
  ∧ (∀ (req : request) (t1 t2 : Z) (db1 db2 : DB),
       (∀ e p, credentials (zod_email L) (req_body req) = Some (e, p) →
               (∃ u, getUserByEmail st e db1 = Ok u) ∧ (∃ u, getUserByEmail st e db2 = Ok u)) →
       status (fst (run (Routes.login L env st req t1) db1)) ≠ 200 →
       status (fst (run (Routes.login L env st req t2) db2)) ≠ 200 →
       fst (run (Routes.login L env st req t1) db1)
       = fst (run (Routes.login L env st req t2) db2)).
Proof.
  split; [|split; [|split]].
  - intros db unknown known t1 t2 e1 p1 e2 p2 u
           (c1 & Hs1 & He1 & Hp1)%credentials_parse Hu1
           (c2 & Hs2 & He2 & Hp2)%credentials_parse Hu2 Hv.
    unfold Routes.login. exec.
    rewrite Hs1, Hs2, He1, Hp1, He2, Hp2. unfold as_string. smp.
    rewrite Hu1, Hu2. smp. rewrite Hv. cbn [negb]. smp.
    repeat split; reflexivity.
  - intros db req t. unfold credentials, Routes.login. exec.
    destruct (loginSchema (zod_email L) (req_body req)) as [c|]; [|reflexivity].
    unfold as_string.
    destruct (c !! "email") as [[| | |e| |]|]; try reflexivity.
    destruct (c !! "password") as [[| | |p| |]|]; try reflexivity.
    discriminate.
  - intros fields Hp. unfold credentials.
    by rewrite (login_schema_empty_password fields Hp).
  - intros req t1 t2 db1 db2 Hok H1 H2.
    rewrite (login_rejected db1 req t1 H1), (login_rejected db2 req t2 H2);
      [reflexivity| |]; intros e p Hc; apply (Hok e p Hc).
Qed.

(** A body that fails the shape check is answered 500 before the
    storage is consulted, whatever the database holds. *)
Lemma login_shape_error (db : DB) (req : request) (t : Z) :
  loginSchema (zod_email L) (req_body req) = None →
  run (Routes.login L env st req t) db
  = (mkResponse 500 (message "Error al iniciar sesión") None, mkWorld db None []).
Proof. intros H. unfold Routes.login. exec. rewrite H. reflexivity. Qed.

End Login.

Lemma login_failures_indistinguishable_witness :
  fst (run (Routes.login Demo.lib None MemStore.storage
              (mkRequest None (Demo.login_body "nobody@example.com" "guess")) 0) Demo.db0)
  = fst (run (Routes.login Demo.lib None MemStore.storage
                (mkRequest None (Demo.login_body "ana@example.com" "guess")) 1) Demo.db0)
  ∧ status (fst (run (Routes.login Demo.lib None MemStore.storage
              (mkRequest None (Demo.login_body "nobody@example.com" "guess")) 0) Demo.db0))
    = 401
  ∧ fst (run (Routes.login Demo.lib None MemStore.storage
                (mkRequest None (Demo.login_body "ana@example.com" "")) 0) Demo.db0)
    = mkResponse 500 (message "Error al iniciar sesión") None.
Proof.
  destruct (login_failures_indistinguishable Demo.lib None MemStore.storage)
    as (Hpair & Hshape & Hempty & _).
  pose proof (Hpair Demo.db0
                (mkRequest None (Demo.login_body "nobody@example.com" "guess"))
                (mkRequest None (Demo.login_body "ana@example.com" "guess")) 0 1
                "nobody@example.com" "guess" "ana@example.com" "guess" Demo.ana
                eq_refl eq_refl eq_refl eq_refl eq_refl) as H.
  split; [exact (proj1 H)|]. split; [exact (proj1 (proj2 H))|].
  exact (f_equal fst
           (Hshape Demo.db0 (mkRequest None (Demo.login_body "ana@example.com" "")) 0
              (Hempty (spread (Demo.login_body "ana@example.com" ""))
                      ltac:(vm_compute; reflexivity)))).
Defined.

(** A known e-mail with the empty password as the wrong password: the
    answer is 500, not 401, and its message differs from the one an
    unknown e-mail receives. *)
Lemma login_empty_password :
  getUserByEmail MemStore.storage "nobody@example.com" Demo.db0 = Ok None
  ∧ getUserByEmail MemStore.storage "ana@example.com" Demo.db0 = Ok (Some Demo.ana)
  ∧ Auth.verify Demo.lib "" (Demo.ana !! "passwordHash") = false
  ∧ fst (run (Routes.login Demo.lib None MemStore.storage
                (mkRequest None (Demo.login_body "nobody@example.com" "guess")) 0) Demo.db0)
    = mkResponse 401 (message "Email o contraseña incorrectos") None
  ∧ fst (run (Routes.login Demo.lib None MemStore.storage
                (mkRequest None (Demo.login_body "ana@example.com" "")) 0) Demo.db0)
    = mkResponse 500 (message "Error al iniciar sesión") None
  ∧ status (fst (run (Routes.login Demo.lib None MemStore.storage
                        (mkRequest None (Demo.login_body "ana@example.com" "")) 0) Demo.db0))
    ≠ 401.
Proof. repeat split; try (vm_compute; reflexivity). vm_compute. discriminate. Qed.

(** ** Registration *)

Lemma parse_fields_lookup (fields : list (string * validator)) (m out : obj) :
  parse_fields fields m = Some out →
  NoDup (fields.*1) →
  ∀ k v, (k, v) ∈ fields → v (m !! k) = Some (out !! k).
Proof.
  revert out. induction fields as [|[k0 v0] rest IH]; intros out Hp Hnd k v Hin.
  - by apply elem_of_nil in Hin.
  - cbn [parse_fields] in Hp.
    destruct (v0 (m !! k0)) as [o|] eqn:Hv; [|discriminate].
    destruct (parse_fields rest m) as [acc|] eqn:Hr; [|discriminate].
    injection Hp as <-.
    apply NoDup_cons in Hnd as [Hfresh Hnd].
    rewrite lookup_js_set.
    apply elem_of_cons in Hin as [[= -> ->]|Hin].
    + by rewrite String.eqb_refl.
    + destruct (String.eqb_spec k0 k) as [->|Hne].
      * exfalso. apply Hfresh. apply list_elem_of_fmap. by exists (k, v).
      * by apply (IH acc).
Qed.

Lemma registration_keys_nodup (is_email : string → bool) :
  NoDup ((registration_fields is_email).*1).
Proof. apply (bool_decide_unpack _). vm_compute. reflexivity. Qed.

(** What acceptance by the registration schema says about the plan and
    the two identifiers. *)
Lemma registration_parsed (is_email : string → bool) (input : option jsval) (data : obj) :
  companyRegistrationSchema is_email input = Some data →
  ∃ m, input = Some (JObj m)
       ∧ data !! "plan" = m !! "plan"
       ∧ data !! "ruc" = m !! "ruc" ∧ id_refinement 13 (m !! "ruc") = true
       ∧ data !! "cedula" = m !! "cedula" ∧ id_refinement 10 (m !! "cedula") = true.
Proof.
  unfold companyRegistrationSchema, z_object.
  destruct input as [[| | | | |m]|]; try discriminate.
  destruct (parse_fields (registration_fields is_email) m) as [d|] eqn:Hp; [|discriminate].
  destruct (js_strict_eq _ _); [|discriminate]. intros [= <-].
  pose proof (parse_fields_lookup _ _ _ Hp (registration_keys_nodup is_email)) as Hl.
  exists m. split; [reflexivity|].
  assert (Hplan := Hl "plan" (z_enum ["pyme"; "professional"])).
  assert (Hruc := Hl "ruc" (z_refine (z_optional z_string) (id_refinement 13))).
  assert (Hced := Hl "cedula" (z_refine (z_optional z_string) (id_refinement 10))).
  unfold registration_fields in Hplan, Hruc, Hced.
  rewrite !elem_of_cons in Hplan, Hruc, Hced.
  specialize (Hplan ltac:(auto 15)). specialize (Hruc ltac:(auto 15)).
  specialize (Hced ltac:(auto 15)).
  unfold z_enum in Hplan. unfold z_refine, z_optional, z_string in Hruc, Hced.
  repeat split.
  - destruct (m !! "plan") as [[]|]; try discriminate.
    destruct (existsb _ _); [|discriminate]. congruence.
  - destruct (m !! "ruc") as [[]|]; try discriminate;
      destruct (id_refinement 13 _); congruence.
  - destruct (m !! "ruc") as [[]|]; try discriminate;
      destruct (id_refinement 13 _); congruence.
  - destruct (m !! "cedula") as [[]|]; try discriminate;
      destruct (id_refinement 10 _); congruence.
  - destruct (m !! "cedula") as [[]|]; try discriminate;
      destruct (id_refinement 10 _); congruence.
Qed.

(** A value that is not an [n]-digit string and yet passes the
    refinement is falsy. *)
Lemma refinement_falsy (n : nat) (v : option jsval) :
  id_refinement n v = true →
  ¬ (∃ s, v = Some (JStr s) ∧ digits_exact n s = true) →
  truthy v = false.
Proof.
  unfold id_refinement. intros Hr Hno.
  destruct (truthy v) eqn:Ht; [|reflexivity]. cbn [negb orb] in Hr.
  destruct v as [[]|]; try discriminate. exfalso. apply Hno. eauto.
Qed.

(** A non-empty string that is not [n] digits fails the refinement. *)
Lemma refinement_rejects (n : nat) (s : string) :
  s ≠ "" → digits_exact n s = false → id_refinement n (Some (JStr s)) = false.
Proof.
  intros Hne Hd. unfold id_refinement. rewrite Hd. cbn [truthy].
  destruct (String.eqb_spec s ""); [done|reflexivity].
Qed.

(** C2 (as the code has it).  The plan-specific requirement lives in the
    registration form: a submission on plan pyme without a 13-digit
    numeric RUC, or on plan professional without a 10-digit numeric
    cedula, ends in a notice and sends nothing.  The schema shared with
    the server checks the format only: a request whose RUC is a non-empty
    string other than 13 digits, or whose cedula is a non-empty string
    other than 10 digits, is refused by [POST /api/register] before any
    storage call, so nothing is created. *)
Theorem registration_identifier_rule (L : Lib) :
  (∀ values : obj,
     (values !! "plan" = Some (JStr "pyme")
      ∧ ¬ (∃ s, values !! "ruc" = Some (JStr s) ∧ digits_exact 13 s = true))
     ∨ (values !! "plan" = Some (JStr "professional")
        ∧ ¬ (∃ s, values !! "cedula" = Some (JStr s) ∧ digits_exact 10 s = true)) →
     ∃ title description, Client.handleSubmit L values = Client.Toast title description)
  ∧ (∀ (env : option string) (DB : Type) (st : Storage DB) (req : request) (now_ms : Z)
       (db : DB) (fields : obj),
       req_body req = Some (JObj fields) →
       (∃ s, fields !! "ruc" = Some (JStr s) ∧ s ≠ "" ∧ digits_exact 13 s = false)
       ∨ (∃ s, fields !! "cedula" = Some (JStr s) ∧ s ≠ "" ∧ digits_exact 10 s = false) →
       status (fst (run (Routes.register L env st req now_ms) db)) ≠ 200
       ∧ w_calls (snd (run (Routes.register L env st req now_ms) db)) = []
       ∧ w_db (snd (run (Routes.register L env st req now_ms) db)) = db
       ∧ cookie (fst (run (Routes.register L env st req now_ms) db)) = None).
Proof.
  split.
  - intros values Hrule. unfold Client.handleSubmit.
    destruct (companyRegistrationSchema (zod_email L) (Some (JObj values))) as [data|] eqn:Hs.
    2:{ unfold Client.onValidationFailure. eauto. }
    apply registration_parsed in Hs as (m & [= <-] & Hplan & Hruc & Hr13 & Hced & Hr10).
    unfold Client.onSubmit. rewrite Hplan, Hruc, Hced.
    destruct Hrule as [[Hp Hno]|[Hp Hno]]; rewrite Hp.
    + rewrite (refinement_falsy 13 _ Hr13 Hno). cbn. eauto.
    + rewrite (refinement_falsy 10 _ Hr10 Hno). cbn.
      destruct (negb (truthy (values !! "ruc"))); cbn; eauto.
  - intros env DB st req now_ms db fields Hbody Hbad.
    assert (companyRegistrationSchema (zod_email L) (req_body req) = None) as Hnone.
    { destruct (companyRegistrationSchema (zod_email L) (req_body req)) as [data|] eqn:Hs;
        [|reflexivity].
      apply registration_parsed in Hs as (m & Hm & _ & _ & Hr13 & _ & Hr10).
      rewrite Hbody in Hm. injection Hm as <-.
      destruct Hbad as [(s & Hv & Hne & Hd)|(s & Hv & Hne & Hd)].
      - rewrite Hv, (refinement_rejects 13 s Hne Hd) in Hr13. discriminate.
      - rewrite Hv, (refinement_rejects 10 s Hne Hd) in Hr10. discriminate. }
    unfold Routes.register. exec. rewrite Hnone. smp.
    repeat split; discriminate.
Qed.

Lemma registration_identifier_rule_witness :
  (∃ title description,
      Client.handleSubmit Demo.lib Demo.pyme_without_ruc = Client.Toast title description)
  ∧ status (fst (run (Routes.register Demo.lib None MemStore.storage
                        (mkRequest None (Some (JObj Demo.short_ruc))) 0) Demo.db0)) ≠ 200
  ∧ w_db (snd (run (Routes.register Demo.lib None MemStore.storage
                      (mkRequest None (Some (JObj Demo.short_ruc))) 0) Demo.db0)) = Demo.db0.
Proof.
  destruct (registration_identifier_rule Demo.lib) as [Hclient Hserver]. split.
  - apply Hclient. left. split; [reflexivity|].
    intros (s & Hs & _). vm_compute in Hs. discriminate Hs.
  - destruct (Hserver None MemStore.DB MemStore.storage
                (mkRequest None (Some (JObj Demo.short_ruc))) 0 Demo.db0 Demo.short_ruc
                eq_refl) as (H1 & _ & H3 & _).
    + left. exists "123". split; [reflexivity|]. split; [discriminate|reflexivity].
    + exact (conj H1 H3).
Defined.

(** C2 fails as stated: a request on plan pyme that carries no RUC and is
    otherwise well-formed passes the server's validation; with the
    in-memory storage the company is created and the answer is 200. *)
Lemma register_pyme_without_ruc :
  Demo.pyme_without_ruc !! "plan" = Some (JStr "pyme")
  ∧ Demo.pyme_without_ruc !! "ruc" = None
  ∧ status (fst (run (Routes.register Demo.lib None MemStore.storage
                        (mkRequest None (Some (JObj Demo.pyme_without_ruc))) 0) Demo.db0))
    = 200
  ∧ List.length (MemStore.companies
       (w_db (snd (run (Routes.register Demo.lib None MemStore.storage
                         (mkRequest None (Some (JObj Demo.pyme_without_ruc))) 0) Demo.db0))))
    = S (List.length (MemStore.companies Demo.db0))
  ∧ List.length (MemStore.users
       (w_db (snd (run (Routes.register Demo.lib None MemStore.storage
                         (mkRequest None (Some (JObj Demo.pyme_without_ruc))) 0) Demo.db0))))
    = S (List.length (MemStore.users Demo.db0)).
Proof. repeat split; vm_compute; reflexivity. Qed.



(** The same run, read off the in-memory tables. *)
Example post_assets_on_memstore :
  MemStore.activityLog
    (w_db (snd (run (Routes.post_assets MemStore.storage (Demo.as_ana Demo.laptop_body))
                  Demo.db0)))
  = [ mkobj [ ("companyId", Some (JStr "cA")); ("userId", Some (JStr "u1"));
              ("action", Some (JStr "created")); ("entityType", Some (JStr "asset"));
              ("entityId", Some (JStr "aii")); ("entityName", Some (JStr "Laptop")) ] ]
  ∧ MemStore.activityLog
      (w_db (snd (run (Routes.post_assets MemStore.rejecting (Demo.as_ana Demo.laptop_body))
                    Demo.db0))) = [].
Proof. split; vm_compute; reflexivity. Qed.

(** The insert and the audit write are two steps: on a storage whose
    audit write throws the answer is 500, the asset is stored and the log
    is empty. *)
Example post_assets_audit_write_fails :
  status (fst (run (Routes.post_assets Sample.unlogged (Demo.as_ana Demo.laptop_body))
                   Demo.db0)) = 500
  ∧ List.length
      (MemStore.assets
         (w_db (snd (run (Routes.post_assets Sample.unlogged (Demo.as_ana Demo.laptop_body))
                         Demo.db0))))
    = S (List.length (MemStore.assets Demo.db0))
  ∧ MemStore.activityLog
      (w_db (snd (run (Routes.post_assets Sample.unlogged (Demo.as_ana Demo.laptop_body))
                      Demo.db0))) = [].
Proof. repeat split; vm_compute; reflexivity. Qed.

(** ** Expiry warnings *)

Section Expiry.

Context (L : Lib) (ref : Z).

Lemma item_status_expired (item : Client.expiry_item) :
  Spec.is_expired (Spec.item_status L ref item)
  = truthy (Client.item_date item)
    && Client.t_lt (Client.time_of L (Client.item_date item)) ref.
Proof.
  unfold Spec.item_status, Spec.fieldStatus, Client.t_lt.
  destruct (truthy _); [|reflexivity].
  destruct (Client.time_of L _) as [d|]; [|reflexivity].
  destruct (d <? ref); [reflexivity|]. by destruct (d <=? _).
Qed.

Lemma item_status_expiring (item : Client.expiry_item) :
  Spec.is_expiring (Spec.item_status L ref item)
  = truthy (Client.item_date item)
    && (Client.t_ge (Client.time_of L (Client.item_date item)) ref
        && Client.t_le (Client.time_of L (Client.item_date item))
                       (ref + Client.THIRTY_DAYS_MS)).
Proof.
  unfold Spec.item_status, Spec.fieldStatus, Client.t_ge, Client.t_le,
         Spec.THIRTY_DAYS, Client.THIRTY_DAYS_MS.
  destruct (truthy _); [|reflexivity].
  destruct (Client.time_of L _) as [d|]; [|reflexivity].
  cbn [andb].
  destruct (Z.ltb_spec d ref), (Z.leb_spec ref d),
           (Z.leb_spec d (ref + 30 * 24 * 60 * 60 * 1000)); try reflexivity; lia.
Qed.

Lemma filter_filter {A} (p q : A → bool) (l : list A) :
  List.filter p (List.filter q l) = List.filter (fun x => q x && p x) l.
Proof.
  induction l as [|x l IH]; [reflexivity|]. cbn [List.filter].
  destruct (q x); cbn [List.filter andb]; [destruct (p x)|]; by rewrite IH.
Qed.

Lemma expired_filter (l : list Client.expiry_item) :
  List.filter (fun item => Client.t_lt (Client.time_of L (Client.item_date item)) ref)
    (List.filter (fun item => truthy (Client.item_date item)) l)
  = List.filter (fun item => Spec.is_expired (Spec.item_status L ref item)) l.
Proof.
  rewrite filter_filter. apply List.filter_ext. intros item.
  by rewrite item_status_expired.
Qed.

Lemma expiring_filter (l : list Client.expiry_item) :
  List.filter (fun item =>
                 let date := Client.time_of L (Client.item_date item) in
                 Client.t_ge date ref && Client.t_le date (ref + Client.THIRTY_DAYS_MS))
    (List.filter (fun item => truthy (Client.item_date item)) l)
  = List.filter (fun item => Spec.is_expiring (Spec.item_status L ref item)) l.
Proof.
  rewrite filter_filter. apply List.filter_ext. intros item.
  by rewrite item_status_expiring.
Qed.

End Expiry.

(** C4 (as the code has it).  For every asset and reference time the
    result of [getExpiryWarning] is the aggregate, over the four service
    dates (domain, SSL, hosting, server), of the per-date status --
    expired when the date is before the reference time, expiring soon
    when it lies in the 30 days from the reference time, both ends
    included, none otherwise -- with expired taking priority; its count
    is the number of service dates in that status.  The warranty date is
    not among the dates it reads. *)
Theorem expiry_warning_status (L : Lib) (app : obj) (ref : Z) :
  Spec.status_of (Client.getExpiryWarning L ref ref app)
  = Spec.expirationStatus L Spec.service_fields app ref
  ∧ (∀ w, Client.getExpiryWarning L ref ref app = Some w →
       Client.count w
       = List.length
           (List.filter
              (fun f => Spec.status_eqb
                          (Spec.fieldStatus ref (Spec.field_date L app f))
                          (Spec.status_of (Some w)))
              Spec.service_fields)
       ∧ Client.count w = List.length (Client.items w))
  ∧ (∀ v, Client.getExpiryWarning L ref ref (<["warrantyExpiry" := v]> app)
          = Client.getExpiryWarning L ref ref app).
Proof.
  split; [|split].
  - unfold Client.getExpiryWarning. rewrite expired_filter, expiring_filter.
    unfold Spec.expirationStatus, Spec.service_fields, Spec.field_date.
    cbn [List.filter map]. unfold Spec.item_status. cbn [Client.item_date].
    generalize (Spec.fieldStatus ref
                  (if truthy (app !! "domainExpiry")
                   then Client.time_of L (app !! "domainExpiry") else None)).
    generalize (Spec.fieldStatus ref
                  (if truthy (app !! "sslExpiry")
                   then Client.time_of L (app !! "sslExpiry") else None)).
    generalize (Spec.fieldStatus ref
                  (if truthy (app !! "hostingExpiry")
                   then Client.time_of L (app !! "hostingExpiry") else None)).
    generalize (Spec.fieldStatus ref
                  (if truthy (app !! "serverExpiry")
                   then Client.time_of L (app !! "serverExpiry") else None)).
    intros [] [] [] []; reflexivity.
  - intros w. unfold Client.getExpiryWarning. rewrite expired_filter, expiring_filter.
    unfold Spec.service_fields, Spec.field_date.
    cbn [List.filter map]. unfold Spec.item_status. cbn [Client.item_date].
    generalize (Spec.fieldStatus ref
                  (if truthy (app !! "domainExpiry")
                   then Client.time_of L (app !! "domainExpiry") else None)).
    generalize (Spec.fieldStatus ref
                  (if truthy (app !! "sslExpiry")
                   then Client.time_of L (app !! "sslExpiry") else None)).
    generalize (Spec.fieldStatus ref
                  (if truthy (app !! "hostingExpiry")
                   then Client.time_of L (app !! "hostingExpiry") else None)).
    generalize (Spec.fieldStatus ref
                  (if truthy (app !! "serverExpiry")
                   then Client.time_of L (app !! "serverExpiry") else None)).
    intros [] [] [] []; cbn; intros [= <-]; split; reflexivity.
  - intros v. unfold Client.getExpiryWarning.
    rewrite !lookup_insert_ne by discriminate. reflexivity.
Qed.

(** C4 fails as stated: an asset whose only date is a warranty that ran
    out before the reference time is expired by the specification's
    five-field rule, while [getExpiryWarning] reports nothing. *)
Lemma warranty_not_tracked :
  Spec.expirationStatus Demo.lib Spec.tracked_fields
    {[ "warrantyExpiry" := JNum 1000 ]} 2000 = Spec.Expired
  ∧ Client.getExpiryWarning Demo.lib 2000 2000 {[ "warrantyExpiry" := JNum 1000 ]} = None
  ∧ Spec.status_of
      (Client.getExpiryWarning Demo.lib 2000 2000 {[ "warrantyExpiry" := JNum 1000 ]})
    ≠ Spec.expirationStatus Demo.lib Spec.tracked_fields
        {[ "warrantyExpiry" := JNum 1000 ]} 2000.
Proof. repeat split; vm_compute; try reflexivity; discriminate. Qed.

(** The dates of section 8 of the specification, at reference time 0:
    one millisecond in the past, 29 days ahead, 31 days ahead. *)
Lemma expiry_warning_status_witness :
  Spec.status_of (Client.getExpiryWarning Demo.lib 0 0 {[ "sslExpiry" := JNum (-1) ]})
  = Spec.Expired
  ∧ Spec.status_of
      (Client.getExpiryWarning Demo.lib 0 0 {[ "sslExpiry" := JNum (29 * 86400000) ]})
    = Spec.ExpiringSoon
  ∧ Spec.status_of
      (Client.getExpiryWarning Demo.lib 0 0 {[ "sslExpiry" := JNum (31 * 86400000) ]})
    = Spec.StatusNone.
Proof.
  split; [|split].
  - exact (proj1 (expiry_warning_status Demo.lib {[ "sslExpiry" := JNum (-1) ]} 0)).
  - exact (proj1 (expiry_warning_status Demo.lib
                    {[ "sslExpiry" := JNum (29 * 86400000) ]} 0)).
  - exact (proj1 (expiry_warning_status Demo.lib
                    {[ "sslExpiry" := JNum (31 * 86400000) ]} 0)).
Defined.

(** ** Issued tokens *)

Ltac case_admin :=
  match goal with
  | |- context [getUser ?st ?u ?db] =>
      destruct (getUser st u db) as [[?|]|?] eqn:?
  | |- context [Routes.not_super_admin ?u] =>
      destruct (Routes.not_super_admin u) eqn:?
  | |- context [getCompanyById ?st ?c ?db] =>
      destruct (getCompanyById st c db) as [[?|]|?] eqn:?
  | |- context [logActivity ?st ?d ?db] =>
      destruct (logActivity st d db) as [[[]|?] ?] eqn:?
  | |- context [truthy ?v] =>
      destruct (truthy v) eqn:?
  end; smp.

Section Reissue.

Context (L : Lib) (env : option string) {DB : Type} (st : Storage DB).

Lemma support_access_cookie (companyId : string) (req : request) (now_ms : Z) (db : DB) :
  status (fst (run (Routes.support_access L env st companyId req now_ms) db)) = 200 →
  ∃ admin,
    getUser st (prop (req_user req) "userId") db = Ok (Some admin)
    ∧ cookie (fst (run (Routes.support_access L env st companyId req now_ms) db))
      = Some (Auth.compact L (Auth.jwtSecret env)
                (Auth.issued_claims (Routes.support_payload L req companyId admin now_ms)
                                    now_ms)).
Proof.
  unfold Routes.support_access, Routes.access_denied. exec.
  destruct (Auth.isAuthenticated (req_user req)); smp; [|discriminate].
  do 3 (case_admin; try discriminate).
  rewrite generateToken_ok. smp.
  case_admin; try discriminate.
  intros _. eexists. split; reflexivity.
Qed.

Lemma exit_support_cookie (req : request) (now_ms : Z) (db : DB) :
  status (fst (run (Routes.exit_support L env st req now_ms) db)) = 200 →
  cookie (fst (run (Routes.exit_support L env st req now_ms) db))
  = if truthy (prop (req_user req) "supportMode")
    then Some (Auth.compact L (Auth.jwtSecret env)
                 (Auth.issued_claims (Routes.exit_payload req) now_ms))
    else None.
Proof.
  unfold Routes.exit_support, Routes.access_denied. exec.
  destruct (Auth.isAuthenticated (req_user req)); smp; [|discriminate].
  do 3 (case_admin; try discriminate); try reflexivity.
  case_admin; try discriminate.
  rewrite generateToken_ok. smp. reflexivity.
Qed.

End Reissue.

(** C10.  [generateToken] signs [userId] (the input's [userId], or its
    [id] when [userId] is absent or falsy), [email], [firstName],
    [lastName] and [role] as the input has them, [supportMode] only when
    the input has a truthy one, and nothing else -- an [iat] or [exp] of
    the input is dropped -- and the token it returns carries [iat] = the
    second of issue and [exp] = that second plus seven days.  The tokens
    set as cookie when support mode is entered or left are such tokens,
    issued from the decoded identity with [supportMode] set, respectively
    removed. *)
Theorem generateToken_fields (L : Lib) (env : option string) (payload : obj) (now_ms : Z) :
  Auth.finalPayload payload !! "userId" = js_or (payload !! "userId") (payload !! "id")
  ∧ (payload !! "userId" = None → Auth.finalPayload payload !! "userId" = payload !! "id")
  ∧ (∀ k, k ∈ ["email"; "firstName"; "lastName"; "role"] →
          Auth.finalPayload payload !! k = payload !! k)
  ∧ Auth.finalPayload payload !! "supportMode"
    = (if truthy (payload !! "supportMode") then payload !! "supportMode" else None)
  ∧ (is_Some (Auth.finalPayload payload !! "supportMode") →
     is_Some (payload !! "supportMode"))
  ∧ (∀ k, k ∉ Auth.token_fields → Auth.finalPayload payload !! k = None)
  ∧ Auth.finalPayload payload !! "iat" = None
  ∧ Auth.finalPayload payload !! "exp" = None
  ∧ Auth.generateToken L env payload now_ms
    = Ok (Auth.compact L (Auth.jwtSecret env) (Auth.issued_claims payload now_ms))
  ∧ Auth.issued_claims payload now_ms !! "iat" = Some (JNum (Auth.seconds now_ms))
  ∧ Auth.issued_claims payload now_ms !! "exp"
    = Some (JNum (Auth.seconds now_ms + 7 * 24 * 60 * 60))
  ∧ (∀ k, k ≠ "iat" → k ≠ "exp" →
          Auth.issued_claims payload now_ms !! k = Auth.finalPayload payload !! k)
  ∧ (∀ (DB : Type) (st : Storage DB) (companyId : string) (req : request) (db : DB),
       status (fst (run (Routes.support_access L env st companyId req now_ms) db)) = 200 →
       ∃ admin,
         cookie (fst (run (Routes.support_access L env st companyId req now_ms) db))
         = Some (Auth.compact L (Auth.jwtSecret env)
                   (Auth.issued_claims (Routes.support_payload L req companyId admin now_ms)
                                       now_ms)))
  ∧ (∀ (DB : Type) (st : Storage DB) (req : request) (db : DB),
       status (fst (run (Routes.exit_support L env st req now_ms) db)) = 200 →
       truthy (prop (req_user req) "supportMode") = true →
       cookie (fst (run (Routes.exit_support L env st req now_ms) db))
       = Some (Auth.compact L (Auth.jwtSecret env)
                 (Auth.issued_claims (Routes.exit_payload req) now_ms))
       ∧ Auth.issued_claims (Routes.exit_payload req) now_ms !! "supportMode" = None).
Proof.
  assert (Hreg : ∀ k, k = "iat" ∨ k = "exp" → k ∉ Auth.token_fields).
  { intros k [-> | ->]; unfold Auth.token_fields; rewrite !not_elem_of_cons;
      repeat split; try discriminate; apply not_elem_of_nil. }
  repeat match goal with |- _ ∧ _ => split end.
  - apply finalPayload_userId.
  - intros Hnone. rewrite finalPayload_userId. unfold js_or. by rewrite Hnone.
  - apply finalPayload_copied.
  - apply finalPayload_supportMode.
  - rewrite finalPayload_supportMode.
    destruct (truthy (payload !! "supportMode")); [done|]. by intros [? ?].
  - apply finalPayload_other.
  - apply finalPayload_other, Hreg. by left.
  - apply finalPayload_other, Hreg. by right.
  - apply generateToken_ok.
  - rewrite issued_claims_lookup. by eval_eqb.
  - rewrite issued_claims_lookup. by eval_eqb.
  - intros k Hiat Hexp. rewrite issued_claims_lookup. by rewrite !eqb_ne.
  - intros DB st companyId req db H200.
    destruct (support_access_cookie L env st companyId req now_ms db H200) as (admin & _ & Hc).
    eauto.
  - intros DB st req db H200 Hsm. split.
    + rewrite (exit_support_cookie L env st req now_ms db H200), Hsm. reflexivity.
    + rewrite issued_claims_lookup. eval_eqb. rewrite finalPayload_supportMode.
      unfold Routes.exit_payload. rewrite lookup_delete_eq. reflexivity.
Qed.

(** An identity decoded from an older token -- with its [iat] and [exp]
    -- entering support mode at second 1000: the reissued claims expire
    seven days after second 1000 and carry nothing but the six fields and
    the two time stamps. *)
Lemma generateToken_fields_witness :
  Auth.issued_claims
    (<["supportMode" := JObj {[ "companyId" := JStr "cB" ]}]>
       (spread (Demo.identity "u1" "ana@example.com" "Ana" "Paz"))) 1000000
  = mkobj [ ("userId", Some (JStr "u1")); ("email", Some (JStr "ana@example.com"));
            ("firstName", Some (JStr "Ana")); ("lastName", Some (JStr "Paz"));
            ("role", Some (JStr "manager_owner"));
            ("supportMode", Some (JObj {[ "companyId" := JStr "cB" ]}));
            ("iat", Some (JNum 1000)); ("exp", Some (JNum 605800)) ]
  ∧ Auth.issued_claims
      (<["supportMode" := JObj {[ "companyId" := JStr "cB" ]}]>
         (spread (Demo.identity "u1" "ana@example.com" "Ana" "Paz"))) 1000000 !! "exp"
    = Some (JNum (Auth.seconds 1000000 + 7 * 24 * 60 * 60)).
Proof.
  split.
  - vm_compute. reflexivity.
  - destruct (generateToken_fields Demo.lib None
                (<["supportMode" := JObj {[ "companyId" := JStr "cB" ]}]>
                   (spread (Demo.identity "u1" "ana@example.com" "Ana" "Paz")))
                1000000) as (_ & _ & _ & _ & _ & _ & _ & _ & _ & _ & Hexp & _).
    exact Hexp.
Defined.


(** * Further properties *)

(** ** Schemas *)

Lemma passthrough_string : passthrough z_string.
Proof. intros [[]|] o; cbn; congruence. Qed.

Lemma passthrough_string_min (n : nat) : passthrough (z_string_min n).
Proof. intros [[]|] o; cbn; try congruence. destruct (_ <=? _)%nat; congruence. Qed.

Lemma passthrough_email (is_email : string → bool) : passthrough (z_string_email is_email).
Proof. intros [[]|] o; cbn; try congruence. destruct (is_email _); congruence. Qed.

Lemma passthrough_enum (options : list string) : passthrough (z_enum options).
Proof. intros [[]|] o; cbn; try congruence. destruct (existsb _ _); congruence. Qed.

Lemma passthrough_number : passthrough z_number.
Proof. intros [[]|] o; cbn; congruence. Qed.

Lemma passthrough_boolean : passthrough z_boolean.
Proof. intros [[]|] o; cbn; congruence. Qed.

Lemma passthrough_date : passthrough z_date.
Proof. intros i o. unfold z_date. discriminate. Qed.

Lemma passthrough_array : passthrough z_array_of_strings.
Proof. intros [[]|] o; cbn; try congruence. destruct (forallb _ _); congruence. Qed.

Lemma passthrough_optional (v : validator) : passthrough v → passthrough (z_optional v).
Proof. intros Hv [x|] o; cbn; [apply Hv|congruence]. Qed.

Lemma passthrough_nullable (v : validator) : passthrough v → passthrough (z_nullable v).
Proof. intros Hv [[]|] o; cbn; try apply Hv. congruence. Qed.

Lemma passthrough_refine (v : validator) (check : option jsval → bool) :
  passthrough v → passthrough (z_refine v check).
Proof.
  intros Hv i o. unfold z_refine. destruct (v i) as [out|] eqn:E; [|congruence].
  destruct (check out); [|congruence]. intros [= <-]. by apply Hv.
Qed.

Create HintDb schema.

#[export] Hint Resolve passthrough_string passthrough_string_min passthrough_email
  passthrough_enum passthrough_number passthrough_boolean passthrough_date
  passthrough_array passthrough_optional passthrough_nullable passthrough_refine
  : schema.

Ltac all_passthrough :=
  repeat (constructor; [cbn [snd]; unfold opt_nullable; solve [auto 6 with schema]|]);
  constructor.

(** The output of an object schema whose validators pass values through
    is the input restricted to the declared keys. *)
Lemma parse_fields_restrict (fields : list (string * validator)) (m out : obj) :
  Forall (fun kv => passthrough (snd kv)) fields →
  parse_fields fields m = Some out →
  ∀ k, out !! k = if existsb (fun kv => String.eqb (fst kv) k) fields then m !! k else None.
Proof.
  intros Hp. revert out. induction Hp as [|[k0 v0] rest Hv _ IH]; intros out Hparse k.
  - cbn in Hparse. injection Hparse as <-. apply lookup_empty.
  - cbn [parse_fields] in Hparse.
    destruct (v0 (m !! k0)) as [o|] eqn:Ho; [|discriminate].
    destruct (parse_fields rest m) as [acc|] eqn:Hr; [|discriminate].
    injection Hparse as <-. rewrite lookup_js_set. cbn [existsb fst].
    destruct (String.eqb_spec k0 k) as [->|Hne]; cbn [orb].
    + apply (Hv _ _ Ho).
    + by apply IH.
Qed.

(** Acceptance only looks at the declared keys. *)
Lemma parse_fields_ext (fields : list (string * validator)) (m m' : obj) :
  (∀ k, existsb (fun kv => String.eqb (fst kv) k) fields = true → m !! k = m' !! k) →
  parse_fields fields m = parse_fields fields m'.
Proof.
  induction fields as [|[k0 v0] rest IH]; intros Hagree; [reflexivity|].
  cbn [parse_fields]. rewrite (Hagree k0).
  2:{ cbn [existsb fst]. by rewrite String.eqb_refl. }
  rewrite IH; [reflexivity|].
  intros k Hk. apply Hagree. cbn [existsb]. rewrite Hk. apply orb_true_r.
Qed.

Lemma parse_fields_idempotent (fields : list (string * validator)) (m out : obj) :
  Forall (fun kv => passthrough (snd kv)) fields →
  parse_fields fields m = Some out →
  parse_fields fields out = Some out.
Proof.
  intros Hp Hparse. rewrite <- Hparse. apply parse_fields_ext.
  intros k Hk. rewrite (parse_fields_restrict fields m out Hp Hparse k), Hk. reflexivity.
Qed.

Lemma insertAssetSchema_fields : insertAssetSchema = z_object asset_fields.
Proof. reflexivity. Qed.

Lemma asset_fields_passthrough : Forall (fun kv => passthrough (snd kv)) asset_fields.
Proof. unfold asset_fields. all_passthrough. Qed.

Lemma partial_passthrough (fields : list (string * validator)) :
  Forall (fun kv => passthrough (snd kv)) fields →
  Forall (fun kv => passthrough (snd kv)) (z_partial fields).
Proof.
  intros H. unfold z_partial. apply Forall_fmap. 
  eapply Forall_impl; [exact H|]. intros [k v] Hv. cbn. by apply passthrough_optional.
Qed.

Lemma existsb_keys (fields : list (string * validator)) (k : string) :
  existsb (fun kv => String.eqb (fst kv) k) fields = existsb (String.eqb k) (keys_of fields).
Proof.
  unfold keys_of. induction fields as [|[k0 v0] rest IH]; [reflexivity|].
  cbn [existsb map fst]. by rewrite IH, String.eqb_sym.
Qed.

Lemma parse_fields_reject (fields : list (string * validator)) (m : obj)
    (k : string) (v : validator) :
  (k, v) ∈ fields → v (m !! k) = None → parse_fields fields m = None.
Proof.
  induction fields as [|[k0 v0] rest IH]; intros Hin Hv.
  - by apply elem_of_nil in Hin.
  - cbn [parse_fields]. apply elem_of_cons in Hin as [[= <- <-]|Hin].
    + by rewrite Hv.
    + rewrite (IH Hin Hv). by destruct (v0 (m !! k0)).
Qed.

(** X1.  [insertAssetSchema] only selects: when it accepts a body, the
    output is the body restricted to the 26 declared keys, value for
    value, and the output is itself accepted unchanged; the same holds
    for its [partial()] form used by [PUT /api/assets/:id]. *)
Theorem asset_schema_selects (input : option jsval) (out : obj) :
  insertAssetSchema input = Some out ∨ z_object (z_partial asset_fields) input = Some out →
  ∃ m, input = Some (JObj m)
       ∧ (∀ k, out !! k
               = if existsb (String.eqb k) (keys_of asset_fields) then m !! k else None)
       ∧ (insertAssetSchema input = Some out →
          insertAssetSchema (Some (JObj out)) = Some out)
       ∧ (z_object (z_partial asset_fields) input = Some out →
          z_object (z_partial asset_fields) (Some (JObj out)) = Some out).
Proof.
  intros H.
  assert (∃ m, input = Some (JObj m)) as [m ->].
  { destruct H as [H|H]; destruct input as [[| | | | |m]|]; try discriminate H; eauto. }
  exists m. split; [reflexivity|]. cbn [z_object] in *.
  change (insertAssetSchema (Some (JObj m))) with (parse_fields asset_fields m) in *.
  change (insertAssetSchema (Some (JObj out))) with (parse_fields asset_fields out).
  split; [|split].
  - intros k. destruct H as [H|H].
    + rewrite (parse_fields_restrict _ _ _ asset_fields_passthrough H k).
      by rewrite existsb_keys.
    + rewrite (parse_fields_restrict _ _ _ (partial_passthrough _ asset_fields_passthrough) H k).
      rewrite existsb_keys. reflexivity.
  - apply parse_fields_idempotent, asset_fields_passthrough.
  - apply parse_fields_idempotent, partial_passthrough, asset_fields_passthrough.
Qed.

Lemma asset_schema_selects_witness :
  ∃ out, insertAssetSchema Demo.laptop_body = Some out
         ∧ out !! "name" = Some (JStr "Laptop")
         ∧ insertAssetSchema (Some (JObj out)) = Some out.
Proof.
  destruct (insertAssetSchema Demo.laptop_body) as [out|] eqn:Hs;
    [|vm_compute in Hs; discriminate Hs].
  destruct (asset_schema_selects Demo.laptop_body out (or_introl Hs))
    as (m & Hm & Hk & Hid & _).
  exists out. split; [reflexivity|]. split; [|exact (Hid Hs)].
  rewrite Hk. injection Hm as <-. vm_compute. reflexivity.
Defined.

(** [insertContractSchema] requires [startDate] and [endDate] to be
    [Date] objects, which no JSON value is: it accepts no request body. *)
Lemma contract_schema_rejects_json (input : option jsval) :
  insertContractSchema input = None.
Proof.
  unfold insertContractSchema, z_object. destruct input as [[| | | | |m]|]; try reflexivity.
  apply (parse_fields_reject contract_fields m "startDate" z_date); [|reflexivity].
  unfold contract_fields. rewrite !elem_of_cons. auto 10.
Qed.

(** ** Tokens and the authentication middleware *)

Lemma compact_nonempty (L : Lib) (secret : string) (claims : obj) :
  String.eqb (Auth.compact L secret claims) "" = false.
Proof. unfold Auth.compact. by destruct (jwt_signing_input L claims). Qed.

Lemma verify_issued (L : Lib) (env : option string) (payload : obj) (now_ms later_ms : Z) :
  jwt_decode L (Auth.compact L (Auth.jwtSecret env) (Auth.issued_claims payload now_ms))
  = Some (jwt_signing_input L (Auth.issued_claims payload now_ms),
          JObj (Auth.issued_claims payload now_ms),
          hmac_sha256 L (Auth.jwtSecret env)
            (jwt_signing_input L (Auth.issued_claims payload now_ms))) →
  Auth.verifyToken L env
    (Auth.compact L (Auth.jwtSecret env) (Auth.issued_claims payload now_ms)) later_ms
  = if Auth.seconds later_ms <? Auth.seconds now_ms + Auth.SEVEN_DAYS
    then Some (JObj (Auth.issued_claims payload now_ms)) else None.
Proof.
  intros Hcodec. unfold Auth.verifyToken, Auth.jwt_verify. rewrite Hcodec.
  rewrite String.eqb_refl. cbn [negb].
  unfold Auth.check_nbf, Auth.check_exp. cbn [prop].
  rewrite !issued_claims_lookup. eval_eqb.
  rewrite finalPayload_other
    by (unfold Auth.token_fields; rewrite !not_elem_of_cons;
        repeat split; try discriminate; apply not_elem_of_nil).
  destruct (Z.leb_spec (Auth.seconds now_ms + Auth.SEVEN_DAYS) (Auth.seconds later_ms)),
           (Z.ltb_spec (Auth.seconds later_ms) (Auth.seconds now_ms + Auth.SEVEN_DAYS));
    try reflexivity; lia.
Qed.

(** X2.  A token issued at one instant is accepted at another exactly
    while the second of verification is below the second of issue plus
    seven days: the last accepted second is [iat + 604799], and at
    [iat + 604800] the token is refused.  Within the window the decoded
    claims are the issued ones. *)
Theorem token_validity_window (L : Lib) (env : option string) (payload : obj)
    (now_ms later_ms : Z) :
  jwt_decode L (Auth.compact L (Auth.jwtSecret env) (Auth.issued_claims payload now_ms))
  = Some (jwt_signing_input L (Auth.issued_claims payload now_ms),
          JObj (Auth.issued_claims payload now_ms),
          hmac_sha256 L (Auth.jwtSecret env)
            (jwt_signing_input L (Auth.issued_claims payload now_ms))) →
  ∃ token,
    Auth.generateToken L env payload now_ms = Ok token
    ∧ (Auth.seconds later_ms < Auth.seconds now_ms + 604800 →
       Auth.verifyToken L env token later_ms = Some (JObj (Auth.issued_claims payload now_ms)))
    ∧ (Auth.seconds now_ms + 604800 ≤ Auth.seconds later_ms →
       Auth.verifyToken L env token later_ms = None)
    ∧ (is_Some (Auth.verifyToken L env token later_ms)
       ↔ later_ms < (now_ms / 1000 + 604800) * 1000).
Proof.
  intros Hcodec. eexists. split; [apply generateToken_ok|].
  rewrite (verify_issued L env payload now_ms later_ms Hcodec).
  change Auth.SEVEN_DAYS with 604800. unfold Auth.seconds.
  pose proof (Z.div_mod later_ms 1000 ltac:(lia)) as Hdm.
  pose proof (Z.mod_pos_bound later_ms 1000 ltac:(lia)) as Hmod.
  destruct (Z.ltb_spec (later_ms / 1000) (now_ms / 1000 + 604800)) as [Hlt|Hge].
  - split; [done|]. split; [lia|]. split; [lia|by eauto].
  - split; [lia|]. split; [done|]. split; [by intros [? ?]|lia].
Qed.

Lemma token_validity_window_witness :
  Auth.verifyToken Demo.lib None Demo.admin_token 604799999 = Some (JObj Demo.admin_claims)
  ∧ Auth.verifyToken Demo.lib None Demo.admin_token 604800000 = None.
Proof.
  split.
  - destruct (token_validity_window Demo.lib None Demo.admin_payload 0 604799999 eq_refl)
      as (token & Hgen & Hin & _).
    vm_compute in Hgen. injection Hgen as <-. apply Hin. vm_compute. reflexivity.
  - destruct (token_validity_window Demo.lib None Demo.admin_payload 0 604800000 eq_refl)
      as (token & Hgen & _ & Hout & _).
    vm_compute in Hgen. injection Hgen as <-. apply Hout. vm_compute. discriminate.
Defined.

Lemma attachUser_verifyToken (L : Lib) (env : option string) (cookie : option string)
    (now_ms : Z) :
  Auth.attachUser L env cookie now_ms
  = match cookie with
    | Some token => if String.eqb token "" then None else Auth.verifyToken L env token now_ms
    | None => None
    end.
Proof. destruct cookie; reflexivity. Qed.

(** X3.  The JWT middleware followed by [isAuthenticated]: a request is
    let through only if its cookie holds a token that verifies (valid
    signature, inside its validity window) and whose claims have a
    truthy [userId]; a token issued by [generateToken], presented inside
    its window, is let through exactly when the payload it was issued
    for had a truthy [userId] or, failing that, a truthy [id]. *)
Theorem middleware_guard (L : Lib) (env : option string) (payload : obj)
    (now_ms later_ms : Z) :
  jwt_decode L (Auth.compact L (Auth.jwtSecret env) (Auth.issued_claims payload now_ms))
  = Some (jwt_signing_input L (Auth.issued_claims payload now_ms),
          JObj (Auth.issued_claims payload now_ms),
          hmac_sha256 L (Auth.jwtSecret env)
            (jwt_signing_input L (Auth.issued_claims payload now_ms))) →
  Auth.seconds later_ms < Auth.seconds now_ms + Auth.SEVEN_DAYS →
  Auth.isAuthenticated
    (Auth.attachUser L env
       (Some (Auth.compact L (Auth.jwtSecret env) (Auth.issued_claims payload now_ms)))
       later_ms)
  = truthy (js_or (payload !! "userId") (payload !! "id"))
  ∧ prop (Auth.attachUser L env
            (Some (Auth.compact L (Auth.jwtSecret env) (Auth.issued_claims payload now_ms)))
            later_ms) "userId"
    = js_or (payload !! "userId") (payload !! "id")
  ∧ (∀ cookie,
       Auth.isAuthenticated (Auth.attachUser L env cookie later_ms) = true →
       ∃ token claims,
         cookie = Some token
         ∧ Auth.accepts L (Auth.jwtSecret env) token later_ms claims
         ∧ truthy (prop (Some claims) "userId") = true)
  ∧ (∀ cookie,
       match cookie with
       | Some token => Auth.verifyToken L env token later_ms = None
       | None => True
       end →
       Auth.isAuthenticated (Auth.attachUser L env cookie later_ms) = false).
Proof.
  intros Hcodec Hwin.
  assert (Auth.attachUser L env
            (Some (Auth.compact L (Auth.jwtSecret env) (Auth.issued_claims payload now_ms)))
            later_ms = Some (JObj (Auth.issued_claims payload now_ms))) as Hattach.
  { rewrite attachUser_verifyToken, compact_nonempty, (verify_issued _ _ _ _ _ Hcodec).
    destruct (Z.ltb_spec (Auth.seconds later_ms) (Auth.seconds now_ms + Auth.SEVEN_DAYS));
      [reflexivity|lia]. }
  rewrite Hattach. unfold Auth.isAuthenticated. cbn [truthy prop andb].
  rewrite issued_claims_lookup. eval_eqb. rewrite finalPayload_userId.
  split; [reflexivity|]. split; [reflexivity|]. split.
  - intros cookie. rewrite attachUser_verifyToken.
    destruct cookie as [token|]; [|discriminate].
    destruct (String.eqb token ""); [discriminate|].
    destruct (Auth.verifyToken L env token later_ms) as [claims|] eqn:Hv; [|discriminate].
    intros Hauth. apply andb_true_iff in Hauth as [_ Hid].
    exists token, claims. split; [reflexivity|]. split; [|exact Hid].
    by apply verifyToken_accepts.
  - intros cookie Hbad. rewrite attachUser_verifyToken.
    destruct cookie as [token|]; [|reflexivity].
    rewrite Hbad. by destruct (String.eqb token "").
Qed.

Lemma middleware_guard_witness :
  Auth.isAuthenticated (Auth.attachUser Demo.lib None (Some Demo.admin_token) 1000) = true
  ∧ Auth.isAuthenticated (Auth.attachUser Demo.lib None (Some Demo.forged_token) 1000)
    = false.
Proof.
  destruct (middleware_guard Demo.lib None Demo.admin_payload 0 1000 eq_refl eq_refl)
    as (Hok & _ & _ & Hbad).
  split.
  - exact Hok.
  - apply (Hbad (Some Demo.forged_token)). vm_compute. reflexivity.
Defined.

(** ** Passwords *)

(** X4.  [passwordUtils.verify] accepts a password exactly when the stored
    value is the string [hash(password)]: a digest produced by [hash] is
    accepted for its own password, and a missing, null or non-string
    stored value is never accepted. *)
Theorem password_verify_hash (L : Lib) (password : string) (stored : option jsval) :
  (Auth.verify L password stored = true ↔ stored = Some (JStr (Auth.hash L password)))
  ∧ Auth.verify L password (Some (JStr (Auth.hash L password))) = true
  ∧ (∀ other, Auth.verify L other (Some (JStr (Auth.hash L password))) = true
              ↔ sha256_hex L other = sha256_hex L password).
Proof.
  unfold Auth.verify, Auth.hash. split; [|split].
  - split.
    + destruct stored as [[]|]; cbn; try discriminate.
      intros H. apply String.eqb_eq in H. by subst.
    + intros ->. cbn. apply String.eqb_refl.
  - cbn. apply String.eqb_refl.
  - intros other. cbn. apply String.eqb_eq.
Qed.

(** ** Guarded routes *)

Lemma guard_refuses {DB : Type} (req : request) (next : M DB reply) (db : DB) :
  Auth.isAuthenticated (req_user req) = false →
  run (Routes.authenticated req next) db = (unauthorized_response, mkWorld db None []).
Proof. intros H. unfold Routes.authenticated. rewrite H. reflexivity. Qed.

(** X5.  Every route behind [isAuthenticated] answers a request without a
    verified identity with 401 "Unauthorized": no storage operation is
    performed, the database is unchanged and no cookie is set. *)
Theorem unauthenticated_requests_refused (L : Lib) (env : option string) {DB : Type}
    (st : Storage DB) (sx : StorageMore DB) (req : request) (db : DB)
    (id companyId : string) (now_ms : Z) :
  Auth.isAuthenticated (req_user req) = false →
  Forall (fun h => run h db = (unauthorized_response, mkWorld db None []))
    [ Routes.get_assets st companyId req;
      Routes.post_assets st req;
      Routes.support_access L env st companyId req now_ms;
      Routes.exit_support L env st req now_ms;
      Api.auth_user st req;
      Api.me req;
      Api.post_companies L st sx req;
      Api.put_asset st sx id req;
      Api.delete_asset st sx id companyId req;
      Api.post_contracts st sx req;
      Api.post_maintenance L st sx req;
      Api.admin_companies st sx req;
      Api.admin_plan st sx companyId req ].
Proof.
  intros H. repeat (constructor; [by apply guard_refuses|]). constructor.
Qed.

Lemma unauthenticated_requests_refused_witness :
  run (Routes.post_assets MemStore.storage (mkRequest None Demo.laptop_body)) Demo.db0
  = (unauthorized_response, mkWorld Demo.db0 None []).
Proof.
  pose proof (unauthenticated_requests_refused Demo.lib None MemStore.storage
                MemMore.storage
                (mkRequest None Demo.laptop_body) Demo.db0 "a0" "cB" 0 eq_refl) as H.
  apply Forall_cons in H as [_ H]. apply Forall_cons in H as [H _]. exact H.
Defined.

(** ** Login and registration *)

Section Sessions.

Context (L : Lib) (env : option string) {DB : Type} (st : Storage DB).

Lemma identity_of_lookup (idKey : string) (user : option jsval) (k : string) :
  Routes.identity_of idKey user !! k
  = if String.eqb "role" k then prop user "role"
    else if String.eqb "lastName" k then prop user "lastName"
    else if String.eqb "firstName" k then prop user "firstName"
    else if String.eqb "email" k then prop user "email"
    else if String.eqb idKey k then prop user "id"
    else None.
Proof. unfold Routes.identity_of. rewrite lookup_mkobj. cbn [lit_lookup]. 
  repeat match goal with |- context [String.eqb ?a k] => destruct (String.eqb a k) end;
  reflexivity.
Qed.

(** X6.  A login with the right password: the handler reads the user
    once, answers 200 with the five identity fields of the user -- the
    stored digest is not among them -- and sets as cookie a token whose
    claims carry the user's id as [userId] and the user's stored role;
    the database is not written. *)
Theorem login_success (db : DB) (req : request) (now_ms : Z)
    (email password : string) (u : obj) :
  credentials (zod_email L) (req_body req) = Some (email, password) →
  getUserByEmail st email db = Ok (Some u) →
  Auth.verify L password (u !! "passwordHash") = true →
  fst (run (Routes.login L env st req now_ms) db)
  = mkResponse 200
      (JObj (mkobj [ ("message", Some (JStr "Login exitoso"));
                     ("user", Some (JObj (Routes.identity_of "id" (Some (JObj u))))) ]))
      (Some (Auth.compact L (Auth.jwtSecret env)
               (Auth.issued_claims (Routes.identity_of "id" (Some (JObj u))) now_ms)))
  ∧ snd (run (Routes.login L env st req now_ms) db)
    = mkWorld db
        (Some (Auth.compact L (Auth.jwtSecret env)
                 (Auth.issued_claims (Routes.identity_of "id" (Some (JObj u))) now_ms)))
        [CGetUserByEmail email]
  ∧ Routes.identity_of "id" (Some (JObj u)) !! "passwordHash" = None
  ∧ (∀ k, is_Some (Routes.identity_of "id" (Some (JObj u)) !! k) →
          k ∈ ["id"; "email"; "firstName"; "lastName"; "role"])
  ∧ Auth.issued_claims (Routes.identity_of "id" (Some (JObj u))) now_ms !! "userId"
    = u !! "id"
  ∧ Auth.issued_claims (Routes.identity_of "id" (Some (JObj u))) now_ms !! "role"
    = u !! "role".
Proof.
  intros (c & Hs & He & Hp)%(credentials_parse L) Hu Hv.
  unfold Routes.login. exec. rewrite Hs, He, Hp. unfold as_string. smp.
  rewrite Hu. smp. rewrite Hv. cbn [negb]. rewrite generateToken_ok. smp.
  split; [reflexivity|]. split; [reflexivity|]. split; [|split; [|split]].
  - rewrite identity_of_lookup. by eval_eqb.
  - intros k. rewrite identity_of_lookup, !elem_of_cons.
    destruct (String.eqb_spec "role" k); [auto 10|].
    destruct (String.eqb_spec "lastName" k); [auto 10|].
    destruct (String.eqb_spec "firstName" k); [auto 10|].
    destruct (String.eqb_spec "email" k); [auto 10|].
    destruct (String.eqb_spec "id" k); [auto 10|].
    by intros [? ?].
  - rewrite issued_claims_lookup. eval_eqb. rewrite finalPayload_userId.
    rewrite !identity_of_lookup. eval_eqb. reflexivity.
  - rewrite issued_claims_lookup. eval_eqb.
    rewrite finalPayload_copied by (rewrite !elem_of_cons; auto 10).
    rewrite identity_of_lookup. by eval_eqb.
Qed.

End Sessions.

Section SessionOutcomes.

Context (L : Lib) (env : option string) {DB : Type} (st : Storage DB).

(** X7.  Whatever the request and the storage, [POST /api/login] answers
    200, 401 or 500; it sets the cookie exactly when it answers 200; it
    never writes to the database and reads it at most once. *)
Theorem login_outcomes (db : DB) (req : request) (now_ms : Z) :
  (status (fst (run (Routes.login L env st req now_ms) db)) = 200
   ∨ status (fst (run (Routes.login L env st req now_ms) db)) = 401
   ∨ status (fst (run (Routes.login L env st req now_ms) db)) = 500)
  ∧ (is_Some (cookie (fst (run (Routes.login L env st req now_ms) db)))
     ↔ status (fst (run (Routes.login L env st req now_ms) db)) = 200)
  ∧ w_db (snd (run (Routes.login L env st req now_ms) db)) = db
  ∧ (List.length (w_calls (snd (run (Routes.login L env st req now_ms) db))) ≤ 1)%nat.
Proof.
  unfold Routes.login. exec.
  destruct (loginSchema (zod_email L) (req_body req)) as [c|]; smp.
  2:{ repeat split; auto; try discriminate. by intros [? ?]. }
  destruct (as_string (c !! "email")) as [e|?]; smp.
  2:{ repeat split; auto; try discriminate. by intros [? ?]. }
  destruct (as_string (c !! "password")) as [p|?]; smp.
  2:{ repeat split; auto; try discriminate. by intros [? ?]. }
  destruct (getUserByEmail st e db) as [[u|]|?]; smp.
  2,3: repeat split; auto; try discriminate; by intros [? ?].
  destruct (Auth.verify L p (u !! "passwordHash")); cbn [negb]; smp.
  2:{ repeat split; auto; try discriminate. by intros [? ?]. }
  rewrite generateToken_ok. smp. repeat split; eauto.
Qed.

Lemma registration_password (is_email : string → bool) (input : option jsval) (data : obj) :
  companyRegistrationSchema is_email input = Some data →
  ∃ pw, data !! "password" = Some (JStr pw)
        ∧ (6 ≤ String.length pw)%nat
        ∧ data !! "confirmPassword" = Some (JStr pw).
Proof.
  unfold companyRegistrationSchema, z_object.
  destruct input as [[| | | | |m]|]; try discriminate.
  destruct (parse_fields (registration_fields is_email) m) as [d|] eqn:Hp; [|discriminate].
  destruct (js_strict_eq _ _) eqn:Heq; [|discriminate]. intros [= <-].
  pose proof (parse_fields_lookup _ _ _ Hp (registration_keys_nodup is_email)) as Hl.
  assert (Hpw := Hl "password" (z_string_min 6)).
  unfold registration_fields in Hpw. rewrite !elem_of_cons in Hpw.
  specialize (Hpw ltac:(auto 15)). unfold z_string_min in Hpw.
  destruct (m !! "password") as [[]|]; try discriminate.
  destruct (Nat.leb_spec 6 (String.length s)); [|discriminate].
  injection Hpw as Hpw. exists s. rewrite <- Hpw in *. split; [reflexivity|]. split; [done|].
  cbn in Heq. destruct (d !! "confirmPassword") as [[]|]; try discriminate.
  apply String.eqb_eq in Heq. by subst.
Qed.

(** X8.  Once a registration body has passed the schema, the handler
    makes one storage call, [registerCompany], with the validated fields
    plus [passwordHash] = SHA-256 of the password (the plain password and
    its confirmation are still among the fields).  What the storage
    answers decides the response: the duplicate-e-mail error is passed on
    as a 400 with its own message, a unique-constraint violation (code
    23505) becomes a generic 400, any other failure a 500, each without
    cookie; a result with a user is answered 200 with the company, the
    five identity fields of the user, and a cookie with the user's token. *)
Theorem register_outcomes (db : DB) (req : request) (now_ms : Z) (data : obj) :
  companyRegistrationSchema (zod_email L) (req_body req) = Some data →
  ∃ pw stored,
    data !! "password" = Some (JStr pw)
    ∧ stored = <["passwordHash" := JStr (sha256_hex L pw)]> data
    ∧ stored !! "password" = Some (JStr pw)
    ∧ w_calls (snd (run (Routes.register L env st req now_ms) db))
      = [CRegisterCompany stored (fst (registerCompany st stored db))]
    ∧ w_db (snd (run (Routes.register L env st req now_ms) db))
      = snd (registerCompany st stored db)
    ∧ match fst (registerCompany st stored db) with
      | Ok result =>
          match result !! "user" with
          | None | Some JNull =>
              fst (run (Routes.register L env st req now_ms) db)
              = mkResponse 500 (message "Error al registrar empresa") None
          | Some user =>
              fst (run (Routes.register L env st req now_ms) db)
              = mkResponse 200
                  (JObj (mkobj [ ("message", Some (JStr "Empresa registrada exitosamente"));
                                 ("company", result !! "company");
                                 ("user", Some (JObj (Routes.identity_of "id" (Some user)))) ]))
                  (Some (Auth.compact L (Auth.jwtSecret env)
                           (Auth.issued_claims (Routes.identity_of "id" (Some user)) now_ms)))
          end
      | Throw (JsError msg code) =>
          fst (run (Routes.register L env st req now_ms) db)
          = if String.eqb msg "El email ya está registrado"
            then mkResponse 400 (message msg) None
            else if bool_decide (code = Some "23505")
            then mkResponse 400
                   (message "Ya existe una empresa con este RUC/Cédula o email") None
            else mkResponse 500 (message "Error al registrar empresa") None
      | Throw ZodError =>
          fst (run (Routes.register L env st req now_ms) db)
          = mkResponse 500 (message "Error al registrar empresa") None
      end.
Proof.
  intros Hs. destruct (registration_password _ _ _ Hs) as (pw & Hpw & _ & _).
  exists pw, (<["passwordHash" := JStr (sha256_hex L pw)]> data).
  split; [exact Hpw|]. split; [reflexivity|].
  split; [by rewrite lookup_insert_ne|].
  unfold Routes.register. exec. rewrite Hs, Hpw. unfold as_string, Auth.hash. smp.
  cbn [js_set].
  destruct (registerCompany st (<["passwordHash":=JStr (sha256_hex L pw)]> data) db)
    as [[result|[|msg code]] db1]; smp.
  - unfold member. destruct (result !! "user") as [[]|]; smp;
      rewrite ?generateToken_ok; smp; repeat split; reflexivity.
  - repeat split; reflexivity.
  - destruct (String.eqb msg "El email ya está registrado"); smp; [repeat split; reflexivity|].
    destruct code as [c|]; smp.
    + destruct (String.eqb_spec c "23505") as [->|Hne]; smp.
      * rewrite bool_decide_eq_true_2 by reflexivity. repeat split; reflexivity.
      * rewrite bool_decide_eq_false_2 by congruence. repeat split; reflexivity.
    + rewrite bool_decide_eq_false_2 by discriminate. repeat split; reflexivity.
Qed.

End SessionOutcomes.

(** X9.  The registration schema's password rule: an accepted body has a
    password of at least six code units and a confirmation equal to it;
    a body whose confirmation differs from its password, or whose
    password is shorter than six, is rejected -- by the form with its
    invalid-form notice and by the server before any storage call. *)
Theorem registration_password_rule (L : Lib) (fields : obj) :
  (∀ data, companyRegistrationSchema (zod_email L) (Some (JObj fields)) = Some data →
           ∃ pw, fields !! "password" = Some (JStr pw)
                 ∧ (6 ≤ String.length pw)%nat
                 ∧ fields !! "confirmPassword" = Some (JStr pw))
  ∧ ((fields !! "password" ≠ fields !! "confirmPassword"
      ∨ ∃ pw, fields !! "password" = Some (JStr pw) ∧ (String.length pw < 6)%nat) →
     companyRegistrationSchema (zod_email L) (Some (JObj fields)) = None
     ∧ Client.handleSubmit L fields = Client.onValidationFailure
     ∧ ∀ (env : option string) (DB : Type) (st : Storage DB) (db : DB) (now_ms : Z),
         snd (run (Routes.register L env st (mkRequest None (Some (JObj fields))) now_ms) db)
         = mkWorld db None []).
Proof.
  assert (Hacc : ∀ data,
            companyRegistrationSchema (zod_email L) (Some (JObj fields)) = Some data →
            ∃ pw, fields !! "password" = Some (JStr pw)
                  ∧ (6 ≤ String.length pw)%nat
                  ∧ fields !! "confirmPassword" = Some (JStr pw)).
  { intros data Hs. destruct (registration_password _ _ _ Hs) as (pw & Hpw & Hlen & Hc).
    pose proof Hs as Hs'. unfold companyRegistrationSchema, z_object in Hs'.
    destruct (parse_fields (registration_fields (zod_email L)) fields) as [d|] eqn:Hp;
      [|discriminate].
    destruct (js_strict_eq _ _); [|discriminate]. injection Hs' as ->.
    pose proof (parse_fields_lookup _ _ _ Hp (registration_keys_nodup (zod_email L))) as Hl.
    assert (H1 := Hl "password" (z_string_min 6)).
    assert (H2 := Hl "confirmPassword" z_string).
    unfold registration_fields in H1, H2. rewrite !elem_of_cons in H1, H2.
    specialize (H1 ltac:(auto 15)). specialize (H2 ltac:(auto 15)).
    apply passthrough_string_min in H1. apply passthrough_string in H2.
    exists pw. rewrite <- H1, <- H2. done. }
  split; [exact Hacc|].
  intros Hbad.
  assert (companyRegistrationSchema (zod_email L) (Some (JObj fields)) = None) as Hnone.
  { destruct (companyRegistrationSchema (zod_email L) (Some (JObj fields))) as [data|] eqn:Hs;
      [|reflexivity].
    destruct (Hacc data eq_refl) as (pw & Hpw & Hlen & Hc).
    destruct Hbad as [Hne|(pw' & Hpw' & Hshort)]; [congruence|].
    rewrite Hpw in Hpw'. injection Hpw' as <-. lia. }
  split; [exact Hnone|]. split.
  - unfold Client.handleSubmit. by rewrite Hnone.
  - intros env DB st db now_ms. unfold Routes.register. exec. cbn [req_body].
    rewrite Hnone. reflexivity.
Qed.

Lemma registration_password_rule_witness :
  companyRegistrationSchema (zod_email Demo.lib)
    (Some (JObj (<["confirmPassword" := JStr "secret2"]> Demo.pyme_without_ruc))) = None.
Proof.
  apply (proj2 (registration_password_rule Demo.lib
                  (<["confirmPassword" := JStr "secret2"]> Demo.pyme_without_ruc))).
  left. vm_compute. discriminate.
Defined.

Lemma register_outcomes_witness :
  status (fst (run (Routes.register Demo.lib None MemStore.storage
                      (mkRequest None (Some (JObj Demo.pyme_without_ruc))) 0) Demo.db0))
  = 200
  ∧ fst (run (Routes.register Demo.lib None MemStore.storage
                (mkRequest None
                   (Some (JObj (<["email" := JStr "ana@example.com"]> Demo.pyme_without_ruc))))
                0) Demo.db0)
    = mkResponse 400 (message "El email ya está registrado") None.
Proof.
  assert (Hs1 : companyRegistrationSchema (zod_email Demo.lib)
                  (req_body (mkRequest None (Some (JObj Demo.pyme_without_ruc))))
                = Some Demo.pyme_without_ruc) by (vm_compute; reflexivity).
  assert (Hs2 : companyRegistrationSchema (zod_email Demo.lib)
                  (req_body
                     (mkRequest None
                        (Some (JObj (<["email" := JStr "ana@example.com"]>
                                       Demo.pyme_without_ruc)))))
                = Some (<["email" := JStr "ana@example.com"]> Demo.pyme_without_ruc))
    by (vm_compute; reflexivity).
  split.
  - destruct (register_outcomes Demo.lib None MemStore.storage Demo.db0 _ 0 _ Hs1)
      as (pw & stored & Hpw & -> & _ & _ & _ & Hm).
    vm_compute in Hpw. injection Hpw as <-.
    vm_compute in Hm. vm_compute. exact (f_equal status Hm).
  - destruct (register_outcomes Demo.lib None MemStore.storage Demo.db0 _ 0 _ Hs2)
      as (pw & stored & Hpw & -> & _ & _ & _ & Hm).
    vm_compute in Hpw. injection Hpw as <-.
    vm_compute in Hm. vm_compute. exact Hm.
Defined.

Lemma login_success_witness :
  status (fst (run (Routes.login Demo.lib None MemStore.storage
                      (mkRequest None (Demo.login_body "ana@example.com" "secret-ana")) 0)
                 Demo.db0)) = 200
  ∧ cookie (fst (run (Routes.login Demo.lib None MemStore.storage
                        (mkRequest None (Demo.login_body "ana@example.com" "secret-ana")) 0)
                   Demo.db0)) = Some Demo.admin_token.
Proof.
  destruct (login_success Demo.lib None MemStore.storage Demo.db0
              (mkRequest None (Demo.login_body "ana@example.com" "secret-ana")) 0
              "ana@example.com" "secret-ana" Demo.ana eq_refl eq_refl eq_refl)
    as (Hresp & _).
  split.
  - exact (f_equal status Hresp).
  - exact (f_equal cookie Hresp).
Defined.

(** ** Administration and support mode *)

Section Admin.

Context (L : Lib) (env : option string) {DB : Type} (st : Storage DB) (sx : StorageMore DB).

(** X10.  The admin routes decide on the role stored for the caller, not
    on the role in the token: when the storage knows no such user, or a
    user whose role is not [super_admin], the answer is 403, the only
    storage operation is that user lookup, nothing is written and no
    cookie is set -- whatever the token claims. *)
Theorem admin_routes_check_stored_role (req : request) (db : DB) (companyId : string)
    (now_ms : Z) (user : option obj) :
  Auth.isAuthenticated (req_user req) = true →
  getUser st (prop (req_user req) "userId") db = Ok user →
  (match user with Some u => u !! "role" | None => None end) ≠ Some (JStr "super_admin") →
  Forall (fun h => run h db
                   = (mkResponse 403 (message "Access denied. Super admin required.") None,
                      mkWorld db None [CGetUser (prop (req_user req) "userId")]))
    [ Routes.support_access L env st companyId req now_ms;
      Routes.exit_support L env st req now_ms;
      Api.admin_companies st sx req;
      Api.admin_plan st sx companyId req ].
Proof.
  intros Hauth Huser Hrole.
  assert (Routes.not_super_admin user = true) as Hns.
  { unfold Routes.not_super_admin.
    destruct (match user with Some u => u !! "role" | None => None end) as [[]|];
      try reflexivity.
    cbn. destruct (String.eqb_spec s "super_admin"); [congruence|reflexivity]. }
  repeat (constructor; [|]); try constructor.
  all: unfold Routes.support_access, Routes.exit_support, Api.admin_companies,
         Api.admin_plan, Routes.access_denied; exec; rewrite Hauth; smp;
       rewrite Huser; smp.
  all: destruct user; rewrite ?Hns; reflexivity.
Qed.

End Admin.

Section SupportMode.

Context (L : Lib) (env : option string) {DB : Type} (st : Storage DB).

Lemma super_admin_passes (admin : obj) :
  admin !! "role" = Some (JStr "super_admin") → Routes.not_super_admin (Some admin) = false.
Proof. intros H. unfold Routes.not_super_admin. by rewrite H. Qed.

(** X11.  Entering support mode as a stored super admin.  An unknown
    company is answered 404 with no cookie and no audit entry.  For a
    known company the new token -- the caller's identity with
    [supportMode] naming the company, the admin and the start time -- is
    set as cookie before the audit entry "accessed" is written: the
    answer is 200 when that write succeeds and 500 when it throws, and in
    both cases the response carries the support-mode cookie. *)
Theorem support_access_outcomes (companyId : string) (req : request) (now_ms : Z) (db : DB)
    (admin : obj) :
  Auth.isAuthenticated (req_user req) = true →
  getUser st (prop (req_user req) "userId") db = Ok (Some admin) →
  admin !! "role" = Some (JStr "super_admin") →
  match getCompanyById st companyId db with
  | Throw _ =>
      fst (run (Routes.support_access L env st companyId req now_ms) db)
      = mkResponse 500 (message "Failed to grant support access") None
      ∧ log_calls (w_calls (snd (run (Routes.support_access L env st companyId req now_ms) db)))
        = []
  | Ok None =>
      run (Routes.support_access L env st companyId req now_ms) db
      = (mkResponse 404 (message "Company not found") None,
         mkWorld db None [CGetUser (prop (req_user req) "userId"); CGetCompanyById companyId])
  | Ok (Some company) =>
      cookie (fst (run (Routes.support_access L env st companyId req now_ms) db))
      = Some (Auth.compact L (Auth.jwtSecret env)
                (Auth.issued_claims (Routes.support_payload L req companyId admin now_ms)
                                    now_ms))
      ∧ prop (Auth.issued_claims (Routes.support_payload L req companyId admin now_ms)
                now_ms !! "supportMode") "companyId" = Some (JStr companyId)
      ∧ log_calls (w_calls (snd (run (Routes.support_access L env st companyId req now_ms) db)))
        = [(access_entry L companyId admin company,
            fst (logActivity st (access_entry L companyId admin company) db))]
      ∧ status (fst (run (Routes.support_access L env st companyId req now_ms) db))
        = match fst (logActivity st (access_entry L companyId admin company) db) with
          | Ok _ => 200
          | Throw _ => 500
          end
  end.
Proof.
  intros Hauth Huser Hrole.
  unfold Routes.support_access, Routes.access_denied. exec. rewrite Hauth. smp.
  rewrite Huser. smp. rewrite (super_admin_passes admin Hrole). smp.
  destruct (getCompanyById st companyId db) as [[company|]|e]; smp.
  - rewrite generateToken_ok. smp.
    fold (access_entry L companyId admin company).
    destruct (logActivity st (access_entry L companyId admin company) db) as [[[]|e] db1]; smp.
    + split; [reflexivity|]. split; [|split; reflexivity].
      rewrite issued_claims_lookup. eval_eqb. rewrite finalPayload_supportMode.
      unfold Routes.support_payload. cbn [js_set]. rewrite lookup_insert_eq. cbn [truthy prop].
      lit. reflexivity.
    + split; [reflexivity|]. split; [|split; reflexivity].
      rewrite issued_claims_lookup. eval_eqb. rewrite finalPayload_supportMode.
      unfold Routes.support_payload. cbn [js_set]. rewrite lookup_insert_eq. cbn [truthy prop].
      lit. reflexivity.
  - reflexivity.
  - split; reflexivity.
Qed.

(** X12.  Leaving support mode as a stored super admin.  When the token
    carries no support mode the answer is 200 and nothing else happens:
    no audit entry, no new cookie.  When it does, the audit entry
    "exited" is written first: if that write throws the answer is 500 and
    no token is reissued; otherwise the answer is 200 and the cookie is a
    token of the caller's identity without [supportMode]. *)
Theorem exit_support_outcomes (req : request) (now_ms : Z) (db : DB) (admin : obj) :
  Auth.isAuthenticated (req_user req) = true →
  getUser st (prop (req_user req) "userId") db = Ok (Some admin) →
  admin !! "role" = Some (JStr "super_admin") →
  if truthy (prop (req_user req) "supportMode") then
    log_calls (w_calls (snd (run (Routes.exit_support L env st req now_ms) db)))
    = [(exit_entry req admin, fst (logActivity st (exit_entry req admin) db))]
    ∧ match fst (logActivity st (exit_entry req admin) db) with
      | Ok _ =>
          status (fst (run (Routes.exit_support L env st req now_ms) db)) = 200
          ∧ cookie (fst (run (Routes.exit_support L env st req now_ms) db))
            = Some (Auth.compact L (Auth.jwtSecret env)
                      (Auth.issued_claims (Routes.exit_payload req) now_ms))
          ∧ Auth.issued_claims (Routes.exit_payload req) now_ms !! "supportMode" = None
      | Throw _ =>
          fst (run (Routes.exit_support L env st req now_ms) db)
          = mkResponse 500 (message "Failed to exit support mode") None
      end
  else
    run (Routes.exit_support L env st req now_ms) db
    = (mkResponse 200
         (JObj (mkobj [ ("message", Some (JStr "Exited support mode"));
                        ("supportMode", Some (JBool false));
                        ("user", req_user req) ]))
         None,
       mkWorld db None [CGetUser (prop (req_user req) "userId")]).
Proof.
  intros Hauth Huser Hrole.
  unfold Routes.exit_support, Routes.access_denied. exec. rewrite Hauth. smp.
  rewrite Huser. smp. rewrite (super_admin_passes admin Hrole). smp.
  destruct (truthy (prop (req_user req) "supportMode")); smp; [|reflexivity].
  fold (exit_entry req admin).
  destruct (logActivity st (exit_entry req admin) db) as [[[]|e] db1]; smp.
  - rewrite generateToken_ok. smp. split; [reflexivity|]. split; [reflexivity|].
    split; [reflexivity|].
    rewrite issued_claims_lookup. eval_eqb. rewrite finalPayload_supportMode.
    unfold Routes.exit_payload. by rewrite lookup_delete_eq.
  - split; reflexivity.
Qed.

End SupportMode.

(** X13.  Entering support mode and leaving it again restores the identity:
    the fields signed on exit from the decoded support-mode token are the
    fields that would be signed from the original identity without
    support mode. *)
Theorem support_round_trip (L : Lib) (req : request) (companyId : string) (admin : obj)
    (t_enter : Z) :
  Auth.isAuthenticated (req_user req) = true →
  Auth.finalPayload
    (Routes.exit_payload
       (mkRequest
          (Some (JObj (Auth.issued_claims
                         (Routes.support_payload L req companyId admin t_enter) t_enter)))
          None))
  = Auth.finalPayload (Routes.exit_payload req).
Proof.
  intros Hauth. unfold Auth.isAuthenticated in Hauth.
  apply andb_true_iff in Hauth as [_ Hid].
  destruct (req_user req) as [[| | | | |ru]|] eqn:Hru; try discriminate. cbn [prop] in Hid.
  apply map_eq. intros k.
  assert (Hsp : ∀ k', k' ≠ "supportMode" →
            Routes.support_payload L req companyId admin t_enter !! k' = ru !! k').
  { intros k' Hk. unfold Routes.support_payload. rewrite Hru. cbn [spread js_set].
    by rewrite lookup_insert_ne. }
  assert (Hin : ∀ k', Routes.exit_payload
            (mkRequest
               (Some (JObj (Auth.issued_claims
                              (Routes.support_payload L req companyId admin t_enter) t_enter)))
               None) !! k'
            = if String.eqb "supportMode" k' then None
              else Auth.issued_claims
                     (Routes.support_payload L req companyId admin t_enter) t_enter !! k').
  { intros k'. unfold Routes.exit_payload. cbn [req_user spread].
    destruct (String.eqb_spec "supportMode" k') as [<-|Hne].
    - apply lookup_delete_eq.
    - by apply lookup_delete_ne. }
  assert (Hout : ∀ k', Routes.exit_payload req !! k'
                       = if String.eqb "supportMode" k' then None else ru !! k').
  { intros k'. unfold Routes.exit_payload. rewrite Hru. cbn [spread].
    destruct (String.eqb_spec "supportMode" k') as [<-|Hne].
    - apply lookup_delete_eq.
    - by apply lookup_delete_ne. }
  assert (Huid : js_or (ru !! "userId") (ru !! "id") = ru !! "userId").
  { unfold js_or. by rewrite Hid. }
  destruct (decide (k ∈ Auth.token_fields)) as [Hk|Hk].
  2:{ by rewrite !finalPayload_other. }
  unfold Auth.token_fields in Hk. rewrite !elem_of_cons in Hk.
  destruct Hk as [->|[->|[->|[->|[->|[->|Hk]]]]]]; [..|by apply elem_of_nil in Hk].
  - rewrite !finalPayload_userId, !Hin, !Hout. eval_eqb.
    rewrite !issued_claims_lookup. eval_eqb.
    rewrite finalPayload_userId, !Hsp by discriminate.
    rewrite (finalPayload_other _ "id")
      by (unfold Auth.token_fields; rewrite !not_elem_of_cons;
          repeat split; try discriminate; apply not_elem_of_nil).
    rewrite Huid. unfold js_or. by rewrite Hid.
  - rewrite !finalPayload_copied by (rewrite !elem_of_cons; auto 10).
    rewrite Hin, Hout. eval_eqb. rewrite issued_claims_lookup. eval_eqb.
    rewrite finalPayload_copied by (rewrite !elem_of_cons; auto 10). by apply Hsp.
  - rewrite !finalPayload_copied by (rewrite !elem_of_cons; auto 10).
    rewrite Hin, Hout. eval_eqb. rewrite issued_claims_lookup. eval_eqb.
    rewrite finalPayload_copied by (rewrite !elem_of_cons; auto 10). by apply Hsp.
  - rewrite !finalPayload_copied by (rewrite !elem_of_cons; auto 10).
    rewrite Hin, Hout. eval_eqb. rewrite issued_claims_lookup. eval_eqb.
    rewrite finalPayload_copied by (rewrite !elem_of_cons; auto 10). by apply Hsp.
  - rewrite !finalPayload_copied by (rewrite !elem_of_cons; auto 10).
    rewrite Hin, Hout. eval_eqb. rewrite issued_claims_lookup. eval_eqb.
    rewrite finalPayload_copied by (rewrite !elem_of_cons; auto 10). by apply Hsp.
  - rewrite !finalPayload_supportMode, !Hin, !Hout. by eval_eqb.
Qed.

Lemma admin_routes_check_stored_role_witness :
  run (Api.admin_companies MemStore.storage MemMore.storage (Sample.ana_claiming_admin None))
      Sample.db1
  = (mkResponse 403 (message "Access denied. Super admin required.") None,
     mkWorld Sample.db1 None [CGetUser (Some (JStr "u1"))]).
Proof.
  pose proof (admin_routes_check_stored_role Demo.lib None MemStore.storage MemMore.storage
                (Sample.ana_claiming_admin None) Sample.db1 "cB" 0 (Some Demo.ana)
                eq_refl eq_refl) as H.
  assert (Demo.ana !! "role" ≠ Some (JStr "super_admin")) as Hrole
    by (vm_compute; discriminate).
  specialize (H Hrole).
  apply Forall_cons in H as [_ H]. apply Forall_cons in H as [_ H].
  apply Forall_cons in H as [H _]. exact H.
Defined.

Lemma support_access_outcomes_witness :
  status (fst (run (Routes.support_access Demo.lib None Sample.unlogged "cB"
                      (Sample.as_root None) 0) Sample.db1)) = 500
  ∧ is_Some (cookie (fst (run (Routes.support_access Demo.lib None Sample.unlogged "cB"
                                 (Sample.as_root None) 0) Sample.db1)))
  ∧ status (fst (run (Routes.support_access Demo.lib None MemStore.storage "cB"
                        (Sample.as_root None) 0) Sample.db1)) = 200
  ∧ status (fst (run (Routes.support_access Demo.lib None MemStore.storage "cZ"
                        (Sample.as_root None) 0) Sample.db1)) = 404.
Proof.
  pose proof (support_access_outcomes Demo.lib None Sample.unlogged "cB"
                (Sample.as_root None) 0 Sample.db1 Sample.root eq_refl eq_refl eq_refl)
    as (Hcookie & _ & _ & Hstatus).
  pose proof (support_access_outcomes Demo.lib None MemStore.storage "cB"
                (Sample.as_root None) 0 Sample.db1 Sample.root eq_refl eq_refl eq_refl)
    as (_ & _ & _ & Hok).
  pose proof (support_access_outcomes Demo.lib None MemStore.storage "cZ"
                (Sample.as_root None) 0 Sample.db1 Sample.root eq_refl eq_refl eq_refl)
    as Hmissing.
  split; [exact Hstatus|]. split; [rewrite Hcookie; eauto|]. split; [exact Hok|].
  exact (f_equal (fun r => status (fst r)) Hmissing).
Defined.

Lemma exit_support_outcomes_witness :
  status (fst (run (Routes.exit_support Demo.lib None MemStore.storage
                      (Sample.as_root_in_support None) 0) Sample.db1)) = 200
  ∧ fst (run (Routes.exit_support Demo.lib None Sample.unlogged
                (Sample.as_root_in_support None) 0) Sample.db1)
    = mkResponse 500 (message "Failed to exit support mode") None
  ∧ cookie (fst (run (Routes.exit_support Demo.lib None MemStore.storage
                        (Sample.as_root None) 0) Sample.db1)) = None.
Proof.
  pose proof (exit_support_outcomes Demo.lib None MemStore.storage
                (Sample.as_root_in_support None) 0 Sample.db1 Sample.root
                eq_refl eq_refl eq_refl) as (_ & Hok & _).
  pose proof (exit_support_outcomes Demo.lib None Sample.unlogged
                (Sample.as_root_in_support None) 0 Sample.db1 Sample.root
                eq_refl eq_refl eq_refl) as (_ & Hfail).
  pose proof (exit_support_outcomes Demo.lib None MemStore.storage
                (Sample.as_root None) 0 Sample.db1 Sample.root
                eq_refl eq_refl eq_refl) as Hnone.
  split; [exact Hok|]. split; [exact Hfail|].
  exact (f_equal (fun r => cookie (fst r)) Hnone).
Defined.

Lemma support_round_trip_witness :
  Auth.finalPayload
    (Routes.exit_payload
       (mkRequest
          (Some (JObj (Auth.issued_claims
                         (Routes.support_payload Demo.lib (Sample.as_root None) "cB"
                            Sample.root 0) 0)))
          None))
  = mkobj [ ("userId", Some (JStr "u0")); ("role", Some (JStr "super_admin")) ].
Proof.
  rewrite (support_round_trip Demo.lib (Sample.as_root None) "cB" Sample.root 0 eq_refl).
  vm_compute. reflexivity.
Defined.

(** ** Asset routes *)

Ltac exec_more :=
  exec; unfold ask, perform; cbn [w_db w_calls w_cookie fst snd].

Lemma asset_dates_rejected (m : obj) (k : string) (x : jsval) :
  k ∈ asset_date_keys → m !! k = Some x → x ≠ JNull →
  insertAssetSchema (Some (JObj m)) = None
  ∧ z_object (z_partial asset_fields) (Some (JObj m)) = None.
Proof.
  intros Hk Hm Hx.
  assert (opt_nullable z_date (m !! k) = None) as Hd.
  { rewrite Hm. unfold opt_nullable, z_nullable, z_optional, z_date. by destruct x. }
  assert ((k, opt_nullable z_date) ∈ asset_fields) as Hin.
  { unfold asset_date_keys in Hk. unfold asset_fields.
    repeat (apply elem_of_cons in Hk as [->|Hk]; [rewrite !elem_of_cons; auto 30|]).
    by apply elem_of_nil in Hk. }
  split.
  - apply (parse_fields_reject asset_fields m k (opt_nullable z_date) Hin Hd).
  - cbn [z_object].
    apply (parse_fields_reject (z_partial asset_fields) m k (z_optional (opt_nullable z_date))).
    + unfold z_partial. apply list_elem_of_fmap. by exists (k, opt_nullable z_date).
    + rewrite Hm in *. exact Hd.
Qed.

Section Assets.

Context {DB : Type} (st : Storage DB) (sx : StorageMore DB) (req : request) (db : DB).

(** X14.  Whatever the body of [POST /api/assets] contains, the object
    handed to [createAsset] has no property outside the keys of
    [insertAssetSchema]: an [id], a [createdAt] or any other extra key of
    the body never reaches the storage. *)
Theorem post_assets_only_schema_keys (data : obj) (r : Res obj) (k : string) :
  CCreateAsset data r ∈ w_calls (snd (run (Routes.post_assets st req) db)) →
  is_Some (data !! k) →
  k ∈ keys_of asset_fields.
Proof.
  unfold Routes.post_assets. exec.
  destruct (Auth.isAuthenticated (req_user req)); smp;
    [repeat case_call|]; intros H; in_calls H.
  all: match goal with
       | Hs : insertAssetSchema (Some (JObj ?m)) = Some ?g |- _ =>
           pose proof (parse_fields_restrict asset_fields m g asset_fields_passthrough Hs)
             as Hr
       end.
  all: rewrite lookup_js_set, Hr, existsb_keys.
  all: destruct (String.eqb_spec "assignedTo" k) as [<-|Hne];
       [intros _; unfold keys_of, asset_fields; cbn [map fst]; rewrite !elem_of_cons; auto 30|].
  all: destruct (existsb (String.eqb k) (keys_of asset_fields)) eqn:He;
       [|by intros [? ?]].
  all: intros _; apply existsb_exists in He as (k' & Hin & Heq);
       apply String.eqb_eq in Heq as ->; by apply list_elem_of_In.
Qed.

(** X15.  A body of [POST /api/assets] that carries a value other than
    null under one of the six date keys is refused: the status is 400,
    the body's [message] says that the asset data failed validation, no
    cookie is set, the membership query is the only storage call and
    nothing is stored.  (The schema asks for [Date] objects, which a JSON
    body cannot hold.) *)
Theorem post_assets_rejects_dates (fields first : obj) (rest : list obj) (k : string)
    (x : jsval) :
  Auth.isAuthenticated (req_user req) = true →
  getUserCompanies st (prop (req_user req) "userId") db = Ok (Some (first :: rest)) →
  req_body req = Some (JObj fields) →
  k ∈ asset_date_keys → fields !! k = Some x → x ≠ JNull →
  status (fst (run (Routes.post_assets st req) db)) = 400
  ∧ prop (Some (body (fst (run (Routes.post_assets st req) db)))) "message"
    = Some (JStr "Error de validación en los datos del activo")
  ∧ cookie (fst (run (Routes.post_assets st req) db)) = None
  ∧ snd (run (Routes.post_assets st req) db)
    = mkWorld db None [CGetUserCompanies (prop (req_user req) "userId")].
Proof.
  intros Hauth Huc Hbody Hk Hx Hnn.
  unfold Routes.post_assets. exec. rewrite Hauth. smp. rewrite Huc. smp.
  rewrite Hbody. cbn [spread].
  assert (js_set "companyId" (first !! "companyId") fields !! k = Some x) as Hx'.
  { rewrite lookup_js_set.
    destruct (String.eqb_spec "companyId" k) as [<-|_]; [|exact Hx].
    exfalso. unfold asset_date_keys in Hk. rewrite !elem_of_cons in Hk.
    destruct Hk as [?|[?|[?|[?|[?|[?|Hk]]]]]]; try discriminate. by apply elem_of_nil in Hk. }
  rewrite (proj1 (asset_dates_rejected _ k x Hk Hx' Hnn)). smp.
  split; [reflexivity|]. split; [|split; reflexivity].
  unfold message. cbn [prop]. lit. reflexivity.
Qed.

End Assets.

Section MoreRoutes.

Context (L : Lib) {DB : Type} (st : Storage DB) (sx : StorageMore DB) (req : request) (db : DB).

(** X16.  [PUT /api/assets/:id] answers 200 or 400 and nothing else.  A
    body the partial schema refuses -- one with a non-null date, for
    instance -- is answered 400 with the database untouched.  An accepted
    body, the empty object included, goes to [updateAsset] for the id of
    the path without any lookup of the caller's companies; the audit
    entry "updated" is written only after the update returned, under the
    company of the asset the update returned; a failure of the update or
    of the audit write is answered 400 as well. *)
Theorem put_asset_outcomes (id : string) :
  Auth.isAuthenticated (req_user req) = true →
  match z_object (z_partial asset_fields) (req_body req) with
  | None =>
      run (Api.put_asset st sx id req) db
      = (mkResponse 400 (message "Failed to update asset") None, mkWorld db None [])
  | Some data =>
      match updateAsset sx id data db with
      | (Throw _, db1) =>
          run (Api.put_asset st sx id req) db
          = (mkResponse 400 (message "Failed to update asset") None, mkWorld db1 None [])
      | (Ok asset, db1) =>
          w_calls (snd (run (Api.put_asset st sx id req) db))
          = [CLogActivity
               (Api.activity (asset !! "companyId") (prop (req_user req) "userId")
                  "updated" "asset" (asset !! "id") (asset !! "name"))
               (fst (logActivity st
                       (Api.activity (asset !! "companyId") (prop (req_user req) "userId")
                          "updated" "asset" (asset !! "id") (asset !! "name")) db1))]
          ∧ fst (run (Api.put_asset st sx id req) db)
            = match fst (logActivity st
                           (Api.activity (asset !! "companyId")
                              (prop (req_user req) "userId")
                              "updated" "asset" (asset !! "id") (asset !! "name")) db1) with
              | Ok _ => mkResponse 200 (JObj asset) None
              | Throw _ => mkResponse 400 (message "Failed to update asset") None
              end
      end
  end
  ∧ z_object (z_partial asset_fields) (Some (JObj ∅)) = Some ∅
  ∧ (∀ fields k x, req_body req = Some (JObj fields) →
       k ∈ asset_date_keys → fields !! k = Some x → x ≠ JNull →
       z_object (z_partial asset_fields) (req_body req) = None).
Proof.
  intros Hauth. split; [|split].
  - unfold Api.put_asset. exec_more. rewrite Hauth. smp.
    destruct (z_object (z_partial asset_fields) (req_body req)) as [data|]; smp;
      [|reflexivity].
    destruct (updateAsset sx id data db) as [[asset|e] db1]; smp; [|reflexivity].
    destruct (logActivity st _ db1) as [[[]|e] db2]; smp; split; reflexivity.
  - vm_compute. reflexivity.
  - intros fields k x -> Hk Hx Hnn. apply (asset_dates_rejected fields k x Hk Hx Hnn).
Qed.

(** X17.  [DELETE /api/assets/:id/:companyId] deletes only what the lookup
    by id and company found: when the lookup finds nothing the answer is
    404 and neither the delete nor the audit write is made; when the
    delete throws the answer is 500 and no audit entry is written; the
    audit entry "deleted", named after the asset found, is written only
    after the delete returned. *)
Theorem delete_asset_outcomes (id companyId : string) :
  Auth.isAuthenticated (req_user req) = true →
  match getAssetById sx id companyId db with
  | Throw _ =>
      run (Api.delete_asset st sx id companyId req) db
      = (mkResponse 500 (message "Failed to delete asset") None, mkWorld db None [])
  | Ok None =>
      run (Api.delete_asset st sx id companyId req) db
      = (mkResponse 404 (message "Asset not found") None, mkWorld db None [])
  | Ok (Some found) =>
      match deleteAsset sx id companyId db with
      | (Throw _, db1) =>
          run (Api.delete_asset st sx id companyId req) db
          = (mkResponse 500 (message "Failed to delete asset") None, mkWorld db1 None [])
      | (Ok _, db1) =>
          w_calls (snd (run (Api.delete_asset st sx id companyId req) db))
          = [CLogActivity
               (Api.activity (Some (JStr companyId)) (prop (req_user req) "userId")
                  "deleted" "asset" (Some (JStr id)) (found !! "name"))
               (fst (logActivity st
                       (Api.activity (Some (JStr companyId)) (prop (req_user req) "userId")
                          "deleted" "asset" (Some (JStr id)) (found !! "name")) db1))]
          ∧ fst (run (Api.delete_asset st sx id companyId req) db)
            = match fst (logActivity st
                           (Api.activity (Some (JStr companyId))
                              (prop (req_user req) "userId")
                              "deleted" "asset" (Some (JStr id)) (found !! "name")) db1) with
              | Ok _ => mkResponse 200 (message "Asset deleted successfully") None
              | Throw _ => mkResponse 500 (message "Failed to delete asset") None
              end
      end
  end.
Proof.
  intros Hauth. unfold Api.delete_asset. exec_more. rewrite Hauth. smp.
  destruct (getAssetById sx id companyId db) as [[found|]|e]; smp; try reflexivity.
  destruct (deleteAsset sx id companyId db) as [[[]|e] db1]; smp; [|reflexivity].
  destruct (logActivity st _ db1) as [[[]|e] db2]; smp; split; reflexivity.
Qed.

(** X18.  [POST /api/contracts] cannot succeed: its schema requires
    [startDate] and [endDate] to be [Date] objects, which no JSON body
    holds, so every authenticated request is answered 400 "Failed to
    create contract" and [createContract] is never reached. *)
Theorem post_contracts_always_refused :
  Auth.isAuthenticated (req_user req) = true →
  run (Api.post_contracts st sx req) db
  = (mkResponse 400 (message "Failed to create contract") None, mkWorld db None []).
Proof.
  intros Hauth. unfold Api.post_contracts. exec_more. rewrite Hauth. smp.
  rewrite contract_schema_rejects_json. reflexivity.
Qed.

(** X19.  [POST /api/maintenance] files the record under the company the
    body names: no membership of the caller is looked up, the validated
    [companyId] is the body's, and it is the [companyId] of the audit
    entry written after the insert returned.  Every failure -- schema,
    insert or audit write -- is answered 400. *)
Theorem post_maintenance_outcomes :
  Auth.isAuthenticated (req_user req) = true →
  match insertMaintenanceRecordSchema (req_body req) with
  | None =>
      run (Api.post_maintenance L st sx req) db
      = (mkResponse 400 (message "Failed to create maintenance record") None,
         mkWorld db None [])
  | Some data =>
      data !! "companyId" = prop (req_body req) "companyId"
      ∧ match createMaintenanceRecord sx data db with
        | (Throw _, db1) =>
            run (Api.post_maintenance L st sx req) db
            = (mkResponse 400 (message "Failed to create maintenance record") None,
               mkWorld db1 None [])
        | (Ok record, db1) =>
            ∃ entry,
              entry !! "companyId" = prop (req_body req) "companyId"
              ∧ entry !! "action" = Some (JStr "created")
              ∧ entry !! "entityId" = record !! "id"
              ∧ w_calls (snd (run (Api.post_maintenance L st sx req) db))
                = [CLogActivity entry (fst (logActivity st entry db1))]
              ∧ fst (run (Api.post_maintenance L st sx req) db)
                = match fst (logActivity st entry db1) with
                  | Ok _ => mkResponse 200 (JObj record) None
                  | Throw _ =>
                      mkResponse 400 (message "Failed to create maintenance record") None
                  end
        end
  end.
Proof.
  intros Hauth. unfold Api.post_maintenance. exec_more. rewrite Hauth. smp.
  destruct (insertMaintenanceRecordSchema (req_body req)) as [data|] eqn:Hs; smp;
    [|reflexivity].
  assert (data !! "companyId" = prop (req_body req) "companyId") as Hcid.
  { unfold insertMaintenanceRecordSchema, z_object in Hs.
    destruct (req_body req) as [[| | | | |m]|]; try discriminate Hs. cbn [prop].
    assert (Forall (fun kv => passthrough (snd kv)) maintenance_fields) as Hp
      by (unfold maintenance_fields; all_passthrough).
    rewrite (parse_fields_restrict _ _ _ Hp Hs). reflexivity. }
  split; [exact Hcid|].
  destruct (createMaintenanceRecord sx data db) as [[record|e] db1]; smp; [|reflexivity].
  exists (Api.activity (data !! "companyId") (prop (req_user req) "userId") "created"
            "maintenance_record" (record !! "id")
            (Some (JStr ("Maintenance for " +:+ to_display L (record !! "description"))))).
  destruct (logActivity st _ db1) as [[[]|e] db2]; smp.
  all: split; [unfold Api.activity; lit; exact Hcid|].
  all: split; [unfold Api.activity; lit; reflexivity|].
  all: split; [unfold Api.activity; lit; reflexivity|].
  all: split; reflexivity.
Qed.

(** X20.  [POST /api/companies] is not atomic: the company is created
    first, then the caller is linked to it as [manager_owner], then the
    audit entry is written.  When the link fails the answer is 400 and
    no audit entry is written, yet the database is the one in which the
    company was created. *)
Theorem post_companies_outcomes (data : obj) :
  Auth.isAuthenticated (req_user req) = true →
  insertCompanySchema (zod_email L) (req_body req) = Some data →
  match createCompany sx data db with
  | (Throw _, db1) =>
      run (Api.post_companies L st sx req) db
      = (mkResponse 400 (message "Failed to create company") None, mkWorld db1 None [])
  | (Ok company, db1) =>
      match addUserToCompany sx (prop (req_user req) "userId") (company !! "id")
                             "manager_owner" db1 with
      | (Throw _, db2) =>
          run (Api.post_companies L st sx req) db
          = (mkResponse 400 (message "Failed to create company") None, mkWorld db2 None [])
      | (Ok _, db2) =>
          w_calls (snd (run (Api.post_companies L st sx req) db))
          = [CLogActivity
               (Api.activity (company !! "id") (prop (req_user req) "userId")
                  "created" "company" (company !! "id") (company !! "name"))
               (fst (logActivity st
                       (Api.activity (company !! "id") (prop (req_user req) "userId")
                          "created" "company" (company !! "id") (company !! "name")) db2))]
          ∧ fst (run (Api.post_companies L st sx req) db)
            = match fst (logActivity st
                           (Api.activity (company !! "id") (prop (req_user req) "userId")
                              "created" "company" (company !! "id") (company !! "name"))
                           db2) with
              | Ok _ => mkResponse 200 (JObj company) None
              | Throw _ => mkResponse 400 (message "Failed to create company") None
              end
      end
  end.
Proof.
  intros Hauth Hs. unfold Api.post_companies. exec_more. rewrite Hauth. smp.
  rewrite Hs. smp.
  destruct (createCompany sx data db) as [[company|e] db1]; smp; [|reflexivity].
  destruct (addUserToCompany sx _ _ _ db1) as [[[]|e] db2]; smp; [|reflexivity].
  destruct (logActivity st _ db2) as [[[]|e] db3]; smp; split; reflexivity.
Qed.

(** X21.  Changing a plan as a stored super admin: a [plan] other than
    "pyme" or "professional" -- a missing one included -- is answered
    400 "Invalid plan type" without touching the database; with one of
    the two plans the storage is asked to update the company of the path
    with the body's [maxUsers] and [maxAssets] exactly as they came, and
    its answer decides between 200 and 500. *)
Theorem admin_plan_outcomes (companyId : string) (admin fields : obj) :
  Auth.isAuthenticated (req_user req) = true →
  getUser st (prop (req_user req) "userId") db = Ok (Some admin) →
  admin !! "role" = Some (JStr "super_admin") →
  req_body req = Some (JObj fields) →
  if js_strict_eq (fields !! "plan") (Some (JStr "pyme"))
     || js_strict_eq (fields !! "plan") (Some (JStr "professional"))
  then
    w_db (snd (run (Api.admin_plan st sx companyId req) db))
    = snd (updateCompanyPlan sx companyId (fields !! "plan") (fields !! "maxUsers")
             (fields !! "maxAssets") db)
    ∧ fst (run (Api.admin_plan st sx companyId req) db)
      = match fst (updateCompanyPlan sx companyId (fields !! "plan") (fields !! "maxUsers")
                     (fields !! "maxAssets") db) with
        | Ok updated => mkResponse 200 (JObj updated) None
        | Throw _ => mkResponse 500 (message "Failed to update company plan") None
        end
  else
    run (Api.admin_plan st sx companyId req) db
    = (mkResponse 400 (message "Invalid plan type") None,
       mkWorld db None [CGetUser (prop (req_user req) "userId")]).
Proof.
  intros Hauth Huser Hrole Hbody. unfold Api.admin_plan. exec_more. rewrite Hauth. smp.
  rewrite Huser. smp. rewrite (super_admin_passes admin Hrole). smp.
  rewrite Hbody. cbn [member prop]. smp.
  destruct (js_strict_eq (fields !! "plan") (Some (JStr "pyme"))
            || js_strict_eq (fields !! "plan") (Some (JStr "professional")));
    cbn [negb]; smp; [|reflexivity].
  destruct (updateCompanyPlan sx companyId _ _ _ db) as [[updated|e] db1]; smp;
    split; reflexivity.
Qed.

(** X22.  [GET /api/auth/user] returns the stored user without the
    password digest: every other property of the row is in the body
    unchanged, [passwordHash] is not; an unknown user is answered 404;
    the database is only read. *)
Theorem auth_user_outcomes :
  Auth.isAuthenticated (req_user req) = true →
  snd (run (Api.auth_user st req) db)
  = mkWorld db None [CGetUser (prop (req_user req) "userId")]
  ∧ match getUser st (prop (req_user req) "userId") db with
    | Ok (Some user) =>
        ∃ shown,
          fst (run (Api.auth_user st req) db) = mkResponse 200 (JObj shown) None
          ∧ shown !! "passwordHash" = None
          ∧ ∀ k, k ≠ "passwordHash" → shown !! k = user !! k
    | Ok None =>
        fst (run (Api.auth_user st req) db)
        = mkResponse 404 (message "Usuario no encontrado") None
    | Throw _ =>
        fst (run (Api.auth_user st req) db)
        = mkResponse 500 (message "Failed to fetch user") None
    end.
Proof.
  intros Hauth. unfold Api.auth_user. exec_more. rewrite Hauth. smp.
  destruct (getUser st (prop (req_user req) "userId") db) as [[user|]|e]; smp;
    split; try reflexivity.
  exists (Api.userWithoutPassword user). split; [reflexivity|].
  unfold Api.userWithoutPassword. split; [apply lookup_delete_eq|].
  intros k Hk. by apply lookup_delete_ne.
Qed.

End MoreRoutes.

Lemma post_assets_only_schema_keys_witness :
  Forall (fun c => match c with
                   | CCreateAsset data _ => data !! "id" = None ∧ data !! "createdAt" = None
                   | _ => True
                   end)
    (w_calls (snd (run (Routes.post_assets MemStore.storage
                          (Demo.as_ana Sample.laptop_with_id)) Demo.db0)))
  ∧ created (w_calls (snd (run (Routes.post_assets MemStore.storage
                                  (Demo.as_ana Sample.laptop_with_id)) Demo.db0))) ≠ [].
Proof.
  assert (Hno : ∀ k, k = "id" ∨ k = "createdAt" → k ∉ keys_of asset_fields).
  { intros k [-> | ->]; unfold keys_of, asset_fields; cbn [map fst];
      rewrite !not_elem_of_cons; repeat split; try discriminate; apply not_elem_of_nil. }
  split; [|vm_compute; discriminate].
  apply Forall_forall. intros c Hc. destruct c as [| | | | |data r| |]; try exact I.
  split.
  - destruct (data !! "id") eqn:E; [|reflexivity]. exfalso.
    apply (Hno "id" (or_introl eq_refl)).
    apply (post_assets_only_schema_keys MemStore.storage (Demo.as_ana Sample.laptop_with_id)
             Demo.db0 data r "id" Hc). rewrite E. eauto.
  - destruct (data !! "createdAt") eqn:E; [|reflexivity]. exfalso.
    apply (Hno "createdAt" (or_intror eq_refl)).
    apply (post_assets_only_schema_keys MemStore.storage (Demo.as_ana Sample.laptop_with_id)
             Demo.db0 data r "createdAt" Hc). rewrite E. eauto.
Defined.

Lemma post_assets_rejects_dates_witness :
  status (fst (run (Routes.post_assets MemStore.storage
                      (Demo.as_ana (Some (JObj Sample.app_with_expiry)))) Demo.db0)) = 400
  ∧ snd (run (Routes.post_assets MemStore.storage
                (Demo.as_ana (Some (JObj Sample.app_with_expiry)))) Demo.db0)
    = mkWorld Demo.db0 None [CGetUserCompanies (Some (JStr "u1"))].
Proof.
  destruct (post_assets_rejects_dates MemStore.storage
              (Demo.as_ana (Some (JObj Sample.app_with_expiry))) Demo.db0
              Sample.app_with_expiry (Demo.membership "u1" "cA") [] "domainExpiry"
              (JStr "2030-01-01T00:00:00.000Z")) as (Hst & _ & _ & Hw); try reflexivity.
  - unfold asset_date_keys. rewrite !elem_of_cons. auto 10.
  - discriminate.
  - split; [exact Hst|exact Hw].
Defined.

(** Ana, of company [cA], renames the asset of company [cB] and files it
    under her own company. *)
Lemma put_asset_outcomes_witness :
  status (fst (run (Api.put_asset MemStore.storage MemMore.storage "a0"
                      (Demo.as_ana Sample.rename_body)) Demo.db0)) = 200
  ∧ status (fst (run (Api.put_asset MemStore.storage MemMore.storage "a0"
                        (Demo.as_ana (Some (JObj Sample.app_with_expiry)))) Demo.db0)) = 400.
Proof.
  pose proof (put_asset_outcomes MemStore.storage MemMore.storage
                (Demo.as_ana Sample.rename_body) Demo.db0 "a0" eq_refl) as [H1 _].
  pose proof (put_asset_outcomes MemStore.storage MemMore.storage
                (Demo.as_ana (Some (JObj Sample.app_with_expiry))) Demo.db0 "a0" eq_refl)
    as [H2 _].
  split.
  - exact (f_equal status (proj2 H1)).
  - exact (f_equal (fun r => status (fst r)) H2).
Defined.

Lemma delete_asset_outcomes_witness :
  run (Api.delete_asset MemStore.storage MemMore.storage "a0" "cA" (Demo.as_ana None))
      Demo.db0
  = (mkResponse 404 (message "Asset not found") None, mkWorld Demo.db0 None [])
  ∧ status (fst (run (Api.delete_asset MemStore.storage MemMore.storage "a0" "cB"
                        (Demo.as_ana None)) Demo.db0)) = 200.
Proof.
  pose proof (delete_asset_outcomes MemStore.storage MemMore.storage (Demo.as_ana None)
                Demo.db0 "a0" "cA" eq_refl) as H1.
  pose proof (delete_asset_outcomes MemStore.storage MemMore.storage (Demo.as_ana None)
                Demo.db0 "a0" "cB" eq_refl) as H2.
  split; [exact H1|exact (f_equal status (proj2 H2))].
Defined.

Lemma post_contracts_always_refused_witness :
  run (Api.post_contracts MemStore.storage MemMore.storage (Demo.as_ana Sample.contract_body))
      Demo.db0
  = (mkResponse 400 (message "Failed to create contract") None, mkWorld Demo.db0 None []).
Proof.
  exact (post_contracts_always_refused MemStore.storage MemMore.storage
           (Demo.as_ana Sample.contract_body) Demo.db0 eq_refl).
Defined.

(** Ana, of company [cA], files a maintenance record under company [cB]. *)
Lemma post_maintenance_outcomes_witness :
  ∃ entry,
    entry !! "companyId" = Some (JStr "cB")
    ∧ log_calls (w_calls (snd (run (Api.post_maintenance Demo.lib MemStore.storage
                                      MemMore.storage (Demo.as_ana Sample.maintenance_body))
                                 Demo.db0)))
      = [(entry, Ok tt)].
Proof.
  pose proof (post_maintenance_outcomes Demo.lib MemStore.storage MemMore.storage
                (Demo.as_ana Sample.maintenance_body) Demo.db0 eq_refl)
    as (_ & entry & Hcid & _ & _ & Hcalls & _).
  exists entry. split; [exact Hcid|].
  exact (f_equal log_calls Hcalls).
Defined.

Lemma post_companies_outcomes_witness :
  status (fst (run (Api.post_companies Demo.lib MemStore.storage MemMore.unlinkable
                      (Demo.as_ana Sample.company_body)) Demo.db0)) = 400
  ∧ List.length (MemStore.companies
       (w_db (snd (run (Api.post_companies Demo.lib MemStore.storage MemMore.unlinkable
                          (Demo.as_ana Sample.company_body)) Demo.db0)))) = 3%nat
  ∧ status (fst (run (Api.post_companies Demo.lib MemStore.storage MemMore.storage
                        (Demo.as_ana Sample.company_body)) Demo.db0)) = 200.
Proof.
  assert (Hs : insertCompanySchema (zod_email Demo.lib)
                 (req_body (Demo.as_ana Sample.company_body))
               = Some (spread Sample.company_body)) by (vm_compute; reflexivity).
  pose proof (post_companies_outcomes Demo.lib MemStore.storage MemMore.unlinkable
                (Demo.as_ana Sample.company_body) Demo.db0 _ eq_refl Hs) as H1.
  pose proof (post_companies_outcomes Demo.lib MemStore.storage MemMore.storage
                (Demo.as_ana Sample.company_body) Demo.db0 _ eq_refl Hs) as H2.
  vm_compute in H1. vm_compute in H2. vm_compute.
  split; [exact (f_equal (fun r => status (fst r)) H1)|].
  split; [exact (f_equal (fun r => List.length (MemStore.companies (w_db (snd r)))) H1)|].
  exact (f_equal status (proj2 H2)).
Defined.

Lemma admin_plan_outcomes_witness :
  run (Api.admin_plan MemStore.storage MemMore.storage "cA"
         (Sample.as_root (Sample.plan_body "enterprise"))) Sample.db1
  = (mkResponse 400 (message "Invalid plan type") None,
     mkWorld Sample.db1 None [CGetUser (Some (JStr "u0"))])
  ∧ status (fst (run (Api.admin_plan MemStore.storage MemMore.storage "cA"
                        (Sample.as_root (Sample.plan_body "professional"))) Sample.db1))
    = 200.
Proof.
  split.
  - exact (admin_plan_outcomes MemStore.storage MemMore.storage
             (Sample.as_root (Sample.plan_body "enterprise")) Sample.db1 "cA" Sample.root
             (mkobj [ ("plan", Some (JStr "enterprise")); ("maxUsers", Some (JStr "many")) ])
             eq_refl eq_refl eq_refl eq_refl).
  - exact (f_equal status (proj2
             (admin_plan_outcomes MemStore.storage MemMore.storage
                (Sample.as_root (Sample.plan_body "professional")) Sample.db1 "cA" Sample.root
                (mkobj [ ("plan", Some (JStr "professional"));
                         ("maxUsers", Some (JStr "many")) ])
                eq_refl eq_refl eq_refl eq_refl))).
Defined.

Lemma auth_user_outcomes_witness :
  ∃ shown,
    fst (run (Api.auth_user MemStore.storage (Demo.as_ana None)) Demo.db0)
    = mkResponse 200 (JObj shown) None
    ∧ shown !! "passwordHash" = None
    ∧ shown !! "email" = Some (JStr "ana@example.com").
Proof.
  pose proof (auth_user_outcomes MemStore.storage (Demo.as_ana None) Demo.db0 eq_refl)
    as (_ & shown & Hresp & Hno & Hkeep).
  exists shown. split; [exact Hresp|]. split; [exact Hno|].
  rewrite (Hkeep "email") by discriminate. vm_compute. reflexivity.
Defined.

(** ** The registration form's input handlers *)

Lemma strip_all_digits (s : string) : all_digits (Forms.strip_non_digits s) = true.
Proof.
  induction s as [|a r IH]; [reflexivity|].
  cbn [Forms.strip_non_digits]. destruct (is_digit a) eqn:Ha; [|exact IH].
  cbn [all_digits]. by rewrite Ha, IH.
Qed.

Lemma strip_digits_id (s : string) : all_digits s = true → Forms.strip_non_digits s = s.
Proof.
  induction s as [|a r IH]; [reflexivity|].
  cbn [all_digits Forms.strip_non_digits]. intros [Ha Hr]%andb_prop.
  by rewrite Ha, IH.
Qed.

Lemma slice0_all_digits (n : nat) (s : string) :
  all_digits s = true → all_digits (Forms.slice0 n s) = true.
Proof.
  revert s. induction n as [|n IH]; intros [|a r]; try reflexivity.
  cbn [all_digits Forms.slice0]. intros [Ha Hr]%andb_prop. by rewrite Ha, IH.
Qed.

Lemma slice0_length (n : nat) (s : string) :
  String.length (Forms.slice0 n s) = Nat.min n (String.length s).
Proof.
  revert s. induction n as [|n IH]; intros [|a r]; try reflexivity.
  cbn [Forms.slice0 String.length Nat.min]. by rewrite IH.
Qed.

Lemma slice0_short (n : nat) (s : string) :
  (String.length s ≤ n)%nat → Forms.slice0 n s = s.
Proof.
  revert s. induction n as [|n IH]; intros [|a r]; cbn [String.length Forms.slice0];
    intros Hl; try reflexivity; [lia|].
  rewrite IH; [reflexivity|lia].
Qed.

Lemma length_zero_empty (s : string) : String.length s = 0%nat → s = "".
Proof. by destruct s. Qed.

(** X23.  What reaches the form from the RUC and cedula inputs
    ([handleRucChange] with n = 13, [handleCedulaChange] with n = 10): the
    first n digits of what was typed, every other character dropped.  The
    stored text has exactly n digits -- and so passes the schema's format
    test -- exactly when at least n digits were typed; with fewer, the
    schema's refinement holds only for the empty text.  Sanitising twice
    changes nothing, and a text of exactly n digits is stored as typed. *)
Theorem identifier_input_sanitized (n : nat) (typed : string) :
  let digits := Forms.strip_non_digits typed in
  let s := Forms.sanitize n typed in
  all_digits s = true
  ∧ String.length s = Nat.min n (String.length digits)
  ∧ (digits_exact n s = true ↔ (n ≤ String.length digits)%nat)
  ∧ (id_refinement n (Some (JStr s)) = true ↔ digits = "" ∨ (n ≤ String.length digits)%nat)
  ∧ Forms.sanitize n s = s
  ∧ (digits_exact n typed = true → s = typed).
Proof.
  cbn zeta. unfold Forms.sanitize.
  pose proof (strip_all_digits typed) as Hd.
  pose proof (slice0_all_digits n _ Hd) as Hs.
  pose proof (slice0_length n (Forms.strip_non_digits typed)) as Hl.
  assert (Hex : digits_exact n (Forms.slice0 n (Forms.strip_non_digits typed)) = true
                ↔ (n ≤ String.length (Forms.strip_non_digits typed))%nat).
  { unfold digits_exact. rewrite Hs, andb_true_r, Hl, Nat.eqb_eq. lia. }
  split; [exact Hs|]. split; [exact Hl|]. split; [exact Hex|]. split; [|split].
  - unfold id_refinement. cbn [truthy]. rewrite orb_true_iff, negb_true_iff, negb_false_iff.
    rewrite Hex. split.
    + intros [He|Hn]; [|by right].
      apply String.eqb_eq in He.
      assert (H0 : Nat.min n (String.length (Forms.strip_non_digits typed)) = 0%nat)
        by (rewrite <- Hl, He; reflexivity).
      destruct (decide (n = 0%nat)) as [->|Hn0]; [right; lia|].
      left. apply length_zero_empty. lia.
    + intros [He|Hn]; [|by right].
      left. rewrite He. by destruct n.
  - rewrite (strip_digits_id _ Hs). apply slice0_short. rewrite Hl. lia.
  - unfold digits_exact. intros [Hlen Hall]%andb_prop. apply Nat.eqb_eq in Hlen.
    rewrite (strip_digits_id _ Hall). apply slice0_short. lia.
Qed.

(** X24.  A registration prepared with the form's own handlers: after the
    plan is chosen and an identifier typed, a submission that is sent
    carries the chosen plan, the sanitised identifier, which then has
    exactly 13 (RUC, plan pyme) or 10 (cedula, plan professional) digits,
    and the empty text for the other identifier. *)
Theorem form_flow_identifier (L : Lib) (values data : obj) (typed : string) :
  (Client.handleSubmit L (Forms.handleRucChange typed (Forms.handlePlanChange "pyme" values))
   = Client.Mutate data →
   data !! "plan" = Some (JStr "pyme")
   ∧ data !! "ruc" = Some (JStr (Forms.sanitize 13 typed))
   ∧ digits_exact 13 (Forms.sanitize 13 typed) = true
   ∧ data !! "cedula" = Some (JStr ""))
  ∧ (Client.handleSubmit L
       (Forms.handleCedulaChange typed (Forms.handlePlanChange "professional" values))
     = Client.Mutate data →
     data !! "plan" = Some (JStr "professional")
     ∧ data !! "cedula" = Some (JStr (Forms.sanitize 10 typed))
     ∧ digits_exact 10 (Forms.sanitize 10 typed) = true
     ∧ data !! "ruc" = Some (JStr "")).
Proof.
  assert (Hruc_form : ∀ plan k,
            Forms.handleRucChange typed (Forms.handlePlanChange plan values) !! k
            = if String.eqb "ruc" k then Some (JStr (Forms.sanitize 13 typed))
              else if String.eqb "cedula" k then Some (JStr "")
              else if String.eqb "plan" k then Some (JStr plan)
              else values !! k).
  { intros plan k. unfold Forms.handleRucChange, Forms.handlePlanChange, Forms.setValue.
    rewrite !lookup_js_set. by destruct (String.eqb "ruc" k). }
  assert (Hced_form : ∀ plan k,
            Forms.handleCedulaChange typed (Forms.handlePlanChange plan values) !! k
            = if String.eqb "cedula" k then Some (JStr (Forms.sanitize 10 typed))
              else if String.eqb "ruc" k then Some (JStr "")
              else if String.eqb "plan" k then Some (JStr plan)
              else values !! k).
  { intros plan k. unfold Forms.handleCedulaChange, Forms.handlePlanChange, Forms.setValue.
    rewrite !lookup_js_set. by destruct (String.eqb "cedula" k). }
  split.
  - unfold Client.handleSubmit.
    destruct (companyRegistrationSchema _ _) as [d|] eqn:Hs; [|discriminate].
    apply registration_parsed in Hs as (m & [= <-] & Hplan & Hruc & Hr13 & Hced & _).
    rewrite Hruc_form in Hplan, Hruc, Hr13, Hced.
    change (d !! "plan" = Some (JStr "pyme")) in Hplan.
    change (d !! "ruc" = Some (JStr (Forms.sanitize 13 typed))) in Hruc.
    change (d !! "cedula" = Some (JStr "")) in Hced.
    change (id_refinement 13 (Some (JStr (Forms.sanitize 13 typed))) = true) in Hr13.
    unfold Client.onSubmit. rewrite Hplan, Hruc. cbn [js_strict_eq].
    change (String.eqb "pyme" "pyme") with true.
    change (String.eqb "pyme" "professional") with false. cbn [andb].
    destruct (truthy (Some (JStr (Forms.sanitize 13 typed)))) eqn:Ht; cbn [negb];
      [|discriminate].
    intros [= <-].
    rewrite Hplan, Hruc, Hced. repeat split.
    unfold id_refinement in Hr13. rewrite Ht in Hr13. exact Hr13.
  - unfold Client.handleSubmit.
    destruct (companyRegistrationSchema _ _) as [d|] eqn:Hs; [|discriminate].
    apply registration_parsed in Hs as (m & [= <-] & Hplan & Hruc & _ & Hced & Hr10).
    rewrite Hced_form in Hplan, Hruc, Hr10, Hced.
    change (d !! "plan" = Some (JStr "professional")) in Hplan.
    change (d !! "cedula" = Some (JStr (Forms.sanitize 10 typed))) in Hced.
    change (d !! "ruc" = Some (JStr "")) in Hruc.
    change (id_refinement 10 (Some (JStr (Forms.sanitize 10 typed))) = true) in Hr10.
    unfold Client.onSubmit. rewrite Hplan, Hced. cbn [js_strict_eq].
    change (String.eqb "professional" "pyme") with false.
    change (String.eqb "professional" "professional") with true. cbn [andb].
    destruct (truthy (Some (JStr (Forms.sanitize 10 typed)))) eqn:Ht; cbn [negb];
      [|discriminate].
    intros [= <-].
    rewrite Hplan, Hruc, Hced. repeat split.
    unfold id_refinement in Hr10. rewrite Ht in Hr10. exact Hr10.
Qed.

Lemma form_flow_identifier_witness :
  ∃ data,
    Client.handleSubmit Demo.lib
      (Forms.handleRucChange "179-0012345-001 x" (Forms.handlePlanChange "pyme" Demo.pyme_without_ruc))
    = Client.Mutate data
    ∧ data !! "ruc" = Some (JStr "1790012345001")
    ∧ data !! "cedula" = Some (JStr "").
Proof.
  eexists. split; [vm_compute; reflexivity|].
  split; [|vm_compute; reflexivity].
  refine (proj1 (proj2 (proj1 (form_flow_identifier Demo.lib Demo.pyme_without_ruc _
                                  "179-0012345-001 x") _))).
  vm_compute. reflexivity.
Defined.

(** ** What the cards show *)

(** X25.  The colour of a service's expiry date on an application card.
    The date is shown only for a service with a positive cost and a set
    date.  A date before now is shown as expired, a date from now to less
    than 30 days ahead as expiring, any later date and any date that does
    not parse as plain.  At exactly 30 days ahead the card's summary
    ([getExpiryWarning]) still counts the service as expiring while the date
    itself is shown plain. *)
Theorem service_date_colour (L : Lib) (now : Z) (cost date : option jsval) :
  (Pages.positive L cost = false ∨ truthy date = false →
   Pages.serviceDateClass L now now cost date = None)
  ∧ (Pages.positive L cost = true → truthy date = true →
     (Client.time_of L date = None →
      Pages.serviceDateClass L now now cost date = Some Pages.cls_muted)
     ∧ (∀ d, Client.time_of L date = Some d →
          (Pages.serviceDateClass L now now cost date = Some Pages.cls_destructive ↔ d < now)
          ∧ (Pages.serviceDateClass L now now cost date = Some Pages.cls_chart_4
             ↔ now ≤ d < now + Client.THIRTY_DAYS_MS)
          ∧ (Pages.serviceDateClass L now now cost date = Some Pages.cls_muted
             ↔ now + Client.THIRTY_DAYS_MS ≤ d)
          ∧ (d = now + Client.THIRTY_DAYS_MS →
             ∀ app, app !! "domainExpiry" = date →
                    truthy (app !! "sslExpiry") = false →
                    truthy (app !! "hostingExpiry") = false →
                    truthy (app !! "serverExpiry") = false →
                    Client.getExpiryWarning L now now app
                    = Some (Client.mkWarning Client.expiring 1
                              [Client.mkItem "Dominio" date])))).
Proof.
  unfold Pages.serviceDateClass. split.
  - intros [->|Ht]; [reflexivity|]. rewrite Ht. by destruct (Pages.positive L cost).
  - intros Hc Ht. rewrite Hc, Ht. split.
    + intros ->. reflexivity.
    + intros d Hd. rewrite Hd. cbn [Client.t_lt].
      assert (H30 : 0 < Client.THIRTY_DAYS_MS) by reflexivity.
      split; [|split; [|split]].
      * destruct (Z.ltb_spec d now); [split; [lia|reflexivity]|].
        split; [|lia]. by destruct (d <? now + Client.THIRTY_DAYS_MS).
      * destruct (Z.ltb_spec d now); [split; [discriminate|lia]|].
        destruct (Z.ltb_spec d (now + Client.THIRTY_DAYS_MS));
          [split; [lia|reflexivity]|split; [discriminate|lia]].
      * destruct (Z.ltb_spec d now); [split; [discriminate|lia]|].
        destruct (Z.ltb_spec d (now + Client.THIRTY_DAYS_MS));
          [split; [discriminate|lia]|split; [lia|reflexivity]].
      * intros -> app Hdom Hssl Hhost Hserv.
        unfold Client.getExpiryWarning. cbn [List.filter Client.item_date].
        rewrite Hdom, Hssl, Hhost, Hserv, Ht.
        cbn [List.filter Client.item_date]. rewrite Hd.
        cbn [Client.t_lt Client.t_ge Client.t_le].
        destruct (Z.ltb_spec (now + Client.THIRTY_DAYS_MS) now) as [?|_]; [lia|].
        destruct (Z.leb_spec now (now + Client.THIRTY_DAYS_MS)) as [_|?]; [|lia].
        rewrite Z.leb_refl. reflexivity.
Qed.

(** X26.  The duration of a maintenance record, kept in whole minutes, is
    shown as hours and minutes.  For a duration that is not negative the
    two numbers give back the duration, with the minutes below 60.  For a
    negative duration that is not a whole number of hours they do not: the
    hours are rounded down and the minutes keep the sign, so together they
    stand for one hour less than the duration. *)
Theorem time_spent_display (t : Z) :
  (0 ≤ t →
   60 * Pages.timeSpentHours t + Pages.timeSpentMinutes t = t
   ∧ 0 ≤ Pages.timeSpentMinutes t < 60)
  ∧ (t < 0 → Pages.timeSpentMinutes t ≠ 0 →
     60 * Pages.timeSpentHours t + Pages.timeSpentMinutes t = t - 60
     ∧ -60 < Pages.timeSpentMinutes t < 0).
Proof.
  unfold Pages.timeSpentHours, Pages.timeSpentMinutes.
  pose proof (Z.div_mod t 60 ltac:(discriminate)) as Hfloor.
  pose proof (Z.mod_pos_bound t 60 ltac:(reflexivity)) as Hmod.
  pose proof (Z.quot_rem' t 60) as Htrunc.
  split.
  - intros Ht.
    pose proof (Z.rem_bound_pos t 60 Ht ltac:(reflexivity)) as Hrem.
    assert (t ÷ 60 = t / 60) by (apply Z.quot_div_nonneg; lia).
    lia.
  - intros Ht Hne.
    pose proof (Z.rem_bound_pos_neg t 60 ltac:(reflexivity) ltac:(lia)) as Hrem.
    assert (Hq : t / 60 = t ÷ 60 - 1).
    { symmetry. apply (Z.div_unique t 60 (t ÷ 60 - 1) (Z.rem t 60 + 60)); lia. }
    lia.
Qed.

(** ** The search boxes *)

Lemma includes_empty (hay : string) : Pages.includes hay "" = true.
Proof. by destruct hay. Qed.

(** A filter whose test throws on no element is the plain filter. *)
Lemma filter_res_ok (test : obj → Res bool) (l r : list obj) :
  Pages.filter_res test l = Ok r →
  r = List.filter (fun x => match test x with Ok true => true | _ => false end) l
  ∧ Forall (fun x => ∃ b, test x = Ok b) l.
Proof.
  revert r. induction l as [|x rest IH]; intros r; cbn [Pages.filter_res List.filter].
  - intros [= <-]. split; [reflexivity|constructor].
  - destruct (test x) as [keep|e] eqn:Hx; [|discriminate].
    destruct (Pages.filter_res test rest) as [kept|e]; [|discriminate].
    intros [= <-]. destruct (IH kept eq_refl) as [-> Hall].
    split; [by destruct keep|]. constructor; [eauto|exact Hall].
Qed.

Lemma filter_res_total (test : obj → Res bool) (l : list obj) :
  Forall (fun x => ∃ b, test x = Ok b) l → ∃ r, Pages.filter_res test l = Ok r.
Proof.
  induction 1 as [|x rest [b Hb] _ [r Hr]]; cbn [Pages.filter_res]; [eauto|].
  rewrite Hb, Hr. eauto.
Qed.

Lemma filter_res_throws (test : obj → Res bool) (l : list obj) (x : obj) :
  x ∈ l → (∃ e, test x = Throw e) → ∃ e, Pages.filter_res test l = Throw e.
Proof.
  intros Hin [e He].
  destruct (Pages.filter_res test l) as [r|e'] eqn:Hr; [|eauto].
  apply filter_res_ok in Hr as [_ Hall].
  rewrite Forall_forall in Hall. destruct (Hall x Hin) as [b Hb]. congruence.
Qed.

Lemma filter_res_ext (test test' : obj → Res bool) (l : list obj) :
  (∀ x, test x = test' x) → Pages.filter_res test l = Pages.filter_res test' l.
Proof.
  intros Heq. induction l as [|x rest IH]; [reflexivity|].
  cbn [Pages.filter_res]. by rewrite Heq, IH.
Qed.

Lemma or_else_ok (a b : Res bool) (r : bool) :
  Pages.or_else a b = Ok r →
  (a = Ok true ∧ r = true) ∨ (a = Ok false ∧ b = Ok r).
Proof. destruct a as [[]|]; cbn [Pages.or_else]; [intros [= <-]| |discriminate]; eauto. Qed.

Section SearchBoxes.

Context (lower : string → string).

Lemma matches_ok (v : option jsval) (term : string) (b : bool) :
  Pages.matches lower v term = Ok b →
  ∃ s, v = Some (JStr s) ∧ b = Pages.includes (lower s) term.
Proof. destruct v as [[]|]; try discriminate. intros [= <-]. eauto. Qed.

Lemma matches_opt_ok (v : option jsval) (term : string) (b : bool) :
  Pages.matches_opt lower v term = Ok b →
  (b = false ∧ (v = None ∨ v = Some JNull))
  ∨ ∃ s, v = Some (JStr s) ∧ b = Pages.includes (lower s) term.
Proof.
  destruct v as [[]|]; try discriminate; cbn [Pages.matches_opt Pages.matches];
    intros [= <-]; eauto.
Qed.

Lemma matches_throws (v : option jsval) (term : string) :
  ¬ Pages.is_string v → ∃ e, Pages.matches lower v term = Throw e.
Proof.
  intros Hn. destruct v as [[]|]; cbn [Pages.matches]; eauto.
  exfalso. apply Hn. unfold Pages.is_string. eauto.
Qed.

Lemma matches_opt_total (v : option jsval) (term : string) :
  Pages.string_or_nullish v → ∃ b, Pages.matches_opt lower v term = Ok b.
Proof. intros [->|[->|[s ->]]]; cbn [Pages.matches_opt Pages.matches]; eauto. Qed.

(** X27.  The search box of the physical-assets page.  When the filter
    returns, it returns, in their order, exactly the assets of type
    physical whose name, manufacturer or model, in lower case, contains
    the term in lower case; with an empty term, all assets of type
    physical.  The case of the term does not matter.  The filter returns
    whenever every physical asset has a text as its name and a text or
    nothing as its manufacturer and model, and it throws, whatever the
    term, as soon as one physical asset has no text as its name. *)
Theorem physical_search (assets : list obj) (term : string) :
  (∀ r, Pages.filteredAssets lower assets term = Ok r →
     (∃ keep, r = List.filter keep assets)
     ∧ (∀ a, a ∈ r ↔
             a ∈ assets ∧ Pages.of_type "physical" a = true
             ∧ (Pages.field_has lower a "name" term
                ∨ Pages.field_has lower a "manufacturer" term
                ∨ Pages.field_has lower a "model" term))
     ∧ (lower term = "" → r = List.filter (Pages.of_type "physical") assets))
  ∧ (lower (lower term) = lower term →
     Pages.filteredAssets lower assets (lower term) = Pages.filteredAssets lower assets term)
  ∧ (Forall (fun a => Pages.of_type "physical" a = true →
                      Pages.is_string (a !! "name")
                      ∧ Pages.string_or_nullish (a !! "manufacturer")
                      ∧ Pages.string_or_nullish (a !! "model")) assets →
     ∃ r, Pages.filteredAssets lower assets term = Ok r)
  ∧ ((∃ a, a ∈ assets ∧ Pages.of_type "physical" a = true ∧ ¬ Pages.is_string (a !! "name")) →
     ∃ e, Pages.filteredAssets lower assets term = Throw e).
Proof.
  unfold Pages.filteredAssets.
  set (test := fun asset : obj =>
         Pages.or_else (Pages.matches lower (asset !! "name") (lower term))
           (Pages.or_else (Pages.matches_opt lower (asset !! "manufacturer") (lower term))
                          (Pages.matches_opt lower (asset !! "model") (lower term)))).
  assert (Hhit : ∀ a b, test a = Ok b →
            (b = true ↔ Pages.field_has lower a "name" term
                        ∨ Pages.field_has lower a "manufacturer" term
                        ∨ Pages.field_has lower a "model" term)).
  { intros a b Hb. unfold test, Pages.field_has in *.
    apply or_else_ok in Hb as [[Hn ->]|[Hn Hb]].
    - apply matches_ok in Hn as (s & Hs & Hi). split; [|done]. intros _. left. eauto.
    - apply matches_ok in Hn as (s & Hs & Hi).
      apply or_else_ok in Hb as [[Hm ->]|[Hm Hb]].
      + apply matches_opt_ok in Hm as [[? _]|(s' & Hs' & Hi')]; [done|].
        split; [|done]. intros _. right. left. eauto.
      + apply matches_opt_ok in Hm as [[_ Hm]|(s' & Hs' & Hi')];
          apply matches_opt_ok in Hb as [[-> Hb]|(s'' & Hs'' & ->)].
        * split; [done|]. intros [(x & Hx & Hx')|[(x & Hx & _)|(x & Hx & _)]].
          -- congruence.
          -- destruct Hm; congruence.
          -- destruct Hb; congruence.
        * split.
          -- intros Ht. right. right. eauto.
          -- intros [(x & Hx & Hx')|[(x & Hx & _)|(x & Hx & Hx')]].
             ++ congruence.
             ++ destruct Hm; congruence.
             ++ congruence.
        * split; [done|]. intros [(x & Hx & Hx')|[(x & Hx & Hx')|(x & Hx & _)]].
          -- congruence.
          -- congruence.
          -- destruct Hb; congruence.
        * split.
          -- intros Ht. right. right. eauto.
          -- intros [(x & Hx & Hx')|[(x & Hx & Hx')|(x & Hx & Hx')]]; congruence. }
  split; [|split; [|split]].
  - intros r Hr. apply filter_res_ok in Hr as [-> Hall]. rewrite filter_filter.
    split; [eauto|]. split.
    + intros a. rewrite list_elem_of_In, List.filter_In, <- list_elem_of_In.
      rewrite andb_true_iff. split.
      * intros (Hin & Hty & Ht). split; [exact Hin|]. split; [exact Hty|].
        destruct (test a) as [[]|] eqn:Hta; try discriminate.
        by apply (Hhit a true).
      * intros (Hin & Hty & Hh). split; [exact Hin|]. split; [exact Hty|].
        rewrite Forall_forall in Hall.
        destruct (Hall a) as [b Hb].
        { rewrite list_elem_of_In. apply List.filter_In. by rewrite <- list_elem_of_In. }
        rewrite Hb. apply (Hhit a b Hb) in Hh. by subst b.
    + intros Hempty. apply List.filter_ext_in. intros a Hin.
      destruct (Pages.of_type "physical" a) eqn:Hty; [|reflexivity]. cbn [andb].
      rewrite Forall_forall in Hall.
      destruct (Hall a) as [b Hb].
      { rewrite list_elem_of_In. apply List.filter_In. by split. }
      rewrite Hb. pose proof Hb as Hb'. unfold test in Hb'.
      apply or_else_ok in Hb' as [[_ ->]|[Hn _]]; [reflexivity|].
      apply matches_ok in Hn as (s & _ & Hi).
      by rewrite Hempty, includes_empty in Hi.
  - intros Hidem. apply filter_res_ext. intros x. by rewrite Hidem.
  - intros Hwf. apply filter_res_total. apply Forall_forall. intros a Hin.
    apply list_elem_of_In, List.filter_In in Hin as [Hin Hty].
    rewrite Forall_forall in Hwf.
    destruct (Hwf a) as ([s Hs] & Hm & Hmo); [by apply list_elem_of_In|exact Hty|].
    unfold test. rewrite Hs. cbn [Pages.matches].
    destruct (matches_opt_total _ (lower term) Hm) as [b1 ->].
    destruct (matches_opt_total _ (lower term) Hmo) as [b2 ->].
    destruct (Pages.includes _ _), b1; cbn [Pages.or_else]; eauto.
  - intros (a & Hin & Hty & Hname). apply (filter_res_throws _ _ a).
    + apply list_elem_of_In, List.filter_In. split; [by apply list_elem_of_In|exact Hty].
    + unfold test. destruct (matches_throws _ (lower term) Hname) as [e ->].
      cbn [Pages.or_else]. eauto.
Qed.

(** X28.  The search box of the applications page.  When the filter
    returns, it returns, in their order, exactly the assets of type
    application whose name or description, in lower case, contains the
    term in lower case.  It returns whenever every application has a text
    as its name and a text or nothing as its description, and it throws,
    whatever the term, as soon as one application has no text as its
    name. *)
Theorem application_search (assets : list obj) (term : string) :
  (∀ r, Pages.filteredApplications lower assets term = Ok r →
     (∃ keep, r = List.filter keep assets)
     ∧ (∀ a, a ∈ r ↔
             a ∈ assets ∧ Pages.of_type "application" a = true
             ∧ (Pages.field_has lower a "name" term
                ∨ Pages.field_has lower a "description" term)))
  ∧ (Forall (fun a => Pages.of_type "application" a = true →
                      Pages.is_string (a !! "name")
                      ∧ Pages.string_or_nullish (a !! "description")) assets →
     ∃ r, Pages.filteredApplications lower assets term = Ok r)
  ∧ ((∃ a, a ∈ assets ∧ Pages.of_type "application" a = true
           ∧ ¬ Pages.is_string (a !! "name")) →
     ∃ e, Pages.filteredApplications lower assets term = Throw e).
Proof.
  unfold Pages.filteredApplications.
  set (test := fun app : obj =>
         Pages.or_else (Pages.matches lower (app !! "name") (lower term))
                       (Pages.matches_opt lower (app !! "description") (lower term))).
  assert (Hhit : ∀ a b, test a = Ok b →
            (b = true ↔ Pages.field_has lower a "name" term
                        ∨ Pages.field_has lower a "description" term)).
  { intros a b Hb. unfold test, Pages.field_has in *.
    apply or_else_ok in Hb as [[Hn ->]|[Hn Hb]].
    - apply matches_ok in Hn as (s & Hs & Hi). split; [|done]. intros _. left. eauto.
    - apply matches_ok in Hn as (s & Hs & Hi).
      apply matches_opt_ok in Hb as [[-> Hb]|(s' & Hs' & ->)].
      + split; [done|]. intros [(x & Hx & Hx')|(x & Hx & _)].
        * congruence.
        * destruct Hb; congruence.
      + split.
        * intros Ht. right. eauto.
        * intros [(x & Hx & Hx')|(x & Hx & Hx')]; congruence. }
  split; [|split].
  - intros r Hr. apply filter_res_ok in Hr as [-> Hall]. rewrite filter_filter.
    split; [eauto|].
    intros a. rewrite list_elem_of_In, List.filter_In, <- list_elem_of_In.
    rewrite andb_true_iff. split.
    + intros (Hin & Hty & Ht). split; [exact Hin|]. split; [exact Hty|].
      destruct (test a) as [[]|] eqn:Hta; try discriminate.
      by apply (Hhit a true).
    + intros (Hin & Hty & Hh). split; [exact Hin|]. split; [exact Hty|].
      rewrite Forall_forall in Hall.
      destruct (Hall a) as [b Hb].
      { rewrite list_elem_of_In. apply List.filter_In. by rewrite <- list_elem_of_In. }
      rewrite Hb. apply (Hhit a b Hb) in Hh. by subst b.
  - intros Hwf. apply filter_res_total. apply Forall_forall. intros a Hin.
    apply list_elem_of_In, List.filter_In in Hin as [Hin Hty].
    rewrite Forall_forall in Hwf.
    destruct (Hwf a) as ([s Hs] & Hd); [by apply list_elem_of_In|exact Hty|].
    unfold test. rewrite Hs. cbn [Pages.matches].
    destruct (matches_opt_total _ (lower term) Hd) as [b1 ->].
    destruct (Pages.includes _ _); cbn [Pages.or_else]; eauto.
  - intros (a & Hin & Hty & Hname). apply (filter_res_throws _ _ a).
    + apply list_elem_of_In, List.filter_In. split; [by apply list_elem_of_In|exact Hty].
    + unfold test. destruct (matches_throws _ (lower term) Hname) as [e ->].
      cbn [Pages.or_else]. eauto.
Qed.

End SearchBoxes.

(** The search on three sample assets: a term in another case finds the
    asset by its manufacturer. *)
Example search_sample :
  Pages.filteredAssets Pages.lower_ascii
    [ <["manufacturer" := JStr "Dell"]> Demo.asset_b;
      <["type" := JStr "application"]> Demo.asset_b;
      <["name" := JStr "Portatil"]> Demo.asset_b ] "DELL"
  = Ok [ <["manufacturer" := JStr "Dell"]> Demo.asset_b ].
Proof. vm_compute. reflexivity. Qed.

Lemma service_date_colour_witness :
  Pages.serviceDateClass Demo.lib 1000 1000 (Some (JNum 5))
    (Some (JNum (1000 + Client.THIRTY_DAYS_MS))) = Some Pages.cls_muted
  ∧ Client.getExpiryWarning Demo.lib 1000 1000
      {[ "domainExpiry" := JNum (1000 + Client.THIRTY_DAYS_MS) ]}
    = Some (Client.mkWarning Client.expiring 1
              [Client.mkItem "Dominio" (Some (JNum (1000 + Client.THIRTY_DAYS_MS)))]).
Proof.
  destruct (service_date_colour Demo.lib 1000 (Some (JNum 5))
              (Some (JNum (1000 + Client.THIRTY_DAYS_MS)))) as [_ H].
  destruct (H eq_refl eq_refl) as [_ Hd].
  destruct (Hd (1000 + Client.THIRTY_DAYS_MS) eq_refl) as (_ & _ & Hmuted & Hwarn).
  split.
  - apply Hmuted. lia.
  - apply (Hwarn eq_refl); reflexivity.
Defined.

Lemma time_spent_display_witness :
  60 * Pages.timeSpentHours 135 + Pages.timeSpentMinutes 135 = 135
  ∧ 60 * Pages.timeSpentHours (-90) + Pages.timeSpentMinutes (-90) = -90 - 60.
Proof.
  split.
  - apply (proj1 (time_spent_display 135)). lia.
  - apply (proj2 (time_spent_display (-90))); [lia|discriminate].
Defined.

Lemma physical_search_witness :
  (∃ r, Pages.filteredAssets Pages.lower_ascii
          [ <["manufacturer" := JStr "Dell"]> Demo.asset_b ] "DELL" = Ok r)
  ∧ (∃ e, Pages.filteredAssets Pages.lower_ascii
            [ Demo.asset_b; delete "name" Demo.asset_b ] "" = Throw e).
Proof.
  split.
  - apply (proj1 (proj2 (proj2
             (physical_search Pages.lower_ascii
                [ <["manufacturer" := JStr "Dell"]> Demo.asset_b ] "DELL")))).
    constructor; [|constructor]. intros _.
    split; [exists "Servidor B"; reflexivity|].
    split; [right; right; exists "Dell"; reflexivity|left; reflexivity].
  - apply (proj2 (proj2 (proj2
             (physical_search Pages.lower_ascii
                [ Demo.asset_b; delete "name" Demo.asset_b ] "")))).
    exists (delete "name" Demo.asset_b).
    split; [apply list_elem_of_In; right; left; reflexivity|].
    split; [vm_compute; reflexivity|].
    intros [s Hs]. vm_compute in Hs. discriminate Hs.
Defined.

Lemma application_search_witness :
  ∃ e, Pages.filteredApplications Pages.lower_ascii
         [ <["type" := JStr "application"]> (delete "name" Demo.asset_b) ] "portal"
       = Throw e.
Proof.
  apply (proj2 (proj2
           (application_search Pages.lower_ascii
              [ <["type" := JStr "application"]> (delete "name" Demo.asset_b) ] "portal"))).
  exists (<["type" := JStr "application"]> (delete "name" Demo.asset_b)).
  split; [apply list_elem_of_In; left; reflexivity|].
  split; [vm_compute; reflexivity|].
  intros [s Hs]. vm_compute in Hs. discriminate Hs.
Defined.
